(** * UrbanSetu: the complaint submission wizard and the complaint service

    A shallow embedding of
      - src/components/citizen/ReportComplaint.js (the report wizard),
      - src/components/common/GoogleMap.js (the location picker it embeds),
      - src/services/complaintService.js (the data-access layer),
      - src/contexts/AuthContext.js (the session provider),
      - src/components/auth/ProtectedRoute.js and the routes of src/App.js,
      - the submit handler of src/components/auth/RegisterPage.js and the
        handlers of src/components/ProfilePage.js,
      - the data handling of src/components/admin/AdminDashboard.js and of
        src/components/citizen/CitizenDashboard.js,
    together with the [complaints] table as SUPABASE_INTEGRATION.md
    declares it, followed by the properties stated about them.

    JavaScript objects are finite maps from property names to values
    ([gmap string value]); a property that is absent reads as
    [VUndefined].  Asynchronous handlers are run to completion: whatever
    an [await] obtains from the outside (a provider's response, the
    classifier's answer, the answer of the store) is an argument of the
    handler.  Numbers are the rationals that the doubles of the program
    denote; they are only compared and printed, never computed with.
    A string is a sequence of [ascii] code units. *)

From Stdlib Require Import ZArith QArith Qround String Ascii List Lia Lqa.
From stdpp Require Import base option list gmap strings pretty sorting.

Local Open Scope string_scope.
Local Open Scope list_scope.

(** ** JavaScript values and the built-ins the program uses *)

Module Js.

Inductive value :=
| VUndefined
| VNull
| VStr (s : string)
| VNum (q : Q)
| VNaN
| VTime (t : Z)                  (* an ISO-8601 instant, milliseconds since the epoch *)
| VPrediction (predictedClass : string) (confidence : Q).
                                 (* { predictedClass, confidence, allPredictions } *)

(** What can be thrown: an [Error]-like object with its message, or a
    bare [null]/[undefined] (reading a property of it throws in turn). *)
Inductive thrown :=
| ThrownError (message : string)
| ThrownNullish.

(** The completion of a computation that may throw. *)
Inductive completion (A : Type) :=
| Normal (a : A)
| Throw (e : thrown).
Arguments Normal {A} a.
Arguments Throw {A} e.

Definition bind {A B} (c : completion A) (k : A -> completion B) : completion B :=
  match c with
  | Normal a => k a
  | Throw e => Throw e
  end.

(** [try c catch (e) { h e }] *)
Definition try_catch {A} (c : completion A) (h : thrown -> completion A) : completion A :=
  match c with
  | Normal a => Normal a
  | Throw e => h e
  end.

(** [o.k] for an object [o]. *)
Definition get (o : gmap string value) (k : string) : value :=
  default VUndefined (o !! k).

(** ToBoolean. *)
Definition truthy (v : value) : bool :=
  match v with
  | VUndefined | VNull | VNaN => false
  | VStr s => negb (String.eqb s "")
  | VNum q => negb (Qeq_bool q 0)
  | VTime _ | VPrediction _ _ => true
  end.

(** [a || b] *)
Definition or_else (a b : value) : value := if truthy a then a else b.

(** [a === 'lit'] for a string literal. *)
Definition is_str (v : value) (lit : string) : bool :=
  match v with
  | VStr s => String.eqb s lit
  | _ => false
  end.

Definition nonempty (s : string) : Prop := s <> "".

(** [s.startsWith(p)] *)
Fixpoint starts_with (p s : string) : bool :=
  match p, s with
  | EmptyString, _ => true
  | String a p', String b s' => Ascii.eqb a b && starts_with p' s'
  | String _ _, EmptyString => false
  end.

(** [s.includes(needle)] *)
Fixpoint includes (s needle : string) : bool :=
  starts_with needle s ||
  match s with
  | EmptyString => false
  | String _ s' => includes s' needle
  end.

Fixpoint drop_chars (n : nat) (s : string) : string :=
  match n, s with
  | O, _ => s
  | S n', String _ s' => drop_chars n' s'
  | S _, EmptyString => EmptyString
  end.

(** The text before and after the first occurrence of [pat] in [s]. *)
Fixpoint split_at_first (pat s : string) : option (string * string) :=
  if starts_with pat s then Some (EmptyString, drop_chars (String.length pat) s)
  else match s with
       | EmptyString => None
       | String c s' =>
           match split_at_first pat s' with
           | Some (before, after) => Some (String c before, after)
           | None => None
           end
       end.

(** GetSubstitution for a string pattern (no captures): [$$], [$&],
    [$`] and [$'] are expanded in the replacement text. *)
Fixpoint get_substitution (matched before after repl : string) : string :=
  match repl with
  | EmptyString => EmptyString
  | String "$" (String "$" r) => String "$" (get_substitution matched before after r)
  | String "$" (String "&" r) => matched ++ get_substitution matched before after r
  | String "$" (String "`" r) => before ++ get_substitution matched before after r
  | String "$" (String "'" r) => after ++ get_substitution matched before after r
  | String c r => String c (get_substitution matched before after r)
  end.

(** [s.replace(pat, repl)] with a string pattern: the first occurrence only. *)
Definition replace (s pat repl : string) : string :=
  match split_at_first pat s with
  | Some (before, after) => before ++ get_substitution pat before after repl ++ after
  | None => s
  end.

(** [parts.join(sep)] *)
Fixpoint join (sep : string) (parts : list string) : string :=
  match parts with
  | [] => EmptyString
  | [p] => p
  | p :: rest => p ++ sep ++ join sep rest
  end.

(** [parts.includes(s)] *)
Definition array_includes (parts : list string) (s : string) : bool :=
  existsb (String.eqb s) parts.

Fixpoint zeros (n : nat) : string :=
  match n with
  | O => EmptyString
  | S n' => String "0" (zeros n')
  end.

(** [s.padStart(width, '0')] *)
Definition pad_left (width : nat) (s : string) : string :=
  zeros (width - String.length s) ++ s.

(** [x.toFixed(f)] for |x| < 10^21: the decimal numeral [n / 10^f]
    nearest to [x], the larger [n] on a tie, the sign taken first. *)
Definition toFixed (x : Q) (f : nat) : string :=
  let neg := Qlt_le_dec x 0 in
  let ax := if neg then Qopp x else x in
  let scale := (10 ^ Z.of_nat f)%Z in
  let n := Qfloor (ax * inject_Z scale + (1 # 2)) in
  let int_part := pretty (Z.to_N (n / scale)) in
  let frac_part := pad_left f (pretty (Z.to_N (n mod scale))) in
  (if neg then "-" else "") ++ int_part ++
  (match f with O => "" | S _ => "." ++ frac_part end).

(** [v.toFixed(f)] on a value: only numbers have the method. *)
Definition to_fixed (v : value) (f : nat) : completion string :=
  match v with
  | VNum q => Normal (toFixed q f)
  | VNaN => Normal "NaN"
  | _ => Throw (ThrownError "toFixed is not a function")
  end.

(** [parseFloat v].  A number prints and parses back to itself;
    [undefined], [null], [NaN] and objects give [NaN].  How a string
    parses is left to [parse_decimal]: the numeral syntax of the language. *)
Definition parseFloat (parse_decimal : string -> value) (v : value) : value :=
  match v with
  | VNum q => VNum q
  | VStr s => parse_decimal s
  | VUndefined | VNull | VNaN | VTime _ | VPrediction _ _ => VNaN
  end.

End Js.

(** ** Reverse geocoding: [reverseGeocode] of ReportComplaint.js *)

Module Geocode.
Import Js.

(** The part of [data.localityInfo] the code looks at. *)
Record locality_info := { administrative : option (list string) }.

(** The JSON body of a provider's answer, with the properties the code
    reads.  [address] is Nominatim's address object, a map from
    component names ([road], [suburb], [city], ...) to text. *)
Record response := {
  address : option (gmap string string);
  display_name : option string;
  localityInfo : option locality_info;
  locality : option string;
  principalSubdivision : option string;
  countryName : option string
}.

(** What [await fetch(url)] followed by [await response.json()] gives:
    a rejection, or the parsed body ([None] is the body [null]). *)
Inductive outcome :=
| Rejected (e : thrown)
| Resolved (data : option response).

Inductive service_type := nominatim | bigdatacloud | nominatim_alt.

(** The [services] array, in the order it is tried. *)
Definition services : list service_type := [nominatim; bigdatacloud; nominatim_alt].

(** Truthiness of a text property that may be absent. *)
Definition present (f : option string) : bool :=
  match f with
  | Some s => negb (String.eqb s "")
  | None => false
  end.

(** [a || b] on such properties. *)
Definition either (a b : option string) : option string :=
  if present a then a else b.

(** [if (f) parts.push(f)] *)
Definition push (parts : list string) (f : option string) : list string :=
  match f with
  | Some s => if present f then parts ++ [s] else parts
  | None => parts
  end.

(** [if (f && !parts.includes(f)) parts.push(f)] *)
Definition push_new (parts : list string) (f : option string) : list string :=
  match f with
  | Some s => if present f && negb (array_includes parts s) then parts ++ [s] else parts
  | None => parts
  end.

(** [data.x] once the body is known: reading a property of [null] throws. *)
Definition body (data : option response) : completion response :=
  match data with
  | Some d => Normal d
  | None => Throw (ThrownError "Cannot read properties of null")
  end.

(** The branch for [service.type === 'nominatim']: [Some a] is
    [return a], [None] falls out of the branch. *)
Definition nominatim_branch (data : response) : option string :=
  match address data with
  | Some addr =>
      let parts := [] in
      let parts := push parts (addr !! "house_number") in
      let parts := push parts (either (addr !! "road") (addr !! "street")) in
      let parts := push parts (addr !! "suburb") in
      let parts := push parts (addr !! "neighbourhood") in
      let parts := push parts (addr !! "quarter") in
      let parts := push parts (addr !! "hamlet") in
      let parts := push parts (addr !! "village") in
      let parts := push parts (addr !! "city_district") in
      let parts := push parts (addr !! "district") in
      let parts := push parts (addr !! "borough") in
      let parts := push_new parts (addr !! "city") in
      let parts := push_new parts (addr !! "town") in
      let parts := push_new parts (addr !! "municipality") in
      let parts := push parts (addr !! "county") in
      let parts := push parts (either (addr !! "state") (addr !! "province")) in
      let parts := push parts (addr !! "postcode") in
      let fullAddress := join ", " parts in
      if (15 <? String.length fullAddress)%nat then Some fullAddress
      else if present (display_name data) &&
              (String.length fullAddress <? String.length (default "" (display_name data)))%nat
      then display_name data
      else if (String.length fullAddress <? 10)%nat then
        let fallbackParts := [] in
        let fallbackParts := push fallbackParts (either (addr !! "road") (addr !! "street")) in
        let fallbackParts :=
          push fallbackParts (either (addr !! "suburb") (addr !! "neighbourhood")) in
        let fallbackParts := push_new fallbackParts (addr !! "city") in
        let fallbackParts := push_new fallbackParts (addr !! "state") in
        let fallbackParts := push fallbackParts (addr !! "postcode") in
        if (0 <? length fallbackParts)%nat then Some (join ", " fallbackParts) else None
      else None
  | None => None
  end.

Definition locality_parts (data : response) : list string :=
  let parts := [] in
  let parts := push parts (locality data) in
  let parts := push parts (principalSubdivision data) in
  push parts (countryName data).

(** The branch for [service.type === 'bigdatacloud']. *)
Definition bigdatacloud_branch (data : response) : option string :=
  let first :=
    match localityInfo data with
    | Some info =>
        match administrative info with
        | Some _ =>
            let address := join ", " (locality_parts data) in
            if (15 <? String.length address)%nat then Some address else None
        | None => None
        end
    | None => None
    end in
  match first with
  | Some a => Some a
  | None =>
      if present (locality data) || present (principalSubdivision data)
         || present (countryName data)
      then
        let address := join ", " (locality_parts data) in
        if (15 <? String.length address)%nat then Some address else None
      else None
  end.

(** The branch for [service.type === 'nominatim_alt']. *)
Definition nominatim_alt_branch (data : response) : option string :=
  let first :=
    match address data with
    | Some addr =>
        let parts := [] in
        let parts := push parts (addr !! "house_number") in
        let parts := push parts (either (addr !! "road") (addr !! "street")) in
        let parts := push parts (either (addr !! "suburb") (addr !! "neighbourhood")) in
        let parts := push parts (either (addr !! "city_district") (addr !! "district")) in
        let parts := push parts (either (addr !! "city") (addr !! "town")) in
        let parts := push parts (addr !! "state") in
        let parts := push parts (addr !! "postcode") in
        let fullAddress := join ", " parts in
        if (15 <? String.length fullAddress)%nat then Some fullAddress else None
    | None => None
    end in
  match first with
  | Some a => Some a
  | None => if present (display_name data) then display_name data else None
  end.

Definition branch (ty : service_type) (data : response) : option string :=
  match ty with
  | nominatim => nominatim_branch data
  | bigdatacloud => bigdatacloud_branch data
  | nominatim_alt => nominatim_alt_branch data
  end.

(** The body of the inner [try] for one service. *)
Definition attempt (ty : service_type) (o : outcome) : completion (option string) :=
  match o with
  | Rejected e => Throw e
  | Resolved data => bind (body data) (fun d => Normal (branch ty d))
  end.

(** The handler of the inner [catch]: it reads [serviceError.message]
    for the log line and continues with the next service. *)
Definition log_service_error (e : thrown) : completion unit :=
  match e with
  | ThrownError _ => Normal tt
  | ThrownNullish => Throw (ThrownError "Cannot read properties of undefined")
  end.

(** [for (const service of services) { try { ... } catch { continue } }]:
    [Normal (Some a)] is [return a] from inside the loop, [Normal None]
    is the loop running to its end. *)
Fixpoint try_services (fetch : service_type -> outcome) (todo : list service_type)
  : completion (option string) :=
  match todo with
  | [] => Normal None
  | ty :: rest =>
      match attempt ty (fetch ty) with
      | Normal (Some a) => Normal (Some a)
      | Normal None => try_services fetch rest
      | Throw e => bind (log_service_error e) (fun _ => try_services fetch rest)
      end
  end.

(** [`GPS Location: ${latitude.toFixed(6)}, ${longitude.toFixed(6)}`] *)
Definition gps_fallback (latitude longitude : value) : completion string :=
  bind (to_fixed latitude 6) (fun a =>
  bind (to_fixed longitude 6) (fun b =>
  Normal ("GPS Location: " +:+ a +:+ ", " +:+ b))).

(** [`${latitude.toFixed(6)}, ${longitude.toFixed(6)}`] *)
Definition bare_coordinates (latitude longitude : value) : completion string :=
  bind (to_fixed latitude 6) (fun a =>
  bind (to_fixed longitude 6) (fun b =>
  Normal (a +:+ ", " +:+ b))).

(** [reverseGeocode(latitude, longitude)]: the services in turn, then
    the coordinate text; the outer [catch] answers with the bare
    coordinates. *)
Definition reverseGeocode (fetch : service_type -> outcome)
    (latitude longitude : value) : completion string :=
  try_catch
    (bind (try_services fetch services) (fun found =>
       match found with
       | Some a => Normal a
       | None => gps_fallback latitude longitude
       end))
    (fun _ => bare_coordinates latitude longitude).

(** A service fails when its attempt yields no address: the request
    or the parsing throws an error, or the answer has nothing usable. *)
Definition failed (ty : service_type) (o : outcome) : Prop :=
  attempt ty o = Normal None \/ exists m, attempt ty o = Throw (ThrownError m).

End Geocode.

(** ** The hosted store: the [complaints] table and the image bucket *)

Module Supabase.
Import Js.

(** The table as SUPABASE_INTEGRATION.md creates it: its columns, the
    ones declared [NOT NULL], and the declared defaults.  A row is an
    object with one property per column; the table keeps its rows in
    insertion order.  The row policies are the permissive ones of the
    repository's fix script ([USING (true)], [WITH CHECK (true)]).  Any
    other way in which the backend may refuse a request (network, an
    unknown column, type or length of a value) is the [fault] argument
    of a request. *)
Definition columns : list string :=
  ["id"; "user_id"; "category"; "description"; "priority"; "status";
   "department"; "address"; "latitude"; "longitude"; "image_url";
   "ai_prediction"; "ai_confidence"; "created_at"; "updated_at";
   "resolved_at"; "admin_notes"; "assigned_to"].

Definition not_null_columns : list string :=
  ["category"; "description"; "priority"; "status"; "department";
   "address"; "latitude"; "longitude"].

(** [DEFAULT gen_random_uuid()], [DEFAULT 'medium'], [DEFAULT 'pending'],
    [DEFAULT NOW()]; a column without a default starts as [NULL]. *)
Definition column_default (id : string) (now : Z) (column : string) : value :=
  if String.eqb column "id" then VStr id
  else if String.eqb column "priority" then VStr "medium"
  else if String.eqb column "status" then VStr "pending"
  else if String.eqb column "created_at" then VTime now
  else if String.eqb column "updated_at" then VTime now
  else VNull.

(** The request body is JSON: a property that is [undefined] is left
    out, [NaN] is written as [null]. *)
Definition sent (data : gmap string value) (column : string) : option value :=
  match data !! column with
  | Some VUndefined | None => None
  | Some VNaN => Some VNull
  | Some v => Some v
  end.

Definition is_null (v : value) : bool :=
  match v with
  | VNull | VUndefined => true
  | _ => false
  end.

(** A value that reaches its column as something other than [NULL]. *)
Definition storable (v : value) : Prop :=
  match v with
  | VUndefined | VNull | VNaN => False
  | _ => True
  end.

Definition violates_not_null (r : gmap string value) : option string :=
  find (fun column => is_null (get r column)) not_null_columns.

Definition not_null_violation (column : string) : thrown :=
  ThrownError ("null value in column " ++ column ++ " violates not-null constraint").

(** The row an [INSERT] of [data] builds.  A number is kept as it is
    sent: the rounding of latitude, longitude and ai_confidence to the
    scale their DECIMAL columns declare is not modelled. *)
Definition new_row (id : string) (now : Z) (data : gmap string value)
  : gmap string value :=
  list_to_map
    (map (fun column =>
            (column, default (column_default id now column) (sent data column)))
         columns).

(** [.from('complaints').insert([data]).select().single()]: the table
    afterwards and [{ data, error }]. *)
Definition insert (fault : option thrown) (id : string) (now : Z)
    (data : gmap string value) (table : list (gmap string value))
  : list (gmap string value) * completion (gmap string value) :=
  match fault with
  | Some e => (table, Throw e)
  | None =>
      let r := new_row id now data in
      match violates_not_null r with
      | Some column => (table, Throw (not_null_violation column))
      | None => (table ++ [r], Normal r)
      end
  end.

(** The row an [UPDATE ... SET] of [patch] turns [r] into. *)
Definition patched (patch r : gmap string value) : gmap string value :=
  list_to_map
    (map (fun column => (column, default (get r column) (sent patch column)))
         columns).

Definition has_id (id : string) (r : gmap string value) : bool :=
  is_str (get r "id") id.

Definition no_rows : thrown :=
  ThrownError "JSON object requested, multiple (or no) rows returned".

(** [.update(patch).eq('id', id).select().single()] *)
Definition update (fault : option thrown) (id : string) (patch : gmap string value)
    (table : list (gmap string value))
  : list (gmap string value) * completion (gmap string value) :=
  match fault with
  | Some e => (table, Throw e)
  | None =>
      match find (has_id id) table with
      | None => (table, Throw no_rows)
      | Some r =>
          let r' := patched patch r in
          match violates_not_null r' with
          | Some column => (table, Throw (not_null_violation column))
          | None =>
              (map (fun x => if has_id id x then patched patch x else x) table,
               Normal r')
          end
      end
  end.

(** *** Queries *)

(** ASCII case folding, as [ILIKE] compares. *)
Definition lower_char (c : ascii) : ascii :=
  let n := nat_of_ascii c in
  if (65 <=? n)%nat && (n <=? 90)%nat then ascii_of_nat (n + 32) else c.

Fixpoint lower (s : string) : string :=
  match s with
  | EmptyString => EmptyString
  | String c s' => String (lower_char c) (lower s')
  end.

(** [s LIKE p]: [%] stands for any text, [_] for any one character, a
    backslash takes the next character literally. *)
Fixpoint like (p s : string) {struct p} : bool :=
  match p with
  | EmptyString => String.eqb s ""
  | String "%" p' =>
      (fix any (s : string) : bool :=
         like p' s ||
         match s with
         | EmptyString => false
         | String _ s' => any s'
         end) s
  | String "_" p' =>
      match s with
      | String _ s' => like p' s'
      | EmptyString => false
      end
  | String "\" p' =>
      match p' with
      | String c p'' =>
          match s with
          | String d s' => Ascii.eqb c d && like p'' s'
          | EmptyString => false
          end
      | EmptyString => false
      end
  | String c p' =>
      match s with
      | String d s' => Ascii.eqb c d && like p' s'
      | EmptyString => false
      end
  end.

(** The characters [like] gives a meaning to, and the patterns free of them. *)
Definition special (c : ascii) : bool :=
  existsb (Ascii.eqb c) ["%"; "_"; "\"]%char.

Fixpoint literal (p : string) : bool :=
  match p with
  | EmptyString => true
  | String c p' => negb (special c) && literal p'
  end.

(** In a request, [*] may be written for [%]. *)
Fixpoint request_pattern (p : string) : string :=
  match p with
  | EmptyString => EmptyString
  | String "*" p' => String "%" (request_pattern p')
  | String c p' => String c (request_pattern p')
  end.

(** [column.ilike.pattern] *)
Definition ilike (pattern s : string) : bool :=
  like (lower (request_pattern pattern)) (lower s).

Inductive filter :=
| Eq (column value : string)                    (* .eq(column, value) *)
| OrIlike (conditions : list (string * string)). (* .or('c1.ilike.p1,c2.ilike.p2') *)

Definition column_ilike (r : gmap string value) (condition : string * string) : bool :=
  match get r condition.1 with
  | VStr s => ilike condition.2 s
  | _ => false
  end.

Definition holds (r : gmap string value) (f : filter) : bool :=
  match f with
  | Eq column v => is_str (get r column) v
  | OrIlike conditions => existsb (column_ilike r) conditions
  end.

(** The sort key of [ORDER BY created_at DESC]: [NULL] sorts first. *)
Definition created_at (r : gmap string value) : option Z :=
  match get r "created_at" with
  | VTime t => Some t
  | _ => None
  end.

Definition not_older (a b : gmap string value) : Prop :=
  match created_at a, created_at b with
  | None, _ => True
  | Some _, None => False
  | Some x, Some y => (y <= x)%Z
  end.

#[export] Instance not_older_dec a b : Decision (not_older a b).
Proof.
  unfold not_older. destruct (created_at a), (created_at b); apply _.
Defined.

(** [.select('*').order('created_at', { ascending: false })] with filters. *)
Definition select (fault : option thrown) (filters : list filter)
    (table : list (gmap string value)) : completion (list (gmap string value)) :=
  match fault with
  | Some e => Throw e
  | None =>
      Normal (merge_sort not_older
                (List.filter (fun r => forallb (holds r) filters) table))
  end.

(** [storage.from('complaint-images').upload(fileName, file)] answers
    with an error or stores the file; [getPublicUrl] then names it. *)
Inductive upload_outcome :=
| UploadRejected (message : string)
| UploadStored (publicUrl : string).

End Supabase.

(** ** complaintService.js *)

Module ComplaintService.
Import Js Supabase.

(** [uploadImage]: a rejection mentioning a missing bucket is rethrown
    with instructions, any other as it is. *)
Definition uploadImage (storage : upload_outcome) : completion string :=
  match storage with
  | UploadRejected message =>
      if includes message "Bucket not found" || includes message "not found"
      then Throw (ThrownError
             "Storage bucket complaint-images not found. Please create it in Supabase Dashboard.")
      else Throw (ThrownError message)
  | UploadStored publicUrl => Normal publicUrl
  end.

Definition submitComplaint (fault : option thrown) (id : string) (now : Z)
    (complaintData : gmap string value) (table : list (gmap string value))
  : list (gmap string value) * completion (gmap string value) :=
  insert fault id now complaintData table.

(** [data || []] of a successful query is the list of rows. *)
Definition getUserComplaints (fault : option thrown) (userId : string)
    (table : list (gmap string value)) : completion (list (gmap string value)) :=
  select fault [Eq "user_id" userId] table.

(** The filter object of [getAllComplaints]: its properties are text. *)
Definition given (filters : gmap string string) (k : string) : option string :=
  match filters !! k with
  | Some s => if String.eqb s "" then None else Some s
  | None => None
  end.

Definition query_filters (filters : gmap string string) : list filter :=
  (match given filters "status" with
   | Some s => if String.eqb s "all" then [] else [Eq "status" s]
   | None => []
   end) ++
  (match given filters "category" with
   | Some c => [Eq "category" c]
   | None => []
   end) ++
  (match given filters "department" with
   | Some d => [Eq "department" d]
   | None => []
   end) ++
  (match given filters "search" with
   | Some q => [OrIlike [("description", ("%" ++ q ++ "%")%string);
                         ("address", ("%" ++ q ++ "%")%string)]]
   | None => []
   end).

Definition getAllComplaints (fault : option thrown) (filters : gmap string string)
    (table : list (gmap string value)) : completion (list (gmap string value)) :=
  select fault (query_filters filters) table.

(** [updateData]: the spread of [updates], then [updated_at], then
    [resolved_at] when the update sets the status to resolved. *)
Definition updateData (now : Z) (updates : gmap string value) : gmap string value :=
  let d := <["updated_at" := VTime now]> updates in
  if is_str (get updates "status") "resolved"
  then <["resolved_at" := VTime now]> d
  else d.

Definition updateComplaintStatus (fault : option thrown) (now : Z)
    (complaintId : string) (updates : gmap string value)
    (table : list (gmap string value))
  : list (gmap string value) * completion (gmap string value) :=
  update fault complaintId (updateData now updates) table.

(** The row a successful [updateComplaintStatus] leaves in place of [r]. *)
Definition updated_row (now : Z) (updates r : gmap string value) : gmap string value :=
  patched (updateData now updates) r.

(** *** Sequences of calls *)

Inductive operation :=
| Submit (fault : option thrown) (id : string) (now : Z)
    (complaintData : gmap string value)
| UpdateStatus (fault : option thrown) (now : Z) (complaintId : string)
    (updates : gmap string value).

Definition perform (op : operation) (table : list (gmap string value))
  : list (gmap string value) :=
  match op with
  | Submit fault id now complaintData =>
      (submitComplaint fault id now complaintData table).1
  | UpdateStatus fault now complaintId updates =>
      (updateComplaintStatus fault now complaintId updates table).1
  end.

(** The table after a list of calls, from the empty table. *)
Definition history (ops : list operation) : list (gmap string value) :=
  fold_left (fun table op => perform op table) ops [].

(** A submission as the wizard makes it (status pending, no
    [resolved_at]); an update that does not itself carry [resolved_at]. *)
Definition plain_operation (op : operation) : Prop :=
  match op with
  | Submit _ _ _ complaintData =>
      get complaintData "status" = VStr "pending" /\
      sent complaintData "resolved_at" = None
  | UpdateStatus _ _ _ updates => sent updates "resolved_at" = None
  end.

Definition resolved_has_time (r : gmap string value) : Prop :=
  is_str (get r "status") "resolved" = true -> is_null (get r "resolved_at") = false.

(** [resolved_at] is set if and only if the status is resolved. *)
Definition resolved_iff_time (r : gmap string value) : bool :=
  Bool.eqb (negb (is_null (get r "resolved_at"))) (is_str (get r "status") "resolved").

(** *** What a listing is said to return *)

(** Characters with a meaning of their own in an [ilike] pattern or in
    the text of an [or] filter. *)
Definition reserved (c : ascii) : bool :=
  existsb (Ascii.eqb c) ["%"; "_"; "\"; "*"; ","; "("; ")"; ascii_of_nat 34]%char.

Fixpoint plain (q : string) : bool :=
  match q with
  | EmptyString => true
  | String c q' => negb (reserved c) && plain q'
  end.

(** [v] is text that contains [q], letter case aside. *)
Definition contains_ci (v : value) (q : string) : bool :=
  match v with
  | VStr s => includes (lower s) (lower q)
  | _ => false
  end.

Definition matches_search (r : gmap string value) (q : string) : bool :=
  contains_ci (get r "description") q || contains_ci (get r "address") q.

(** The complaints a filter object asks for. *)
Definition selected (filters : gmap string string) (r : gmap string value) : bool :=
  (match given filters "status" with
   | Some s => String.eqb s "all" || is_str (get r "status") s
   | None => true
   end) &&
  (match given filters "category" with
   | Some c => is_str (get r "category") c
   | None => true
   end) &&
  (match given filters "department" with
   | Some d => is_str (get r "department") d
   | None => true
   end) &&
  (match given filters "search" with
   | Some q => matches_search r q
   | None => true
   end).

End ComplaintService.

(** ** ReportComplaint.js: the three-step wizard *)

Module Wizard.
Import Js.

Definition AI_CLASSES : list string :=
  ["Pothole"; "Garbage"; "Sewage"; "StreetLight"; "FallenTree"].

Definition CONFIDENCE_THRESHOLD : Q := 6 # 10.

Definition DEPARTMENT_MAPPING : gmap string string :=
  list_to_map
    [("Pothole", "Road Authority");
     ("Garbage", "Sanitation Department");
     ("Sewage", "Water & Sewage Board");
     ("StreetLight", "Electrical Department");
     ("FallenTree", "Parks & Horticulture")].

Definition DESCRIPTION_TEMPLATES : gmap string string :=
  list_to_map
    [("Pothole",
      "I have noticed a pothole at [ADDRESS]. It is creating difficulty for pedestrians and vehicles.");
     ("Garbage",
      "There is accumulated garbage at [ADDRESS]. It needs immediate attention for cleanliness.");
     ("Sewage",
      "There is sewage overflow/blockage at [ADDRESS]. It is causing unhygienic conditions.");
     ("StreetLight",
      "Street light is not working at [ADDRESS]. It is causing safety concerns during night time.");
     ("FallenTree",
      "A tree has fallen at [ADDRESS]. It is blocking the path and needs removal.")].

(** [TABLE[key]] for one of the two tables above. *)
Definition table_get (t : gmap string string) (key : value) : value :=
  match key with
  | VStr k =>
      match t !! k with
      | Some s => VStr s
      | None => VUndefined
      end
  | _ => VUndefined
  end.

(** One entry of what [model.predict] returns. *)
Record prediction := { className : string; probability : Q }.

(** The component's state ([useState]) and the values held by [useForm]. *)
Record state := {
  step : Z;
  capturedImage : option string;
  aiPrediction : option prediction;
  currentLocation : option (gmap string value);
  currentAddress : option string;
  model : bool;                    (* whether a model is loaded *)
  modelLoading : bool;
  form : gmap string value
}.

Definition defaultValues : gmap string value :=
  list_to_map
    [("category", VStr ""); ("description", VStr ""); ("priority", VStr "medium");
     ("department", VStr ""); ("address", VStr ""); ("latitude", VStr "");
     ("longitude", VStr "")].

Definition initial : state :=
  {| step := 1; capturedImage := None; aiPrediction := None;
     currentLocation := None; currentAddress := None;
     model := false; modelLoading := true; form := defaultValues |}.

Definition setStep (n : Z) (s : state) : state :=
  {| step := n; capturedImage := capturedImage s; aiPrediction := aiPrediction s;
     currentLocation := currentLocation s; currentAddress := currentAddress s;
     model := model s; modelLoading := modelLoading s; form := form s |}.

Definition setCapturedImage (i : option string) (s : state) : state :=
  {| step := step s; capturedImage := i; aiPrediction := aiPrediction s;
     currentLocation := currentLocation s; currentAddress := currentAddress s;
     model := model s; modelLoading := modelLoading s; form := form s |}.

Definition setAiPrediction (p : option prediction) (s : state) : state :=
  {| step := step s; capturedImage := capturedImage s; aiPrediction := p;
     currentLocation := currentLocation s; currentAddress := currentAddress s;
     model := model s; modelLoading := modelLoading s; form := form s |}.

Definition setCurrentLocation (l : option (gmap string value)) (s : state) : state :=
  {| step := step s; capturedImage := capturedImage s; aiPrediction := aiPrediction s;
     currentLocation := l; currentAddress := currentAddress s;
     model := model s; modelLoading := modelLoading s; form := form s |}.

Definition setCurrentAddress (a : option string) (s : state) : state :=
  {| step := step s; capturedImage := capturedImage s; aiPrediction := aiPrediction s;
     currentLocation := currentLocation s; currentAddress := a;
     model := model s; modelLoading := modelLoading s; form := form s |}.

Definition setModel (loaded : bool) (s : state) : state :=
  {| step := step s; capturedImage := capturedImage s; aiPrediction := aiPrediction s;
     currentLocation := currentLocation s; currentAddress := currentAddress s;
     model := loaded; modelLoading := false; form := form s |}.

(** [setValue(name, v)] *)
Definition setValue (name : string) (v : value) (s : state) : state :=
  {| step := step s; capturedImage := capturedImage s; aiPrediction := aiPrediction s;
     currentLocation := currentLocation s; currentAddress := currentAddress s;
     model := model s; modelLoading := modelLoading s;
     form := <[name := v]> (form s) |}.

(** [watch(name)], [getValues(name)] *)
Definition watch (name : string) (s : state) : value := get (form s) name.

(** *** The classifier *)

(** What happens between the photo and the prediction: the image fails
    to load or [model.predict] rejects, or predictions arrive. *)
Inductive classification :=
| ClassifierFailed (e : thrown)
| Predicted (predictions : list prediction).

(** The loop that keeps the entry of highest probability, from
    [maxConfidence = 0], [predictedClass = '']. *)
Definition top_prediction (predictions : list prediction) : prediction :=
  fold_left
    (fun best p => if Qlt_le_dec (probability best) (probability p) then p else best)
    predictions {| className := ""; probability := 0 |}.

(** The address put into the template:
    [currentAddress || (currentLocation ? `lat, lng` : '[ADDRESS]')] *)
Definition template_address (s : state) : completion string :=
  if Geocode.present (currentAddress s) then Normal (default "" (currentAddress s))
  else match currentLocation s with
       | Some loc =>
           bind (to_fixed (get loc "latitude") 6) (fun a =>
           bind (to_fixed (get loc "longitude") 6) (fun b =>
           Normal (a +:+ ", " +:+ b)))
       | None => Normal "[ADDRESS]"
       end.

(** The autofill of a confident prediction.  [template.replace] throws
    when the class has no template; the enclosing [catch] logs it, the
    two values set before stay. *)
Definition autofill (ai : prediction) (s : state) : state :=
  let category := className ai in
  let s := setValue "category" (VStr category) s in
  let s := setValue "department" (table_get DEPARTMENT_MAPPING (VStr category)) s in
  match DESCRIPTION_TEMPLATES !! category with
  | Some template =>
      match template_address s with
      | Normal address =>
          setValue "description" (VStr (replace template "[ADDRESS]" address)) s
      | Throw _ => s
      end
  | None => s
  end.

Definition processImageWithAI (c : classification) (s : state) : state :=
  if negb (model s) then s
  else match c with
       | ClassifierFailed _ => s
       | Predicted predictions =>
           let ai := top_prediction predictions in
           let s := setAiPrediction (Some ai) s in
           if Qlt_le_dec CONFIDENCE_THRESHOLD (probability ai)
           then autofill ai s
           else s
       end.

(** *** Location *)

(** [{ latitude: lat, longitude: lng }], the object the map and the
    geolocation callback build. *)
Definition location_object (latitude longitude : value) : gmap string value :=
  <["latitude" := latitude]> (<["longitude" := longitude]> ∅).

(** [handleMapLocationSelect(location)] *)
Definition handleMapLocationSelect (fetch : Geocode.service_type -> Geocode.outcome)
    (location : gmap string value) (s : state) : state :=
  let s := setCurrentLocation (Some location) s in
  let s := setValue "latitude" (get location "latitude") s in
  let s := setValue "longitude" (get location "longitude") s in
  match Geocode.reverseGeocode fetch (get location "latitude") (get location "longitude") with
  | Normal address =>
      let s := setCurrentAddress (Some address) s in
      setValue "address" (VStr address) s
  | Throw _ => s
  end.

(** [getCurrentLocation()]: [position] is what the device answers,
    [None] when it refuses or has no geolocation. *)
Definition getCurrentLocation (fetch : Geocode.service_type -> Geocode.outcome)
    (position : option (Q * Q)) (s : state) : state :=
  match position with
  | Some (latitude, longitude) =>
      let s := setCurrentLocation
                 (Some (location_object (VNum latitude) (VNum longitude))) s in
      let s := setValue "latitude" (VNum latitude) s in
      let s := setValue "longitude" (VNum longitude) s in
      match Geocode.reverseGeocode fetch (VNum latitude) (VNum longitude) with
      | Normal address =>
          let s := setCurrentAddress (Some address) s in
          setValue "address" (VStr address) s
      | Throw _ => s
      end
  | None => s
  end.

(** *** What the user and the environment can do *)

Inductive event :=
| ModelLoaded
| ModelFailed
| ImageAcquired (imageData : string) (c : classification)  (* takePhoto, handleFileUpload *)
| RemoveImage
| NextStep
| PrevStep
| SelectCategory (category : string)
| SelectPriority (priority : string)
| EditDescription (text : string)
| VoiceResult (transcript : string)
| EditAddress (text : string)
| Geolocated (position : option (Q * Q)) (fetch : Geocode.service_type -> Geocode.outcome)
| MapSelect (lat lng : Q) (fetch : Geocode.service_type -> Geocode.outcome).

Definition non_null {A} (o : option A) : bool :=
  match o with
  | Some _ => true
  | None => false
  end.

Definition nextStep (s : state) : state := setStep (step s + 1) s.
Definition prevStep (s : state) : state := setStep (step s - 1) s.

Definition text_of (v : value) : string :=
  match v with
  | VStr t => t
  | _ => ""
  end.

(** The handler an event runs, or [None] where the control is not
    rendered or is disabled in state [s]. *)
Definition handle (e : event) (s : state) : option state :=
  match e with
  | ModelLoaded => if modelLoading s then Some (setModel true s) else None
  | ModelFailed => if modelLoading s then Some (setModel false s) else None
  | ImageAcquired imageData c =>
      if (step s =? 1)%Z && negb (modelLoading s) && negb (non_null (capturedImage s))
      then Some (processImageWithAI c (setCapturedImage (Some imageData) s))
      else None
  | RemoveImage =>
      if (step s =? 1)%Z && non_null (capturedImage s)
      then Some (setCapturedImage None s)
      else None
  | NextStep =>
      if (step s =? 1)%Z then
        if non_null (capturedImage s) then Some (nextStep s) else None
      else if (step s =? 2)%Z then Some (nextStep s)
      else None
  | PrevStep =>
      if (step s =? 2)%Z || (step s =? 3)%Z then Some (prevStep s) else None
  | SelectCategory category =>
      if (step s =? 2)%Z && bool_decide (category ∈ "" :: AI_CLASSES)
      then Some (setValue "category" (VStr category) s)
      else None
  | SelectPriority priority =>
      if (step s =? 2)%Z && bool_decide (priority ∈ ["low"; "medium"; "high"; "urgent"])
      then Some (setValue "priority" (VStr priority) s)
      else None
  | EditDescription text =>
      if (step s =? 2)%Z then Some (setValue "description" (VStr text) s) else None
  | VoiceResult transcript =>
      Some (setValue "description"
              (VStr (text_of (or_else (watch "description" s) (VStr "")) +:+ transcript)) s)
  | EditAddress text =>
      if (step s =? 3)%Z then Some (setValue "address" (VStr text) s) else None
  | Geolocated position fetch => Some (getCurrentLocation fetch position s)
  | MapSelect lat lng fetch =>
      if (step s =? 3)%Z
      then Some (handleMapLocationSelect fetch (location_object (VNum lat) (VNum lng)) s)
      else None
  end.

(** The states the wizard can be in. *)
Inductive reachable : state -> Prop :=
| reachable_initial : reachable initial
| reachable_step s e s' : reachable s -> handle e s = Some s' -> reachable s'.

(** Running a list of events from a state. *)
Fixpoint run (events : list event) (s : state) : option state :=
  match events with
  | [] => Some s
  | e :: rest =>
      match handle e s with
      | Some s' => run rest s'
      | None => None
      end
  end.

(** *** Submission *)

(** What the environment supplies to one run of [onSubmit]: the result
    of reading the captured image and handing it to the bucket, and the
    store's side of the insert. *)
Record submit_env := {
  image : completion Supabase.upload_outcome;
  fault : option thrown;
  new_id : string;
  now : Z
}.

Inductive submit_result :=
| Done (created : gmap string value)   (* success toast, flag in localStorage, navigate *)
| Failed (toast : string)              (* the error toast; the wizard stays on step 3 *)
| Unhandled (e : thrown).

(** [user.id] *)
Definition user_id (user : option (gmap string value)) : completion value :=
  match user with
  | Some u => Normal (get u "id")
  | None => Throw (ThrownError "Cannot read properties of null")
  end.

(** Step 1 of [onSubmit]: the image URL, [null] when there is no image
    or anything in the upload throws. *)
Definition imageUrl (user : option (gmap string value)) (env : submit_env) (s : state)
  : value :=
  match capturedImage s with
  | Some _ =>
      match bind (image env) (fun answer =>
            bind (user_id user) (fun _ => ComplaintService.uploadImage answer)) with
      | Normal url => VStr url
      | Throw _ => VNull
      end
  | None => VNull
  end.

(** [currentLocation?.k] *)
Definition location_field (s : state) (k : string) : value :=
  match currentLocation s with
  | Some loc => get loc k
  | None => VUndefined
  end.

Definition address_value (s : state) : value :=
  match currentAddress s with
  | Some a => VStr a
  | None => VNull
  end.

(** Step 2 of [onSubmit]: the object handed to [submitComplaint]. *)
Definition complaintData (parse_decimal : string -> value) (uid image_url : value)
    (data : gmap string value) (s : state) : gmap string value :=
  list_to_map
    [("user_id", uid);
     ("category", get data "category");
     ("description", get data "description");
     ("priority", get data "priority");
     ("department",
       or_else (get data "department")
         (table_get DEPARTMENT_MAPPING (get data "category")));
     ("address",
       or_else (or_else (get data "address") (address_value s))
         (VStr "Address not available"));
     ("latitude",
       parseFloat parse_decimal
         (or_else (or_else (get data "latitude") (location_field s "lat")) (VNum 0)));
     ("longitude",
       parseFloat parse_decimal
         (or_else (or_else (get data "longitude") (location_field s "lng")) (VNum 0)));
     ("image_url", image_url);
     ("ai_prediction",
       match aiPrediction s with
       | Some ai => VPrediction (className ai) (probability ai)
       | None => VNull
       end);
     ("ai_confidence",
       match aiPrediction s with
       | Some ai => or_else (VNum (probability ai)) VNull
       | None => VNull
       end);
     ("status", VStr "pending")].

Definition onSubmit (parse_decimal : string -> value) (user : option (gmap string value))
    (env : submit_env) (data : gmap string value) (s : state)
    (table : list (gmap string value))
  : list (gmap string value) * submit_result :=
  let image_url := imageUrl user env s in
  match user_id user with
  | Throw e =>
      (table, match e with
              | ThrownError m =>
                  Failed (if String.eqb m "" then "Failed to submit complaint. Please try again."
                          else m)
              | ThrownNullish => Unhandled e
              end)
  | Normal uid =>
      match ComplaintService.submitComplaint (fault env) (new_id env) (now env)
              (complaintData parse_decimal uid image_url data s) table with
      | (table', Normal created) => (table', Done created)
      | (table', Throw (ThrownError m)) =>
          (table', Failed (if String.eqb m ""
                           then "Failed to submit complaint. Please try again." else m))
      | (table', Throw ThrownNullish) =>
          (table', Unhandled (ThrownError "Cannot read properties of undefined"))
      end
  end.

(** The upload leaves no URL: reading the image throws, or the bucket
    refuses the file. *)
Definition upload_fails (env : submit_env) : Prop :=
  match image env with
  | Throw _ => True
  | Normal (Supabase.UploadRejected _) => True
  | Normal (Supabase.UploadStored _) => False
  end.

(** *** Shape of the reachable states *)

Record well_formed (s : state) : Prop := {
  wf_step : (1 <= step s <= 3)%Z;
  wf_image : (2 <= step s)%Z -> capturedImage s <> None;
  wf_category : exists c, watch "category" s = VStr c;
  wf_description : exists d, watch "description" s = VStr d;
  wf_priority : exists p, watch "priority" s = VStr p;
  wf_department :
    watch "department" s = VStr "" \/
    exists c, watch "department" s = table_get DEPARTMENT_MAPPING (VStr c);
  wf_address : exists a, watch "address" s = VStr a;
  wf_latitude : watch "latitude" s = VStr "" \/ exists q, watch "latitude" s = VNum q;
  wf_longitude : watch "longitude" s = VStr "" \/ exists q, watch "longitude" s = VNum q;
  wf_location :
    currentLocation s = None \/
    exists a b, currentLocation s = Some (location_object (VNum a) (VNum b))
}.

(** The shape a form field asks of its value. *)
Definition fits (name : string) (v : value) : Prop :=
  if String.eqb name "category" then exists c, v = VStr c
  else if String.eqb name "description" then exists d, v = VStr d
  else if String.eqb name "priority" then exists p, v = VStr p
  else if String.eqb name "department" then
    v = VStr "" \/ exists c, v = table_get DEPARTMENT_MAPPING (VStr c)
  else if String.eqb name "address" then exists a, v = VStr a
  else if String.eqb name "latitude" then v = VStr "" \/ exists q, v = VNum q
  else if String.eqb name "longitude" then v = VStr "" \/ exists q, v = VNum q
  else True.

(** The form's department is still empty, or is the table's entry for
    the form's category. *)
Definition consistent_form (s : state) : Prop :=
  watch "department" s = VStr "" \/
  watch "department" s = table_get DEPARTMENT_MAPPING (watch "category" s).

(** The row's department is the table's entry for the row's category. *)
Definition department_of_category (r : gmap string value) : bool :=
  match get r "department", table_get DEPARTMENT_MAPPING (get r "category") with
  | VStr d, VStr d' => String.eqb d d'
  | _, _ => false
  end.

Definition is_select_category (e : event) : bool :=
  match e with
  | SelectCategory _ => true
  | _ => false
  end.

End Wizard.

(** ** More of the language: text *)

Module JsString.
Import Js.

(** The text of a value that is a string: an instant is held as its
    ISO-8601 text, which [print] writes out. *)
Definition text (print : value -> string) (v : value) : option string :=
  match v with
  | VStr s => Some s
  | VTime _ => Some (print v)
  | _ => None
  end.

(** [`${v}`], and the name under which [o[v]] looks: ToString.  How a
    number or an instant prints is left to [print]. *)
Definition to_string (print : value -> string) (v : value) : string :=
  match v with
  | VStr s => s
  | VUndefined => "undefined"
  | VNull => "null"
  | VNaN => "NaN"
  | VPrediction _ _ => "[object Object]"
  | VNum _ | VTime _ => print v
  end.

(** [s.split(sep)[0]] for a one-character separator: the text before
    its first occurrence, all of [s] when there is none. *)
Fixpoint split_head (sep : ascii) (s : string) : string :=
  match s with
  | EmptyString => EmptyString
  | String c s' => if Ascii.eqb c sep then EmptyString else String c (split_head sep s')
  end.

(** [s.split(sep).pop()]: the text after the last occurrence, all of
    [s] when there is none. *)
Fixpoint split_last (sep : ascii) (s : string) : string :=
  match s with
  | EmptyString => EmptyString
  | String c s' =>
      if includes s' (String sep EmptyString) then split_last sep s'
      else if Ascii.eqb c sep then s'
      else s
  end.

(** [c.toLowerCase()] on a code unit below 256: the letters A-Z and
    the capital letters of Latin-1 (all of 192-222 but the
    multiplication sign) have their small letter 32 further on. *)
Definition lower_unit (c : ascii) : ascii :=
  let n := nat_of_ascii c in
  if ((65 <=? n) && (n <=? 90) || (192 <=? n) && (n <=? 222) && negb (n =? 215))%nat
  then ascii_of_nat (n + 32) else c.

Fixpoint toLowerCase (s : string) : string :=
  match s with
  | EmptyString => EmptyString
  | String c s' => String (lower_unit c) (toLowerCase s')
  end.

End JsString.

(** ** complaintService.js: [getComplaintStats] and the name of an upload *)

Module Stats.
Import Js JsString.

(** What a property of [stats.byCategory] holds: a number, or text
    once 1 was added to something that is not a number. *)
Inductive entry :=
| Count (n : nat)
| Text (s : string).

(** What reading [byCategory[k]] finds: nothing, a property of the
    object itself, or a member that every object literal inherits
    ([constructor], [toString], [__proto__], ...), here with the text it
    is converted to.  Which names are inherited, and their text, is the
    engine's: [inherited]. *)
Inductive slot :=
| Absent
| Own (e : entry)
| Inherited (text : string).

Definition read (inherited : string -> option string) (byCategory : gmap string entry)
    (k : string) : slot :=
  match byCategory !! k with
  | Some e => Own e
  | None =>
      match inherited k with
      | Some text => Inherited text
      | None => Absent
      end
  end.

(** [(x || 0) + 1] *)
Definition increment (x : slot) : entry :=
  match x with
  | Absent => Count 1
  | Own (Count n) => Count (n + 1)
  | Own (Text s) => if String.eqb s "" then Count 1 else Text (s +:+ "1")
  | Inherited text => Text (text +:+ "1")
  end.

(** [byCategory[k] = e]: assigning a primitive to [__proto__] does nothing. *)
Definition assign (k : string) (e : entry) (byCategory : gmap string entry)
  : gmap string entry :=
  if String.eqb k "__proto__" then byCategory else <[k := e]> byCategory.

(** The body of the [forEach]. *)
Definition count_category (print : value -> string) (inherited : string -> option string)
    (byCategory : gmap string entry) (complaint : gmap string value) : gmap string entry :=
  let k := to_string print (get complaint "category") in
  assign k (increment (read inherited byCategory k)) byCategory.

Record stats := {
  total : nat;
  pending : nat;
  inProgress : nat;
  resolved : nat;
  byCategory : gmap string entry
}.

(** [data.filter(c => c.status === lit).length] *)
Definition with_status (lit : string) (data : list (gmap string value)) : nat :=
  length (List.filter (fun c => is_str (get c "status") lit) data).

(** [getComplaintStats(userId)].  [answer] is what the query built for
    [userId] gives: its rows, or the error that is thrown and, after the
    log line, thrown again. *)
Definition getComplaintStats (print : value -> string)
    (inherited : string -> option string)
    (answer : completion (list (gmap string value))) : completion stats :=
  bind answer (fun data =>
    Normal {| total := length data;
              pending := with_status "pending" data;
              inProgress := with_status "in_progress" data;
              resolved := with_status "resolved" data;
              byCategory := fold_left (count_category print inherited) data ∅ |}).

(** *** What the statistics are said to be *)

(** The number of rows of a category. *)
Definition in_category (print : value -> string) (k : string)
    (data : list (gmap string value)) : nat :=
  length (List.filter (fun c => String.eqb (to_string print (get c "category")) k) data).

(** A row of none of the three statuses that are counted. *)
Definition other_status (c : gmap string value) : bool :=
  negb (is_str (get c "status") "pending" || is_str (get c "status") "in_progress"
        || is_str (get c "status") "resolved").

(** A row whose category is not the name of an inherited member. *)
Definition ordinary (print : value -> string) (inherited : string -> option string)
    (c : gmap string value) : Prop :=
  inherited (to_string print (get c "category")) = None /\
  to_string print (get c "category") <> "__proto__".

Definition entry_count (e : entry) : nat :=
  match e with
  | Count n => n
  | Text _ => 0
  end.

(** The sum of the counts held in [byCategory]. *)
Definition counted (byCategory : gmap string entry) : nat :=
  map_fold (fun _ e acc => entry_count e + acc)%nat 0%nat byCategory.

Fixpoint ones (n : nat) : string :=
  match n with
  | O => EmptyString
  | S n' => ones n' +:+ "1"
  end.

(** The entry under [k] after [n] complaints of category [k]. *)
Definition entry_after (inherited : string -> option string) (k : string) (n : nat)
  : option entry :=
  if String.eqb k "__proto__" then None
  else match n with
       | O => None
       | S _ =>
           Some (match inherited k with
                 | None => Count n
                 | Some text => Text (text +:+ ones n)
                 end)
       end.

End Stats.

Module Upload.
Import Js JsString.

(** [imageFile.name.split('.').pop() || 'jpg'] *)
Definition fileExt (name : string) : string :=
  let ext := split_last "." name in
  if String.eqb ext "" then "jpg" else ext.

(** [`${userId}/${Date.now()}.${fileExt}`], the name [uploadImage]
    stores the file under. *)
Definition fileName (print : value -> string) (userId : value) (now : Z) (name : string)
  : string :=
  to_string print userId +:+ "/" +:+ pretty now +:+ "." +:+ fileExt name.

End Upload.

(** ** contexts/AuthContext.js *)

Module Auth.
Import Js JsString.

(** *** [generateUUID] *)

(** ToInt32: the integer part, wrapped into 32 signed bits. *)
Definition truncate (x : Q) : Z :=
  if Qlt_le_dec x 0 then (- Qfloor (- x))%Z else Qfloor x.

Definition to_int32 (x : Q) : Z :=
  let m := (truncate x mod 2 ^ 32)%Z in
  if (m <? 2 ^ 31)%Z then m else (m - 2 ^ 32)%Z.

Definition hex_digit (d : Z) : ascii :=
  nth (Z.to_nat d)
    ["0"; "1"; "2"; "3"; "4"; "5"; "6"; "7"; "8"; "9"; "a"; "b"; "c"; "d"; "e"; "f"]%char
    "0"%char.

(** The digits of [n >= 0] in base 16 before [acc]; eight digits
    suffice for 32 bits. *)
Fixpoint hex_digits (fuel : nat) (n : Z) (acc : string) : string :=
  match fuel with
  | O => acc
  | S fuel' =>
      let acc' := String (hex_digit (n mod 16)) acc in
      if (n / 16 =? 0)%Z then acc' else hex_digits fuel' (n / 16) acc'
  end.

(** [v.toString(16)] for a 32-bit integer. *)
Definition toString16 (v : Z) : string :=
  if (v <? 0)%Z then String "-" (hex_digits 8 (- v) "") else hex_digits 8 v "".

(** The callback of the [replace]: [random] is what [Math.random()] returns. *)
Definition replacement (c : ascii) (random : Q) : string :=
  let r := Z.lor (to_int32 (random * 16)) 0 in
  let v := if Ascii.eqb c "x" then r else Z.lor (Z.land r 3) 8 in
  toString16 v.

(** [template.replace(/[xy]/g, callback)]: [random i] is the result of
    the [i]-th call of [Math.random()], counted from [i]. *)
Fixpoint replace_xy (template : string) (random : nat -> Q) (i : nat) : string :=
  match template with
  | EmptyString => EmptyString
  | String c rest =>
      if Ascii.eqb c "x" || Ascii.eqb c "y"
      then replacement c (random i) +:+ replace_xy rest random (S i)
      else String c (replace_xy rest random i)
  end.

Definition generateUUID (random : nat -> Q) : string :=
  replace_xy "xxxxxxxx-xxxx-4xxx-yxxx-xxxxxxxxxxxx" random 0.

(** [Math.random()] lies in the interval from 0 to 1, 1 left out. *)
Definition unit_interval (random : nat -> Q) : Prop :=
  forall i, (0 <= random i)%Q /\ (random i < 1)%Q.

(** The shape of a version-4 identifier: 8-4-4-4-12 small hexadecimal
    digits, the third group starting with 4 and the fourth with 8, 9, a
    or b. *)
Definition is_hex (c : ascii) : bool :=
  existsb (Ascii.eqb c)
    ["0"; "1"; "2"; "3"; "4"; "5"; "6"; "7"; "8"; "9"; "a"; "b"; "c"; "d"; "e"; "f"]%char.

Definition is_variant (c : ascii) : bool :=
  existsb (Ascii.eqb c) ["8"; "9"; "a"; "b"]%char.

Fixpoint has_shape (shape s : string) : bool :=
  match shape, s with
  | EmptyString, EmptyString => true
  | String p shape', String c s' =>
      (if Ascii.eqb p "x" then is_hex c
       else if Ascii.eqb p "y" then is_variant c
       else Ascii.eqb p c)
      && has_shape shape' s'
  | _, _ => false
  end.

Definition is_uuid_v4 (s : string) : bool :=
  has_shape "xxxxxxxx-xxxx-4xxx-yxxx-xxxxxxxxxxxx" s.

(** *** The provider's state and the saved session *)

(** What the slot [urbansetu-user] of localStorage holds: the text
    [JSON.stringify(o)] of an object, as this program writes it, or
    other text, which [JSON.parse] rejects. *)
Inductive stored :=
| Json (o : gmap string value)
| Unparsable.

(** [JSON.parse(JSON.stringify(o))]: a property that is [undefined] is
    left out, [NaN] comes back as [null]. *)
Definition json_value (v : value) : option value :=
  match v with
  | VUndefined => None
  | VNaN => Some VNull
  | _ => Some v
  end.

Definition json (o : gmap string value) : gmap string value := omap json_value o.

Record auth := {
  user : option (gmap string value);
  loading : bool;
  saved : option stored
}.

(** The provider as it is mounted over a given localStorage. *)
Definition mounted (slot : option stored) : auth :=
  {| user := None; loading := true; saved := slot |}.

(** [parsedUser.id && !parsedUser.id.includes('-')]: whether the id is
    of the old kind.  Only text has [includes]. *)
Definition old_id (id : value) : completion bool :=
  if truthy id then
    match id with
    | VStr s => Normal (negb (includes s "-"))
    | VTime _ => Normal false
    | _ => Throw (ThrownError "parsedUser.id.includes is not a function")
    end
  else Normal false.

(** The effect that runs once after mounting: the saved session is
    read, an id of the old kind replaced; when anything throws the slot
    is cleared. *)
Definition restore (random : nat -> Q) (a : auth) : auth :=
  match saved a with
  | Some (Json o) =>
      let parsedUser := json o in
      match old_id (get parsedUser "id") with
      | Normal true =>
          let parsedUser := <["id" := VStr (generateUUID random)]> parsedUser in
          {| user := Some parsedUser; loading := false; saved := Some (Json parsedUser) |}
      | Normal false =>
          {| user := Some parsedUser; loading := false; saved := saved a |}
      | Throw _ => {| user := user a; loading := false; saved := None |}
      end
  | Some Unparsable => {| user := user a; loading := false; saved := None |}
  | None => {| user := user a; loading := false; saved := None |}
  end.

(** What [login] and [register] resolve to. *)
Inductive result :=
| Success (user : gmap string value)
| Failure (error : string).

(** [email.split('@')[0]] *)
Definition local_part (print : value -> string) (email : value) : completion string :=
  match text print email with
  | Some s => Normal (split_head "@" s)
  | None => Throw (ThrownError "email.split is not a function")
  end.

Definition avatar_url (name : string) : string :=
  "https://ui-avatars.com/api/?name=" +:+ name +:+ "&background=48bb78&color=fff".

(** The user object that [login] makes up. *)
Definition mockUser (id : string) (email : value) (name : string) (userType : value)
    (now : Z) : gmap string value :=
  list_to_map
    [("id", VStr id); ("email", email); ("name", VStr name); ("userType", userType);
     ("avatar", VStr (avatar_url name)); ("createdAt", VTime now)].

(** [login(email, password, userType)] at time [now]. *)
Definition login (print : value -> string) (random : nat -> Q) (now : Z)
    (email password userType : value) (a : auth) : auth * result :=
  match local_part print email with
  | Normal name =>
      let u := mockUser (generateUUID random) email name userType now in
      ({| user := Some u; loading := false; saved := Some (Json u) |}, Success u)
  | Throw e =>
      ({| user := user a; loading := false; saved := saved a |},
       Failure match e with
               | ThrownError m => m
               | ThrownNullish => EmptyString
               end)
  end.

(** [register(userData)]: the spread of [userData] comes after [id]
    and before [avatar] and [createdAt]. *)
Definition register (print : value -> string) (random : nat -> Q) (now : Z)
    (userData : gmap string value) (a : auth) : auth * result :=
  let u : gmap string value :=
    <["createdAt" := VTime now]>
      (<["avatar" := VStr (avatar_url (to_string print (get userData "name")))]>
         (userData ∪ {[ "id" := VStr (generateUUID random) ]})) in
  ({| user := Some u; loading := false; saved := Some (Json u) |}, Success u).

Definition logout (a : auth) : auth :=
  {| user := None; loading := loading a; saved := None |}.

(** [updateProfile(updates)]: [{ ...user, ...updates }] when signed in. *)
Definition updateProfile (updates : gmap string value) (a : auth) : auth :=
  match user a with
  | Some u =>
      let updatedUser := updates ∪ u in
      {| user := Some updatedUser; loading := loading a; saved := Some (Json updatedUser) |}
  | None => a
  end.

(** [isAuthenticated: !!user] *)
Definition isAuthenticated (a : auth) : bool :=
  match user a with
  | Some _ => true
  | None => false
  end.

(** What the rest of the program asks of the provider. *)
Inductive request :=
| Login (random : nat -> Q) (now : Z) (email password userType : value)
| Register (random : nat -> Q) (now : Z) (userData : gmap string value)
| Logout
| UpdateProfile (updates : gmap string value).

Definition serve (print : value -> string) (r : request) (a : auth) : auth :=
  match r with
  | Login random now email password userType =>
      (login print random now email password userType a).1
  | Register random now userData => (register print random now userData a).1
  | Logout => logout a
  | UpdateProfile updates => updateProfile updates a
  end.

(** The provider after the page is opened over [slot] and a list of
    requests is served. *)
Definition session (print : value -> string) (random : nat -> Q) (slot : option stored)
    (requests : list request) : auth :=
  fold_left (fun a r => serve print r a) requests (restore random (mounted slot)).

(** A request that carries no [id] of its own, as those of
    RegisterPage and ProfilePage. *)
Definition keeps_id (r : request) : Prop :=
  match r with
  | Register _ _ userData => userData !! "id" = None
  | UpdateProfile updates => updates !! "id" = None
  | _ => True
  end.

(** The saved session is the signed-in user, whose id is not of the
    old kind. *)
Definition in_step (a : auth) : Prop :=
  match user a with
  | Some u =>
      (exists o, saved a = Some (Json o) /\ json o = json u) /\
      old_id (get (json u) "id") = Normal false
  | None => saved a = None
  end.

End Auth.

(** ** components/auth/ProtectedRoute.js and the routes of App.js *)

Module Routes.
Import Js Auth.

Inductive route :=
| Landing            (* /                      *)
| LoginPage          (* /login                 *)
| RegisterPage       (* /register              *)
| CitizenDashboard   (* /citizen               *)
| ReportComplaint    (* /citizen/report        *)
| ComplaintTracking  (* /citizen/tracking/:id  *)
| AdminDashboard     (* /admin                 *)
| ProfilePage.       (* /profile               *)

(** What a route element renders. *)
Inductive view :=
| Spinner
| Navigate (to : route)
| Page (p : route).

(** [<ProtectedRoute userType={userType}>children</ProtectedRoute>];
    the paths it navigates to are /login, /admin and /citizen. *)
Definition ProtectedRoute (a : auth) (userType : option string) (children : route) : view :=
  if loading a then Spinner
  else match user a with
       | None => Navigate LoginPage
       | Some u =>
           match userType with
           | Some t =>
               if negb (String.eqb t "") && negb (is_str (get u "userType") t)
               then Navigate (if is_str (get u "userType") "admin"
                              then AdminDashboard else CitizenDashboard)
               else Page children
           | None => Page children
           end
       end.

(** The [element] of each [<Route>]. *)
Definition element (a : auth) (r : route) : view :=
  match r with
  | Landing | LoginPage | RegisterPage => Page r
  | CitizenDashboard | ReportComplaint | ComplaintTracking =>
      ProtectedRoute a (Some "citizen") r
  | AdminDashboard => ProtectedRoute a (Some "admin") r
  | ProfilePage => ProtectedRoute a None r
  end.

(** The pages reserved to a kind of user, and the routes without a guard. *)
Definition reserved_for (r : route) : option string :=
  match r with
  | CitizenDashboard | ReportComplaint | ComplaintTracking => Some "citizen"
  | AdminDashboard => Some "admin"
  | _ => None
  end.

Definition public (r : route) : bool :=
  match r with
  | Landing | LoginPage | RegisterPage => true
  | _ => false
  end.

(** Following [Navigate] elements from a route, at most [fuel] times. *)
Fixpoint settle (fuel : nat) (a : auth) (r : route) : option view :=
  match element a r with
  | Navigate to =>
      match fuel with
      | O => None
      | S fuel' => settle fuel' a to
      end
  | v => Some v
  end.

End Routes.

(** ** components/auth/RegisterPage.js and components/ProfilePage.js *)

Module Pages.
Import Js JsString Auth Routes.

(** [onSubmit] of RegisterPage: [data] is the form, [userType] the
    kind of account chosen; the answer is the provider afterwards and
    the route navigated to. *)
Definition register_onSubmit (print : value -> string) (random : nat -> Q) (now : Z)
    (data : gmap string value) (userType : string) (a : auth) : auth * option route :=
  let userData := <["userType" := VStr userType]> (delete "confirmPassword" data) in
  match register print random now userData a with
  | (a', Success _) =>
      (a', Some (if String.eqb userType "admin" then AdminDashboard else CitizenDashboard))
  | (a', Failure _) => (a', None)
  end.

(** The state of ProfilePage. *)
Record profile := {
  isEditing : bool;
  formData : gmap string value
}.

(** [user?.k || ''] *)
Definition field_or_empty (user : option (gmap string value)) (k : string) : value :=
  or_else (match user with
           | Some u => get u k
           | None => VUndefined
           end) (VStr "").

Definition form_of (user : option (gmap string value)) : gmap string value :=
  list_to_map
    [("name", field_or_empty user "name"); ("email", field_or_empty user "email");
     ("phone", field_or_empty user "phone"); ("address", field_or_empty user "address")].

Definition opened (a : auth) : profile :=
  {| isEditing := false; formData := form_of (user a) |}.

(** What can be done on the page: the four inputs are enabled, and
    Save and Cancel shown, only while editing. *)
Inductive action :=
| Edit
| Change (name value : string)     (* handleInputChange *)
| Save                             (* handleSave *)
| Cancel.                          (* handleCancel *)

Definition inputs : list string := ["name"; "email"; "phone"; "address"].

Definition act (x : action) (st : auth * profile) : option (auth * profile) :=
  let (a, p) := st in
  match x with
  | Edit =>
      if isEditing p then None
      else Some (a, {| isEditing := true; formData := formData p |})
  | Change name value =>
      if isEditing p && bool_decide (name ∈ inputs)
      then Some (a, {| isEditing := true; formData := <[name := VStr value]> (formData p) |})
      else None
  | Save =>
      if isEditing p
      then Some (updateProfile (formData p) a, {| isEditing := false; formData := formData p |})
      else None
  | Cancel =>
      if isEditing p
      then Some (a, {| isEditing := false; formData := form_of (user a) |})
      else None
  end.

Fixpoint acts (xs : list action) (st : auth * profile) : option (auth * profile) :=
  match xs with
  | [] => Some st
  | x :: rest =>
      match act x st with
      | Some st' => acts rest st'
      | None => None
      end
  end.

End Pages.

(** ** components/admin/AdminDashboard.js *)

Module Admin.
Import Js JsString Supabase ComplaintService.

(** [new Date(v)] as its time value, [None] for an invalid date.  How
    text is read as a date is left to [parse_date]. *)
Definition new_date (parse_date : string -> option Z) (v : value) : option Z :=
  match v with
  | VTime t => Some t
  | VNull => Some 0%Z
  | VNum q =>
      if (Z.abs (Auth.truncate q) <=? 8640000000000000)%Z then Some (Auth.truncate q)
      else None
  | VStr s => parse_date s
  | VUndefined | VNaN | VPrediction _ _ => None
  end.

(** [complaint.address?.split(',')[0] || 'Location'] *)
Definition address_head (print : value -> string) (address : value) : completion string :=
  match address with
  | VUndefined | VNull => Normal "Location"
  | _ =>
      match text print address with
      | Some s =>
          let head := split_head "," s in
          Normal (if String.eqb head "" then "Location" else head)
      | None => Throw (ThrownError "complaint.address.split is not a function")
      end
  end.

(** A complaint as the dashboard holds it. *)
Record complaint := {
  id : value;
  title : string;
  description : value;
  status : value;
  priority : value;
  category : value;
  department : value;
  location : value;
  reporter : string;
  createdAt : option Z;
  image : value;
  latitude : value;
  longitude : value
}.

Definition transform (print : value -> string) (parse_date : string -> option Z)
    (r : gmap string value) : completion complaint :=
  bind (address_head print (get r "address")) (fun head =>
    Normal {| id := get r "id";
              title := to_string print (get r "category") +:+ " - " +:+ head;
              description := get r "description";
              status := get r "status";
              priority := get r "priority";
              category := get r "category";
              department := get r "department";
              location := get r "address";
              reporter := "User";
              createdAt := new_date parse_date (get r "created_at");
              image := get r "image_url";
              latitude := get r "latitude";
              longitude := get r "longitude" |}).

(** [rows.map(f)] for an [f] that may throw. *)
Fixpoint map_throwing {A B} (f : A -> completion B) (rows : list A) : completion (list B) :=
  match rows with
  | [] => Normal []
  | r :: rest => bind (f r) (fun c => bind (map_throwing f rest) (fun cs => Normal (c :: cs)))
  end.

Record stats := {
  total : nat;
  pending : nat;
  inProgress : nat;
  resolved : nat;
  today : nat
}.

Record state := {
  complaints : list complaint;
  counts : stats;
  selectedFilter : string;
  searchQuery : string
}.

Definition initial : state :=
  {| complaints := [];
     counts := {| total := 0; pending := 0; inProgress := 0; resolved := 0; today := 0 |};
     selectedFilter := "all";
     searchQuery := "" |}.

Definition with_status (lit : string) (cs : list complaint) : nat :=
  length (List.filter (fun c => is_str (status c) lit) cs).

(** [new Date(c.createdAt).toDateString() === today]: the same
    calendar day, [day_of] giving the day an instant falls on here. *)
Definition same_day (day_of : Z -> Z) (now : Z) (c : complaint) : bool :=
  match createdAt c with
  | Some t => (day_of t =? day_of now)%Z
  | None => false
  end.

(** The filter object handed to [getAllComplaints]. *)
Definition filters_of (s : state) : gmap string string :=
  let search : gmap string string := {[ "search" := searchQuery s ]} in
  if String.eqb (selectedFilter s) "all" then search
  else <["status" := selectedFilter s]> search.

(** [loadData] at time [now] over the table: on any failure the toast
    is shown and the state stays. *)
Definition loadData (print : value -> string) (parse_date : string -> option Z)
    (day_of : Z -> Z) (fault : option thrown) (table : list (gmap string value))
    (now : Z) (s : state) : state :=
  match bind (getAllComplaints fault (filters_of s) table)
             (map_throwing (transform print parse_date)) with
  | Normal cs =>
      {| complaints := cs;
         counts := {| total := length cs;
                      pending := with_status "pending" cs;
                      inProgress := with_status "in_progress" cs;
                      resolved := with_status "resolved" cs;
                      today := length (List.filter (same_day day_of now) cs) |};
         selectedFilter := selectedFilter s;
         searchQuery := searchQuery s |}
  | Throw _ => s
  end.

(** *** The map *)

Record pin := {
  pin_id : value;
  position : value * value;
  pin_title : string;
  pin_description : value;
  pin_status : value;
  pin_priority : value
}.

Definition default_position : Q * Q := (268467 # 10000, 809462 # 10000).

Definition mapPin (c : complaint) : pin :=
  {| pin_id := id c;
     position := (or_else (latitude c) (VNum default_position.1),
                  or_else (longitude c) (VNum default_position.2));
     pin_title := title c;
     pin_description := description c;
     pin_status := status c;
     pin_priority := priority c |}.

Definition mapPins (s : state) : list pin := map mapPin (complaints s).

(** *** The list *)

(** [v.toLowerCase()]: only text has the method. *)
Definition lowered (print : value -> string) (v : value) : completion string :=
  match text print v with
  | Some s => Normal (toLowerCase s)
  | None => Throw (ThrownError "toLowerCase is not a function")
  end.

Definition matchesFilter (s : state) (c : complaint) : bool :=
  String.eqb (selectedFilter s) "all" || is_str (status c) (selectedFilter s).

Definition matchesSearch (print : value -> string) (s : state) (c : complaint)
  : completion bool :=
  let q := toLowerCase (searchQuery s) in
  if includes (toLowerCase (title c)) q then Normal true
  else if includes (toLowerCase (reporter c)) q then Normal true
  else bind (lowered print (location c)) (fun l => Normal (includes l q)).

(** [complaints.filter(...)] for a test that may throw. *)
Fixpoint filter_throwing {A} (f : A -> completion bool) (l : list A) : completion (list A) :=
  match l with
  | [] => Normal []
  | x :: rest =>
      bind (f x) (fun keep =>
      bind (filter_throwing f rest) (fun kept =>
      Normal (if keep then x :: kept else kept)))
  end.

Definition filteredComplaints (print : value -> string) (s : state)
  : completion (list complaint) :=
  filter_throwing
    (fun c => bind (matchesSearch print s c) (fun found =>
              Normal (matchesFilter s c && found)))
    (complaints s).

(** *** What happens on the dashboard *)

Inductive event :=
| SelectFilter (status : string)     (* setSelectedFilter *)
| TypeSearch (text : string)         (* setSearchQuery *)
| Loaded (fault : option thrown) (table : list (gmap string value)) (now : Z).
                                     (* a loadData for the present filter and text has run *)

Definition handle (print : value -> string) (parse_date : string -> option Z)
    (day_of : Z -> Z) (e : event) (s : state) : state :=
  match e with
  | SelectFilter f =>
      {| complaints := complaints s; counts := counts s;
         selectedFilter := f; searchQuery := searchQuery s |}
  | TypeSearch q =>
      {| complaints := complaints s; counts := counts s;
         selectedFilter := selectedFilter s; searchQuery := q |}
  | Loaded fault table now => loadData print parse_date day_of fault table now s
  end.

Definition run (print : value -> string) (parse_date : string -> option Z)
    (day_of : Z -> Z) (events : list event) : state :=
  fold_left (fun s e => handle print parse_date day_of e s) events initial.

End Admin.

(** ** components/citizen/CitizenDashboard.js *)

Module Citizen.
Import Js JsString Supabase ComplaintService.

(** A complaint as the dashboard holds it; [resolvedAt] is [null] or a date. *)
Record complaint := {
  id : value;
  title : string;
  description : value;
  status : value;
  priority : value;
  category : value;
  location : value;
  createdAt : option Z;
  resolvedAt : option (option Z);
  image : value
}.

Definition transform (print : value -> string) (parse_date : string -> option Z)
    (r : gmap string value) : completion complaint :=
  bind (Admin.address_head print (get r "address")) (fun head =>
    Normal {| id := get r "id";
              title := to_string print (get r "category") +:+ " - " +:+ head;
              description := get r "description";
              status := get r "status";
              priority := get r "priority";
              category := get r "category";
              location := get r "address";
              createdAt := Admin.new_date parse_date (get r "created_at");
              resolvedAt := if truthy (get r "resolved_at")
                            then Some (Admin.new_date parse_date (get r "resolved_at"))
                            else None;
              image := get r "image_url" |}).

(** The four numbers the dashboard shows. *)
Record shown := {
  total : nat;
  resolved : nat;
  pending : nat;
  inProgress : nat
}.

Record state := {
  recentComplaints : list complaint;
  stats : shown;
  hasRecentSubmission : bool;
  showProgressBar : bool;
  searchQuery : string
}.

Definition initial : state :=
  {| recentComplaints := [];
     stats := {| total := 0; resolved := 0; pending := 0; inProgress := 0 |};
     hasRecentSubmission := false;
     showProgressBar := false;
     searchQuery := "" |}.



(** What the slot [complaintSubmittedTime] of localStorage holds: the
    text [toISOString()] of an instant, as [onSubmit] of the wizard
    writes it, or other text, which is no date. *)
Inductive time_text :=
| Iso (t : Z)
| NoDate (text : string).

Record flags := {
  complaintSubmitted : option string;
  complaintSubmittedTime : option time_text
}.

Definition no_flags : flags :=
  {| complaintSubmitted := None; complaintSubmittedTime := None |}.



(** How a run of [loadComplaints] ends. *)
Inductive loaded :=
| Skipped                                   (* no user, or a user without id *)
| Failed                                    (* the toast 'Failed to load complaints' *)
| Loaded (s : state) (clear_flags : bool).  (* the state, and whether the timer is set *)


(** The timer set by [loadComplaints], one second later. *)
Definition clear_flags (f : flags) : flags := no_flags.

(** *** The list *)

(** The test of [filteredComplaints]: the five fields are tried in
    turn, a later one only when the earlier ones do not contain the
    search text; [toLowerCase] of a field that is no text throws. *)
Definition matchesSearch (print : value -> string) (s : state) (c : complaint)
  : completion bool :=
  let q := toLowerCase (searchQuery s) in
  if includes (toLowerCase (title c)) q then Normal true
  else bind (Admin.lowered print (description c)) (fun d =>
    if includes d q then Normal true
    else bind (Admin.lowered print (location c)) (fun l =>
      if includes l q then Normal true
      else bind (Admin.lowered print (category c)) (fun k =>
        if includes k q then Normal true
        else bind (Admin.lowered print (status c)) (fun st =>
          Normal (includes st q))))).

Definition filteredComplaints (print : value -> string) (s : state)
  : completion (list complaint) :=
  Admin.filter_throwing (matchesSearch print s) (recentComplaints s).

End Citizen.

(** ** Concrete data for the examples *)

Module Scenario.
Import Js Supabase ComplaintService Wizard.

Definition citizen : gmap string value := {[ "id" := VStr "u-1" ]}.

(** A report as [onSubmit] hands it over. *)
Definition pothole_report : gmap string value :=
  list_to_map
    [("user_id", VStr "u-1"); ("category", VStr "Pothole");
     ("description", VStr "pothole near gate"); ("priority", VStr "medium");
     ("department", VStr "Road Authority"); ("address", VStr "12 Main Road, Lucknow");
     ("latitude", VNum (268467 # 10000)); ("longitude", VNum (809462 # 10000));
     ("image_url", VNull); ("ai_prediction", VNull); ("ai_confidence", VNull);
     ("status", VStr "pending")].

(** The same report without the reporter's id. *)
Definition anonymous_report : gmap string value := delete "user_id" pothole_report.

Definition pothole_row : gmap string value := new_row "c-1" 100 pothole_report.

(** Every request is refused with an error object. *)
Definition offline (ty : Geocode.service_type) : Geocode.outcome :=
  Geocode.Rejected (ThrownError "Failed to fetch").

(** The first request is rejected with [undefined]. *)
Definition rejects_with_undefined (ty : Geocode.service_type) : Geocode.outcome :=
  Geocode.Rejected ThrownNullish.

(** Nominatim knows the place; the other services are not asked. *)
Definition hazratganj (ty : Geocode.service_type) : Geocode.outcome :=
  match ty with
  | Geocode.nominatim =>
      Geocode.Resolved (Some
        {| Geocode.address :=
             Some (list_to_map [("road", "MG Road"); ("suburb", "Hazratganj");
                                ("city", "Lucknow"); ("state", "Uttar Pradesh");
                                ("postcode", "226001")]);
           Geocode.display_name := Some "MG Road, Hazratganj, Lucknow, 226001, India";
           Geocode.localityInfo := None; Geocode.locality := None;
           Geocode.principalSubdivision := None; Geocode.countryName := None |})
  | _ => Geocode.Rejected (ThrownError "Failed to fetch")
  end.

(** Nominatim answers with a town only, BigDataCloud with a locality. *)
Definition small_town (ty : Geocode.service_type) : Geocode.outcome :=
  match ty with
  | Geocode.nominatim =>
      Geocode.Resolved (Some
        {| Geocode.address := Some (list_to_map [("town", "Malihabad")]);
           Geocode.display_name := None;
           Geocode.localityInfo := None; Geocode.locality := None;
           Geocode.principalSubdivision := None; Geocode.countryName := None |})
  | Geocode.bigdatacloud =>
      Geocode.Resolved (Some
        {| Geocode.address := None; Geocode.display_name := None;
           Geocode.localityInfo := Some {| Geocode.administrative := Some [] |};
           Geocode.locality := Some "Malihabad";
           Geocode.principalSubdivision := Some "Uttar Pradesh";
           Geocode.countryName := Some "India" |})
  | Geocode.nominatim_alt => Geocode.Resolved None
  end.

Definition photo : string := "data:image/jpeg;base64,AAAA".

Definition confident_pothole : list prediction :=
  [{| className := "Pothole"; probability := 9 # 10 |};
   {| className := "Garbage"; probability := 1 # 10 |}].

Definition borderline_pothole : list prediction :=
  [{| className := "Pothole"; probability := 6 # 10 |};
   {| className := "Garbage"; probability := 4 # 10 |}].

Definition store_up (image : completion upload_outcome) : submit_env :=
  {| image := image; fault := None; new_id := "c-1"; now := 100 |}.

(** The wizard after a confident classification of the photo. *)
Definition autofilled : state :=
  processImageWithAI (Predicted confident_pothole)
    (setCapturedImage (Some photo) (setModel true initial)).

(** [parseFloat] on text, for the examples: no text is a number. *)
Definition no_numeral (text : string) : value := VNaN.

(** What an example looks at: some columns of a row. *)
Definition fields (names : list string) (r : gmap string value) : list value :=
  map (get r) names.

Definition table_fields (names : list string) (table : list (gmap string value))
  : list (list value) :=
  map (fields names) table.

Definition answer_fields (names : list string)
    (answer : list (gmap string value) * completion (gmap string value))
  : nat * option (list value) :=
  (length answer.1,
   match answer.2 with
   | Normal r => Some (fields names r)
   | Throw _ => None
   end).

Definition listed_fields (names : list string)
    (answer : completion (list (gmap string value))) : option (list (list value)) :=
  match answer with
  | Normal rows => Some (table_fields names rows)
  | Throw _ => None
  end.

(** The wizard run through [events] and then submitted by [citizen],
    with a failing upload and a working store holding [table]. *)
Definition submitted (events : list event) (table : list (gmap string value))
  : option (list (gmap string value) * submit_result) :=
  match run events initial with
  | Some s =>
      Some (onSubmit no_numeral (Some citizen)
              (store_up (Throw (ThrownError "Failed to fetch"))) (form s) s table)
  | None => None
  end.

Definition submitted_fields (names : list string) (events : list event)
  : option (list value) :=
  match submitted events [] with
  | Some (_, Done created) => Some (fields names created)
  | _ => None
  end.

End Scenario.

(** ** More concrete data *)

Module Samples.
Import Js Supabase ComplaintService Wizard JsString Auth.

(** [print] for data in which only text is printed. *)
Definition no_print (v : value) : string := EmptyString.

(** No text is a date. *)
Definition no_date (text : string) : option Z := None.

(** Days of 24 hours from the epoch. *)
Definition utc_day (t : Z) : Z := (t / 86400000)%Z.

(** The members a fresh object literal inherits, as V8 prints them. *)
Definition v8_members (k : string) : option string :=
  if String.eqb k "__proto__" then Some "[object Object]"
  else if bool_decide (k ∈ ["constructor"; "toString"; "toLocaleString"; "valueOf";
                            "hasOwnProperty"; "isPrototypeOf"; "propertyIsEnumerable";
                            "__defineGetter__"; "__defineSetter__";
                            "__lookupGetter__"; "__lookupSetter__"])
  then Some ("function " +:+ k +:+ "() { [native code] }")
  else None.

(** Rows as [select('status, category')] answers them. *)
Definition counted_row (status category : string) : gmap string value :=
  list_to_map [("status", VStr status); ("category", VStr category)].

Definition three_rows : list (gmap string value) :=
  [counted_row "pending" "Pothole"; counted_row "resolved" "Garbage";
   counted_row "closed" "Pothole"].

(** A source of random numbers that runs through the sixteenths. *)
Definition sixteenths (i : nat) : Q := Z.of_nat (i mod 16) # 16.

(** The wizard on its last step with a photo and a category, no
    location chosen; the same after a place was picked on the map while
    no provider answers. *)
Definition reviewed : state :=
  setStep 3 (setValue "category" (VStr "Pothole")
    (setStep 2 (setCapturedImage (Some Scenario.photo) (setModel false initial)))).

Definition located : state :=
  handleMapLocationSelect Scenario.offline
    (location_object (VNum (268467 # 10000)) (VNum (809462 # 10000))) reviewed.

(** What [Scenario.citizen] then submits to a working store whose
    bucket is not reachable. *)
Definition reported (s : state) : gmap string value :=
  new_row "c-1" 100 (complaintData Scenario.no_numeral (VStr "u-1") VNull (form s) s).

Definition asha : gmap string value :=
  list_to_map [("id", VStr "3f2a"); ("name", VStr "Asha"); ("userType", VStr "citizen")].

Definition signed_in (u : gmap string value) : auth :=
  {| user := Some u; loading := false; saved := Some (Json u) |}.



End Samples.

(** * Properties *)

Import Js Geocode Supabase ComplaintService Wizard.

(** ** The definitions at work *)

Example toFixed_examples :
  toFixed (268467 # 10000) 6 = "26.846700" /\
  toFixed (- (1 # 3)) 6 = "-0.333333" /\
  toFixed (25 # 10000000) 6 = "0.000003" /\
  toFixed (- (1 # 10000000)) 6 = "-0.000000" /\
  toFixed 180 6 = "180.000000".
Proof. repeat split; vm_compute; reflexivity. Qed.

Example replace_examples :
  replace "A tree has fallen at [ADDRESS]. It is blocking the path." "[ADDRESS]"
    "MG Road, Lucknow" = "A tree has fallen at MG Road, Lucknow. It is blocking the path." /\
  replace "at [ADDRESS] and [ADDRESS]" "[ADDRESS]" "X" = "at X and [ADDRESS]" /\
  replace "at [ADDRESS]." "[ADDRESS]" "Rs $$5 ($&)" = "at Rs $5 ([ADDRESS])." /\
  replace "nothing here" "[ADDRESS]" "X" = "nothing here".
Proof. repeat split; vm_compute; reflexivity. Qed.

Example like_examples :
  ilike "%garbage%" "Accumulated GARBAGE near gate" = true /\
  ilike "%garbage%" "pothole near gate" = false /\
  ilike "%a_c%" "xxabcxx" = true /\
  ilike "%50\%%" "50% done" = true /\
  ilike "%50\%%" "500 done" = false /\
  ilike "*gate" "near Gate" = true.
Proof. repeat split; vm_compute; reflexivity. Qed.

Example reverseGeocode_examples :
  reverseGeocode Scenario.hazratganj (VNum (268467 # 10000)) (VNum (809462 # 10000)) =
    Normal "MG Road, Hazratganj, Lucknow, Uttar Pradesh, 226001" /\
  reverseGeocode Scenario.small_town (VNum (269 # 10)) (VNum (807 # 10)) =
    Normal "Malihabad, Uttar Pradesh, India" /\
  reverseGeocode Scenario.offline (VNum (269 # 10)) (VStr "80.7") =
    Throw (ThrownError "toFixed is not a function").
Proof. repeat split; vm_compute; reflexivity. Qed.

Example top_prediction_examples :
  className (top_prediction Scenario.confident_pothole) = "Pothole" /\
  className (top_prediction []) = "" /\
  className (top_prediction
               [{| className := "Sewage"; probability := 1 # 2 |};
                {| className := "Garbage"; probability := 1 # 2 |}]) = "Sewage".
Proof. repeat split; vm_compute; reflexivity. Qed.

(** ** Strings *)

Lemma append_nil (s : string) : "" +:+ s = s.
Proof. reflexivity. Qed.

Lemma append_cons (c : ascii) (s t : string) : String c s +:+ t = String c (s +:+ t).
Proof. reflexivity. Qed.

Lemma starts_with_spec (p s : string) :
  starts_with p s = true <-> exists rest, s = p +:+ rest.
Proof.
  revert s. induction p as [|a p IH]; intros s; simpl.
  - split; [intros _; exists s; reflexivity | reflexivity].
  - destruct s as [|b s].
    + split; [discriminate | intros [rest H]; discriminate].
    + rewrite andb_true_iff, IH. split.
      * intros [Hab [rest ->]]. apply Ascii.eqb_eq in Hab. subst. exists rest. reflexivity.
      * intros [rest H]. rewrite append_cons in H. inversion H; subst.
        split; [apply Ascii.eqb_refl|]. exists rest. reflexivity.
Qed.

Lemma includes_spec (s needle : string) :
  includes s needle = true <-> exists before after, s = before +:+ needle +:+ after.
Proof.
  induction s as [|c s IH]; simpl.
  - rewrite orb_false_r, starts_with_spec. split.
    + intros [rest H]. exists "", rest. exact H.
    + intros [before [after H]]. destruct before; [|discriminate].
      exists after. exact H.
  - rewrite orb_true_iff, starts_with_spec, IH. split.
    + intros [[rest H]|[before [after H]]].
      * exists "", rest. exact H.
      * exists (String c before), after. rewrite append_cons, H. reflexivity.
    + intros [before [after H]]. destruct before as [|b before].
      * left. exists after. exact H.
      * right. rewrite append_cons in H. inversion H; subst.
        exists before, after. reflexivity.
Qed.

Lemma like_literal_char (c : ascii) (p s : string) :
  special c = false ->
  like (String c p) s =
  match s with
  | String d s' => Ascii.eqb c d && like p s'
  | EmptyString => false
  end.
Proof.
  destruct c as [[] [] [] [] [] [] [] []]; intros H; try discriminate H; reflexivity.
Qed.

Lemma like_percent (p s : string) :
  like (String "%" p) s = true <-> exists s1 s2, s = s1 +:+ s2 /\ like p s2 = true.
Proof.
  induction s as [|c s IH].
  - simpl. rewrite orb_false_r. split.
    + intros H. exists "", "". split; [reflexivity | exact H].
    + intros [s1 [s2 [H1 H2]]]. destruct s1, s2; try discriminate. exact H2.
  - change (like (String "%" p) (String c s))
      with (like p (String c s) || like (String "%" p) s).
    rewrite orb_true_iff, IH. split.
    + intros [H|[s1 [s2 [H1 H2]]]].
      * exists "", (String c s). split; [reflexivity | exact H].
      * exists (String c s1), s2. split; [rewrite append_cons, H1; reflexivity | exact H2].
    + intros [s1 [s2 [H1 H2]]]. destruct s1 as [|d s1].
      * left. rewrite append_nil in H1. rewrite H1. exact H2.
      * right. rewrite append_cons in H1. inversion H1; subst.
        exists s1, s2. split; [reflexivity | exact H2].
Qed.

Lemma like_empty (s : string) : like "" s = true <-> s = "".
Proof. simpl. apply String.eqb_eq. Qed.

Lemma like_literal (p rest s : string) :
  literal p = true ->
  like (p +:+ rest) s = true <-> exists s', s = p +:+ s' /\ like rest s' = true.
Proof.
  revert s. induction p as [|c p IH]; intros s Hp; simpl in Hp.
  - rewrite append_nil.
    split; [intros H; exists s; split; [reflexivity | exact H] | intros [s' [-> H]]; exact H].
  - apply andb_prop in Hp as [Hc Hp]. apply negb_true_iff in Hc.
    rewrite append_cons, like_literal_char by exact Hc.
    destruct s as [|d s].
    + split; [discriminate | intros [s' [H _]]; discriminate].
    + rewrite andb_true_iff, (IH s Hp). split.
      * intros [Hcd [s' [-> H]]]. apply Ascii.eqb_eq in Hcd. subst.
        exists s'. split; [reflexivity | exact H].
      * intros [s' [H1 H2]]. rewrite append_cons in H1. inversion H1; subst.
        split; [apply Ascii.eqb_refl|]. exists s'. split; [reflexivity | exact H2].
Qed.

Lemma like_contains (p s : string) :
  literal p = true ->
  like ("%" +:+ p +:+ "%") s = includes s p.
Proof.
  intros Hp. apply eq_true_iff_eq.
  change ("%" +:+ p +:+ "%") with (String "%" (p +:+ "%")).
  rewrite like_percent, includes_spec. split.
  - intros [s1 [s2 [-> H]]]. apply (like_literal p "%" s2 Hp) in H as [s3 [-> _]].
    exists s1, s3. reflexivity.
  - intros [s1 [s3 ->]]. exists s1, (p +:+ s3). split; [reflexivity|].
    apply (like_literal p "%" _ Hp). exists s3. split; [reflexivity|].
    apply like_percent. exists s3, "". split; [|reflexivity].
    clear. induction s3 as [|c s3 IH]; [reflexivity|].
    rewrite append_cons, <- IH. reflexivity.
Qed.

Lemma lower_app (a b : string) : lower (a +:+ b) = lower a +:+ lower b.
Proof.
  induction a as [|c a IH]; [reflexivity|].
  rewrite append_cons. simpl. rewrite IH. reflexivity.
Qed.

Lemma request_pattern_app (a b : string) :
  request_pattern (a +:+ b) = request_pattern a +:+ request_pattern b.
Proof.
  induction a as [|c a IH]; [reflexivity|].
  rewrite append_cons.
  destruct c as [[] [] [] [] [] [] [] []]; simpl; rewrite IH; reflexivity.
Qed.

Lemma request_pattern_plain (q : string) : plain q = true -> request_pattern q = q.
Proof.
  induction q as [|c q IH]; simpl; [reflexivity|].
  intros H. apply andb_prop in H as [Hc Hq]. rewrite (IH Hq).
  destruct c as [[] [] [] [] [] [] [] []]; try reflexivity; discriminate Hc.
Qed.

Lemma plain_lower_literal (q : string) : plain q = true -> literal (lower q) = true.
Proof.
  induction q as [|c q IH]; simpl; [reflexivity|].
  intros H. apply andb_prop in H as [Hc Hq]. rewrite (IH Hq), andb_true_r.
  destruct c as [[] [] [] [] [] [] [] []]; try reflexivity; discriminate Hc.
Qed.

Lemma ilike_contains (q s : string) :
  plain q = true ->
  ilike ("%" +:+ q +:+ "%") s = includes (lower s) (lower q).
Proof.
  intros Hq. unfold ilike.
  rewrite !request_pattern_app, (request_pattern_plain q Hq).
  change (request_pattern "%") with "%".
  rewrite !lower_app. change (lower "%") with "%".
  apply like_contains, plain_lower_literal, Hq.
Qed.

(** ** Rows of the table *)

Lemma columns_NoDup : NoDup columns.
Proof. apply (bool_decide_unpack _). vm_compute. exact I. Qed.

Lemma keys_of_row (f : string -> value) (l : list string) :
  (map (fun column => (column, f column)) l).*1 = l.
Proof. induction l as [|x l IH]; simpl; [reflexivity|]. f_equal. exact IH. Qed.

Lemma get_row_of (f : string -> value) (c : string) :
  c ∈ columns ->
  get (list_to_map (map (fun column => (column, f column)) columns)) c = f c.
Proof.
  intros Hc. unfold get.
  rewrite (elem_of_list_to_map_1 _ c (f c)); [reflexivity| |].
  - rewrite keys_of_row. apply columns_NoDup.
  - apply list_elem_of_In, in_map_iff. exists c. split; [reflexivity|].
    apply list_elem_of_In, Hc.
Qed.

Lemma new_row_get id now data c :
  c ∈ columns ->
  get (new_row id now data) c = default (column_default id now c) (sent data c).
Proof. intros Hc. unfold new_row. apply (get_row_of (fun c => default (column_default id now c) (sent data c))), Hc. Qed.

Lemma patched_get patch r c :
  c ∈ columns ->
  get (patched patch r) c = default (get r c) (sent patch c).
Proof. intros Hc. unfold patched. apply (get_row_of (fun c => default (get r c) (sent patch c))), Hc. Qed.

Ltac column := apply (bool_decide_unpack _); vm_compute; exact I.

Lemma sent_updated_at now updates :
  sent (updateData now updates) "updated_at" = Some (VTime now).
Proof.
  unfold updateData, sent. destruct (is_str _ _).
  - rewrite lookup_insert_ne by discriminate. rewrite lookup_insert_eq. reflexivity.
  - rewrite lookup_insert_eq. reflexivity.
Qed.

Lemma sent_resolved_at now updates :
  sent (updateData now updates) "resolved_at" =
  if is_str (get updates "status") "resolved" then Some (VTime now)
  else sent updates "resolved_at".
Proof.
  unfold updateData, sent. destruct (is_str _ _).
  - rewrite lookup_insert_eq. reflexivity.
  - rewrite lookup_insert_ne by discriminate. reflexivity.
Qed.

Lemma sent_status now updates :
  sent (updateData now updates) "status" = sent updates "status".
Proof.
  unfold updateData, sent. destruct (is_str _ _).
  - rewrite !lookup_insert_ne by discriminate. reflexivity.
  - rewrite lookup_insert_ne by discriminate. reflexivity.
Qed.


(** ** Status updates *)

Lemma updated_row_updated_at now updates r :
  get (updated_row now updates r) "updated_at" = VTime now.
Proof.
  unfold updated_row. rewrite patched_get by column.
  rewrite sent_updated_at. reflexivity.
Qed.

Lemma updated_row_resolved now updates r :
  is_str (get updates "status") "resolved" = true ->
  get (updated_row now updates r) "resolved_at" = VTime now.
Proof.
  intros H. unfold updated_row. rewrite patched_get by column.
  rewrite sent_resolved_at, H. reflexivity.
Qed.

Lemma updated_row_other now updates r :
  is_str (get updates "status") "resolved" = false ->
  sent updates "resolved_at" = None ->
  get (updated_row now updates r) "resolved_at" = get r "resolved_at".
Proof.
  intros H Hs. unfold updated_row. rewrite patched_get by column.
  rewrite sent_resolved_at, H, Hs. reflexivity.
Qed.

Lemma updated_row_status now updates r :
  get (updated_row now updates r) "status" = default (get r "status") (sent updates "status").
Proof.
  unfold updated_row. rewrite patched_get by column.
  rewrite sent_status. reflexivity.
Qed.

Lemma sent_is_str data c lit :
  is_str (get data c) lit = true -> sent data c = Some (VStr lit).
Proof.
  unfold get, sent, is_str. destruct (data !! c) as [[]|]; simpl; try discriminate.
  intros H. apply String.eqb_eq in H. subst. reflexivity.
Qed.

Lemma sent_Some_get data c v : sent data c = Some v -> v <> VNull -> get data c = v.
Proof.
  unfold sent, get. destruct (data !! c) as [[]|]; simpl; intros H; inversion H; subst; try reflexivity; congruence.
Qed.

Lemma updated_row_keeps_invariant now updates r :
  sent updates "resolved_at" = None ->
  resolved_has_time r ->
  resolved_has_time (updated_row now updates r).
Proof.
  intros Hnone Hr. unfold resolved_has_time.
  destruct (is_str (get updates "status") "resolved") eqn:Hs.
  - intros _. rewrite updated_row_resolved by exact Hs. reflexivity.
  - rewrite updated_row_status, updated_row_other by assumption.
    destruct (sent updates "status") as [v|] eqn:Hv; simpl; [|exact Hr].
    intros Hres. exfalso.
    destruct v; simpl in Hres; try discriminate.
    apply String.eqb_eq in Hres. subst.
    assert (get updates "status" = VStr "resolved") as E
      by (apply sent_Some_get; [exact Hv | discriminate]).
    rewrite E in Hs. discriminate.
Qed.

Lemma update_keeps_invariant fault id patch table :
  (forall r, resolved_has_time r -> resolved_has_time (patched patch r)) ->
  Forall resolved_has_time table ->
  Forall resolved_has_time (update fault id patch table).1.
Proof.
  intros Hp Ht. unfold update.
  destruct fault; [exact Ht|].
  destruct (find (has_id id) table); [|exact Ht].
  destruct (violates_not_null _); [exact Ht|]. simpl.
  induction Ht as [|x l Hx Hl IH]; simpl; constructor; auto.
  destruct (has_id id x); auto.
Qed.

Lemma new_row_invariant id now data :
  get data "status" = VStr "pending" -> sent data "resolved_at" = None ->
  resolved_has_time (new_row id now data).
Proof.
  intros Hs Hr. unfold resolved_has_time.
  rewrite !new_row_get by column.
  assert (sent data "status" = Some (VStr "pending")) as ->.
  { apply sent_is_str. rewrite Hs. reflexivity. }
  simpl. discriminate.
Qed.

Lemma perform_keeps_invariant op table :
  plain_operation op ->
  Forall resolved_has_time table ->
  Forall resolved_has_time (perform op table).
Proof.
  intros Hop Ht. destruct op as [fault id now data | fault now id updates]; simpl in *.
  - destruct Hop as [Hs Hr]. unfold submitComplaint, insert.
    destruct fault; [exact Ht|].
    destruct (violates_not_null _); [exact Ht|]. simpl.
    apply Forall_app. split; [exact Ht|].
    constructor; [|constructor]. apply new_row_invariant; assumption.
  - unfold updateComplaintStatus. apply update_keeps_invariant; [|exact Ht].
    intros r Hr. apply (updated_row_keeps_invariant now updates r Hop Hr).
Qed.

Lemma history_invariant_from ops table :
  Forall plain_operation ops ->
  Forall resolved_has_time table ->
  Forall resolved_has_time (fold_left (fun t op => perform op t) ops table).
Proof.
  intros Hops. revert table.
  induction Hops as [|op ops Hop _ IH]; intros table Ht; simpl; [exact Ht|].
  apply IH, perform_keeps_invariant; assumption.
Qed.

Lemma updateComplaintStatus_row now id updates table r :
  find (has_id id) table = Some r ->
  violates_not_null (updated_row now updates r) = None ->
  (updateComplaintStatus None now id updates table).2 = Normal (updated_row now updates r).
Proof.
  intros Hf Hv. unfold updateComplaintStatus, update. rewrite Hf.
  fold (updated_row now updates r). rewrite Hv. reflexivity.
Qed.

(** ** Listings *)

Lemma not_older_transitive : Transitive not_older.
Proof.
  intros a b c. unfold not_older.
  destruct (created_at a), (created_at b), (created_at c); try tauto; lia.
Qed.

Lemma not_older_total : Total not_older.
Proof.
  intros a b. unfold not_older.
  destruct (created_at a), (created_at b); try tauto; lia.
Qed.

Lemma select_sorted filters table :
  exists rows,
    select None filters table = Normal rows /\
    rows ≡ₚ List.filter (fun r => forallb (holds r) filters) table /\
    StronglySorted not_older rows.
Proof.
  eexists. split; [reflexivity|]. split.
  - apply merge_sort_Permutation.
  - apply StronglySorted_merge_sort;
      [apply not_older_transitive | apply not_older_total].
Qed.

Lemma column_ilike_contains r column q :
  plain q = true ->
  column_ilike r (column, "%" +:+ q +:+ "%") = contains_ci (get r column) q.
Proof.
  intros Hq. unfold column_ilike, contains_ci. simpl.
  destruct (get r column); try reflexivity. apply ilike_contains, Hq.
Qed.

Lemma holds_query_filters filters r :
  (forall q, given filters "search" = Some q -> plain q = true) ->
  forallb (holds r) (query_filters filters) = selected filters r.
Proof.
  intros Hplain. unfold query_filters, selected.
  rewrite !forallb_app.
  destruct (given filters "status") as [s|];
    [destruct (String.eqb s "all")|];
    (destruct (given filters "category") as [c|]);
    (destruct (given filters "department") as [d|]);
    (destruct (given filters "search") as [q|] eqn:Hq);
    cbn [forallb holds existsb orb andb];
    rewrite ?column_ilike_contains by (apply Hplain; reflexivity);
    unfold matches_search;
    rewrite ?andb_true_r, ?orb_false_r, ?andb_assoc; reflexivity.
Qed.

Lemma filter_ext_string {A} (f g : A -> bool) (l : list A) :
  (forall x, f x = g x) -> List.filter f l = List.filter g l.
Proof.
  intros H. induction l as [|x l IH]; simpl; [reflexivity|].
  rewrite H, IH. reflexivity.
Qed.

(** ** Reverse geocoding *)

Lemma length_app (s1 s2 : string) :
  String.length (s1 +:+ s2) = (String.length s1 + String.length s2)%nat.
Proof. induction s1 as [|c s1 IH]; simpl; [reflexivity|]. rewrite IH. reflexivity. Qed.

Lemma longer_nonempty n (s : string) : (n <? String.length s)%nat = true -> s <> "".
Proof. intros H ->. simpl in H. apply Nat.ltb_lt in H. lia. Qed.

Lemma present_nonempty (f : option string) (s : string) :
  present f = true -> f = Some s -> s <> "".
Proof. intros H -> ->. simpl in H. discriminate. Qed.

Lemma app_nonempty_l (s1 s2 : string) : s1 <> "" -> s1 +:+ s2 <> "".
Proof. destruct s1; [congruence|]. simpl. discriminate. Qed.

Lemma app_nonempty_r (s1 s2 : string) : s2 <> "" -> s1 +:+ s2 <> "".
Proof. intros H. destruct s1; simpl; [exact H | discriminate]. Qed.

Lemma push_nonempty parts f : Forall nonempty parts -> Forall nonempty (push parts f).
Proof.
  intros H. unfold push. destruct f as [s|]; [|exact H].
  destruct (present (Some s)) eqn:Hp; [|exact H].
  apply Forall_app. split; [exact H|]. constructor; [|constructor].
  eapply present_nonempty; eauto.
Qed.

Lemma push_new_nonempty parts f : Forall nonempty parts -> Forall nonempty (push_new parts f).
Proof.
  intros H. unfold push_new. destruct f as [s|]; [|exact H].
  destruct (present (Some s)) eqn:Hp; simpl; [|exact H].
  destruct (negb _); [|exact H].
  apply Forall_app. split; [exact H|]. constructor; [|constructor].
  eapply present_nonempty; eauto.
Qed.

Lemma join_nonempty sep parts :
  (0 <? length parts)%nat = true -> Forall nonempty parts -> join sep parts <> "".
Proof.
  destruct parts as [|p rest]; simpl; [discriminate|].
  intros _ H. inversion H as [|? ? Hp _]; subst.
  destruct rest; [exact Hp|]. apply app_nonempty_l, Hp.
Qed.

Lemma nominatim_branch_nonempty data a : nominatim_branch data = Some a -> a <> "".
Proof.
  unfold nominatim_branch. destruct (address data) as [addr|]; [|discriminate].
  cbv zeta.
  destruct (15 <? _)%nat eqn:H15.
  { intros H; inversion H; subst. eapply longer_nonempty; eauto. }
  destruct (present (display_name data) && _) eqn:Hd.
  { intros H. apply andb_prop in Hd as [Hd _]. eapply present_nonempty; eauto. }
  destruct (_ <? 10)%nat; [|discriminate].
  destruct (0 <? _)%nat eqn:H0; [|discriminate].
  intros H; inversion H; subst.
  apply join_nonempty; [exact H0|].
  repeat first [apply push_nonempty | apply push_new_nonempty]. constructor.
Qed.

Lemma bigdatacloud_branch_nonempty data a : bigdatacloud_branch data = Some a -> a <> "".
Proof.
  unfold bigdatacloud_branch.
  destruct (localityInfo data) as [info|].
  - destruct (administrative info).
    + destruct (15 <? _)%nat eqn:H15.
      * intros H; inversion H; subst. eapply longer_nonempty; eauto.
      * destruct (_ || _); discriminate.
    + destruct (_ || _); [|discriminate].
      destruct (15 <? _)%nat eqn:H15; [|discriminate].
      intros H; inversion H; subst. eapply longer_nonempty; eauto.
  - destruct (_ || _); [|discriminate].
    destruct (15 <? _)%nat eqn:H15; [|discriminate].
    intros H; inversion H; subst. eapply longer_nonempty; eauto.
Qed.

Lemma nominatim_alt_branch_nonempty data a : nominatim_alt_branch data = Some a -> a <> "".
Proof.
  unfold nominatim_alt_branch.
  destruct (address data) as [addr|].
  - cbv zeta. destruct (15 <? _)%nat eqn:H15.
    + intros H; inversion H; subst. eapply longer_nonempty; eauto.
    + destruct (present (display_name data)) eqn:Hp; [|discriminate].
      intros H. eapply present_nonempty; eauto.
  - destruct (present (display_name data)) eqn:Hp; [|discriminate].
    intros H. eapply present_nonempty; eauto.
Qed.

Lemma attempt_nonempty ty o a : attempt ty o = Normal (Some a) -> a <> "".
Proof.
  unfold attempt. destruct o as [e|[d|]]; simpl; try discriminate.
  intros H. inversion H as [Hb]. destruct ty; simpl in Hb.
  - eapply nominatim_branch_nonempty; eauto.
  - eapply bigdatacloud_branch_nonempty; eauto.
  - eapply nominatim_alt_branch_nonempty; eauto.
Qed.

Lemma try_services_nonempty fetch todo a :
  try_services fetch todo = Normal (Some a) -> a <> "".
Proof.
  induction todo as [|ty rest IH]; simpl; [discriminate|].
  destruct (attempt ty (fetch ty)) as [[b|]|e] eqn:Ha.
  - intros H; inversion H; subst. eapply attempt_nonempty; eauto.
  - exact IH.
  - destruct e; simpl; [exact IH | discriminate].
Qed.

Lemma try_services_failed fetch todo :
  (forall ty, ty ∈ todo -> failed ty (fetch ty)) ->
  try_services fetch todo = Normal None.
Proof.
  induction todo as [|ty rest IH]; intros H; simpl; [reflexivity|].
  destruct (H ty) as [Ha|[m Ha]]; [left | | ]; rewrite Ha; simpl.
  - apply IH. intros ty' Hin. apply H. right. exact Hin.
  - apply IH. intros ty' Hin. apply H. right. exact Hin.
Qed.

Lemma gps_fallback_num a b :
  gps_fallback (VNum a) (VNum b) =
  Normal ("GPS Location: " +:+ toFixed a 6 +:+ ", " +:+ toFixed b 6).
Proof. reflexivity. Qed.

Lemma bare_coordinates_num a b :
  bare_coordinates (VNum a) (VNum b) = Normal (toFixed a 6 +:+ ", " +:+ toFixed b 6).
Proof. reflexivity. Qed.

Lemma reverseGeocode_failed fetch a b :
  (forall ty, ty ∈ services -> failed ty (fetch ty)) ->
  reverseGeocode fetch (VNum a) (VNum b) =
  Normal ("GPS Location: " +:+ toFixed a 6 +:+ ", " +:+ toFixed b 6).
Proof.
  intros H. unfold reverseGeocode. rewrite (try_services_failed _ _ H). reflexivity.
Qed.

Lemma reverseGeocode_cases fetch a b :
  (exists addr, try_services fetch services = Normal (Some addr) /\
                reverseGeocode fetch (VNum a) (VNum b) = Normal addr) \/
  (try_services fetch services = Normal None /\
   reverseGeocode fetch (VNum a) (VNum b) =
   Normal ("GPS Location: " +:+ toFixed a 6 +:+ ", " +:+ toFixed b 6)) \/
  (exists e, try_services fetch services = Throw e /\
             reverseGeocode fetch (VNum a) (VNum b) =
             Normal (toFixed a 6 +:+ ", " +:+ toFixed b 6)).
Proof.
  unfold reverseGeocode.
  destruct (try_services fetch services) as [[addr|]|e]; simpl.
  - left. exists addr. split; reflexivity.
  - right. left. split; reflexivity.
  - right. right. exists e. split; reflexivity.
Qed.

Lemma bare_differs_from_fallback (x : string) : x <> "GPS Location: " +:+ x.
Proof.
  intros H. apply (f_equal String.length) in H. rewrite length_app in H. simpl in H. lia.
Qed.

(** ** The wizard's states *)

Lemma get_insert (m : gmap string value) (k k' : string) (v : value) :
  get (<[k:=v]> m) k' = if String.eqb k k' then v else get m k'.
Proof.
  unfold get. destruct (String.eqb_spec k k') as [->|Hne].
  - rewrite lookup_insert_eq. reflexivity.
  - rewrite lookup_insert_ne by exact Hne. reflexivity.
Qed.


Ltac state_simpl :=
  unfold watch, nextStep, prevStep, setStep, setCapturedImage, setAiPrediction,
    setCurrentLocation, setCurrentAddress, setModel, setValue in *;
  cbn [step capturedImage aiPrediction currentLocation currentAddress model
       modelLoading form] in *.

(** The same for a state built from [initial] by many setters. *)
Ltac state_eval :=
  cbv [watch nextStep prevStep setStep setCapturedImage setAiPrediction
       setCurrentLocation setCurrentAddress setModel setValue initial
       step capturedImage aiPrediction currentLocation currentAddress model
       modelLoading form].

Ltac form_values :=
  repeat (rewrite get_insert; cbn [String.eqb Ascii.eqb Bool.eqb]).

Lemma watch_setValue name name' v s :
  watch name' (setValue name v s) = if String.eqb name name' then v else watch name' s.
Proof. unfold watch, setValue. cbn [form]. apply get_insert. Qed.

Lemma well_formed_initial : well_formed initial.
Proof.
  split; unfold initial; state_simpl.
  - lia.
  - lia.
  - exists "". reflexivity.
  - exists "". reflexivity.
  - exists "medium". reflexivity.
  - left. reflexivity.
  - exists "". reflexivity.
  - left. reflexivity.
  - left. reflexivity.
  - left. reflexivity.
Qed.

Lemma well_formed_setValue name v s :
  fits name v -> well_formed s -> well_formed (setValue name v s).
Proof.
  intros Hv [H1 H2 H3 H4 H5 H6 H7 H8 H9 H10]. unfold fits in Hv.
  split; state_simpl; try assumption; rewrite get_insert.
  - destruct (String.eqb_spec name "category") as [->|]; [exact Hv | exact H3].
  - destruct (String.eqb_spec name "description") as [->|]; [exact Hv | exact H4].
  - destruct (String.eqb_spec name "priority") as [->|]; [exact Hv | exact H5].
  - destruct (String.eqb_spec name "department") as [->|]; [exact Hv | exact H6].
  - destruct (String.eqb_spec name "address") as [->|]; [exact Hv | exact H7].
  - destruct (String.eqb_spec name "latitude") as [->|]; [exact Hv | exact H8].
  - destruct (String.eqb_spec name "longitude") as [->|]; [exact Hv | exact H9].
Qed.

Lemma well_formed_setAiPrediction p s :
  well_formed s -> well_formed (setAiPrediction p s).
Proof. intros [H1 H2 H3 H4 H5 H6 H7 H8 H9 H10]. split; state_simpl; assumption. Qed.

Lemma well_formed_setCurrentAddress a s :
  well_formed s -> well_formed (setCurrentAddress a s).
Proof. intros [H1 H2 H3 H4 H5 H6 H7 H8 H9 H10]. split; state_simpl; assumption. Qed.

Lemma well_formed_setModel b s :
  well_formed s -> well_formed (setModel b s).
Proof. intros [H1 H2 H3 H4 H5 H6 H7 H8 H9 H10]. split; state_simpl; assumption. Qed.

Lemma well_formed_setCurrentLocation a b s :
  well_formed s ->
  well_formed (setCurrentLocation (Some (location_object (VNum a) (VNum b))) s).
Proof.
  intros [H1 H2 H3 H4 H5 H6 H7 H8 H9 H10]. split; state_simpl; try assumption.
  right. exists a, b. reflexivity.
Qed.

Lemma well_formed_autofill ai s : well_formed s -> well_formed (autofill ai s).
Proof.
  intros H. unfold autofill.
  assert (well_formed (setValue "department"
            (table_get DEPARTMENT_MAPPING (VStr (className ai)))
            (setValue "category" (VStr (className ai)) s))) as H'.
  { apply well_formed_setValue; [right; eexists; reflexivity|].
    apply well_formed_setValue; [eexists; reflexivity | exact H]. }
  destruct (DESCRIPTION_TEMPLATES !! className ai); [|exact H'].
  destruct (template_address _); [|exact H'].
  apply well_formed_setValue; [eexists; reflexivity | exact H'].
Qed.

Lemma well_formed_processImageWithAI c s :
  well_formed s -> well_formed (processImageWithAI c s).
Proof.
  intros H. unfold processImageWithAI.
  destruct (negb (model s)); [exact H|].
  destruct c as [e|predictions]; [exact H|].
  destruct (Qlt_le_dec _ _).
  - apply well_formed_autofill, well_formed_setAiPrediction, H.
  - apply well_formed_setAiPrediction, H.
Qed.

Lemma get_location_latitude a b : get (location_object a b) "latitude" = a.
Proof. unfold location_object. rewrite get_insert. reflexivity. Qed.

Lemma get_location_longitude a b : get (location_object a b) "longitude" = b.
Proof. unfold location_object. rewrite !get_insert. reflexivity. Qed.

Lemma get_location_other a b k :
  k <> "latitude" -> k <> "longitude" -> get (location_object a b) k = VUndefined.
Proof.
  intros H1 H2. unfold location_object. rewrite !get_insert.
  destruct (String.eqb_spec "latitude" k); [congruence|].
  destruct (String.eqb_spec "longitude" k); [congruence|].
  reflexivity.
Qed.

Lemma well_formed_handleMapLocationSelect fetch a b s :
  well_formed s ->
  well_formed (handleMapLocationSelect fetch (location_object (VNum a) (VNum b)) s).
Proof.
  intros H. unfold handleMapLocationSelect.
  rewrite get_location_latitude, get_location_longitude.
  assert (well_formed
            (setValue "longitude" (VNum b)
               (setValue "latitude" (VNum a)
                  (setCurrentLocation (Some (location_object (VNum a) (VNum b))) s)))) as H'.
  { apply well_formed_setValue; [right; eexists; reflexivity|].
    apply well_formed_setValue; [right; eexists; reflexivity|].
    apply well_formed_setCurrentLocation, H. }
  destruct (Geocode.reverseGeocode _ _ _); [|exact H'].
  apply well_formed_setValue; [eexists; reflexivity|].
  apply well_formed_setCurrentAddress, H'.
Qed.

Lemma getCurrentLocation_as_selection fetch latitude longitude s :
  getCurrentLocation fetch (Some (latitude, longitude)) s =
  handleMapLocationSelect fetch (location_object (VNum latitude) (VNum longitude)) s.
Proof.
  unfold getCurrentLocation, handleMapLocationSelect.
  rewrite get_location_latitude, get_location_longitude. reflexivity.
Qed.

Lemma well_formed_getCurrentLocation fetch position s :
  well_formed s -> well_formed (getCurrentLocation fetch position s).
Proof.
  intros H. destruct position as [[latitude longitude]|]; [|exact H].
  rewrite getCurrentLocation_as_selection.
  apply well_formed_handleMapLocationSelect, H.
Qed.

Lemma well_formed_handle e s s' :
  well_formed s -> handle e s = Some s' -> well_formed s'.
Proof.
  intros H He. destruct e; simpl in He.
  - destruct (modelLoading s); inversion He; subst. apply well_formed_setModel, H.
  - destruct (modelLoading s); inversion He; subst. apply well_formed_setModel, H.
  - destruct (_ && _) eqn:G; inversion He; subst.
    apply well_formed_processImageWithAI.
    apply andb_prop in G as [G _]. apply andb_prop in G as [G _].
    apply Z.eqb_eq in G.
    destruct H as [H1 H2 H3 H4 H5 H6 H7 H8 H9 H10].
    split; state_simpl; try assumption. intros; lia.
  - destruct (_ && _) eqn:G; inversion He; subst.
    apply andb_prop in G as [G _]. apply Z.eqb_eq in G.
    destruct H as [H1 H2 H3 H4 H5 H6 H7 H8 H9 H10].
    split; state_simpl; try assumption. intros; lia.
  - destruct H as [H1 H2 H3 H4 H5 H6 H7 H8 H9 H10].
    destruct (Z.eqb_spec (step s) 1) as [E1|N1].
    + destruct (capturedImage s) eqn:Hi; inversion He; subst.
      split; state_simpl; try assumption; [lia | rewrite Hi; discriminate].
    + destruct (Z.eqb_spec (step s) 2) as [E2|N2]; inversion He; subst.
      split; state_simpl; try assumption; [lia | intros _; apply H2; lia].
  - destruct H as [H1 H2 H3 H4 H5 H6 H7 H8 H9 H10].
    destruct (_ || _) eqn:G; inversion He; subst.
    apply orb_prop in G.
    split; state_simpl; try assumption.
    + destruct G as [G|G]; apply Z.eqb_eq in G; lia.
    + intros Hs. apply H2. lia.
  - destruct (_ && _); inversion He; subst.
    apply well_formed_setValue; [eexists; reflexivity | exact H].
  - destruct (_ && _); inversion He; subst.
    apply well_formed_setValue; [eexists; reflexivity | exact H].
  - destruct (_ =? _)%Z; inversion He; subst.
    apply well_formed_setValue; [eexists; reflexivity | exact H].
  - inversion He; subst.
    apply well_formed_setValue; [eexists; reflexivity | exact H].
  - destruct (_ =? _)%Z; inversion He; subst.
    apply well_formed_setValue; [eexists; reflexivity | exact H].
  - inversion He; subst. apply well_formed_getCurrentLocation, H.
  - destruct (_ =? _)%Z; inversion He; subst.
    apply well_formed_handleMapLocationSelect, H.
Qed.

Lemma reachable_well_formed s : reachable s -> well_formed s.
Proof.
  induction 1 as [|s e s' _ IH He]; [apply well_formed_initial|].
  eapply well_formed_handle; eauto.
Qed.

(** ** Submission *)

Lemma run_reachable events s s' : reachable s -> run events s = Some s' -> reachable s'.
Proof.
  revert s. induction events as [|e rest IH]; intros s Hs Hr; simpl in Hr.
  - inversion Hr; subst. exact Hs.
  - destruct (handle e s) as [s1|] eqn:He; [|discriminate].
    apply (IH s1); [|exact Hr]. eapply reachable_step; eauto.
Qed.

Lemma sent_storable data c v :
  data !! c = Some v -> storable v -> sent data c = Some v /\ is_null v = false.
Proof. intros H Hv. unfold sent. rewrite H. destruct v; simpl in *; tauto. Qed.

Lemma insert_accepts id now data :
  (forall c, c ∈ not_null_columns -> exists v, data !! c = Some v /\ storable v) ->
  violates_not_null (new_row id now data) = None.
Proof.
  intros H. unfold violates_not_null.
  destruct (find _ not_null_columns) as [c|] eqn:Hf; [|reflexivity].
  apply find_some in Hf as [Hin Hnull]. exfalso.
  assert (c ∈ not_null_columns) as Hc by (apply list_elem_of_In, Hin).
  destruct (H c Hc) as [v [Hv Hs]].
  destruct (sent_storable data c v Hv Hs) as [Hsent Hnn].
  assert (c ∈ columns) as Hcol.
  { clear -Hin. simpl in Hin.
    repeat (destruct Hin as [<-|Hin]; [column|]). destruct Hin. }
  rewrite new_row_get in Hnull by exact Hcol.
  rewrite Hsent in Hnull. simpl in Hnull. congruence.
Qed.

Lemma or_else_text (a b : value) :
  (exists x, a = VStr x) \/ a = VNull \/ a = VUndefined ->
  (exists y, b = VStr y) ->
  exists z, or_else a b = VStr z.
Proof.
  intros Ha [y ->]. unfold or_else.
  destruct Ha as [[x ->]|[->| ->]]; simpl; [|eauto|eauto].
  destruct (negb _); eauto.
Qed.

Lemma table_get_shape (t : gmap string string) (k : value) :
  (exists x, table_get t k = VStr x) \/ table_get t k = VUndefined.
Proof.
  unfold table_get. destruct k; auto. destruct (t !! s); eauto.
Qed.

Lemma department_of_class c :
  c ∈ AI_CLASSES -> exists d, table_get DEPARTMENT_MAPPING (VStr c) = VStr d.
Proof.
  intros H. unfold AI_CLASSES in H.
  repeat (apply elem_of_cons in H as [->|H]; [eexists; reflexivity|]).
  apply elem_of_nil in H. destruct H.
Qed.

Lemma location_field_foreign s k :
  well_formed s -> k <> "latitude" -> k <> "longitude" -> location_field s k = VUndefined.
Proof.
  intros Hwf H1 H2. unfold location_field.
  destruct (wf_location s Hwf) as [->|[a [b ->]]]; [reflexivity|].
  apply get_location_other; assumption.
Qed.

Lemma or_else_string (x : string) (b : value) :
  or_else (VStr x) b = if negb (String.eqb x "") then VStr x else b.
Proof. reflexivity. Qed.

Lemma or_else_number (q : Q) (b : value) :
  or_else (VNum q) b = if negb (Qeq_bool q 0) then VNum q else b.
Proof. reflexivity. Qed.

Lemma coordinate_number parse (v : value) :
  v = VStr "" \/ (exists q, v = VNum q) ->
  exists q, parseFloat parse (or_else (or_else v VUndefined) (VNum 0)) = VNum q.
Proof.
  intros [->|[q ->]]; [exists 0%Q; reflexivity|].
  rewrite or_else_number. destruct (negb (Qeq_bool q 0)) eqn:E.
  - rewrite or_else_number, E. eexists; reflexivity.
  - eexists; reflexivity.
Qed.

Lemma complaintData_storable parse uid image_url s c k :
  well_formed s -> watch "category" s = VStr c -> c ∈ AI_CLASSES ->
  k ∈ not_null_columns ->
  exists v, complaintData parse uid image_url (form s) s !! k = Some v /\ storable v.
Proof.
  intros Hwf Hc Hin Hk. unfold watch in Hc.
  destruct (wf_description s Hwf) as [d Hd].
  destruct (wf_priority s Hwf) as [p Hp].
  destruct (wf_address s Hwf) as [a Ha].
  unfold watch in Hd, Hp, Ha.
  unfold not_null_columns in Hk.
  repeat (apply elem_of_cons in Hk as [->|Hk]);
    [ | | | | | | | | apply elem_of_nil in Hk; destruct Hk];
    (eexists; split; [reflexivity|]).
  - rewrite Hc. exact I.
  - rewrite Hd. exact I.
  - rewrite Hp. exact I.
  - exact I.
  - destruct (department_of_class c Hin) as [dep Hdep]. rewrite Hc.
    destruct (or_else_text (get (form s) "department")
                (table_get DEPARTMENT_MAPPING (VStr c))) as [z ->]; [|eauto|exact I].
    destruct (wf_department s Hwf) as [E|[c' E]]; unfold watch in E; rewrite E.
    + left. eauto.
    + destruct (table_get_shape DEPARTMENT_MAPPING (VStr c')) as [[x ->]| ->];
        [left; exists x; reflexivity | right; right; reflexivity].
  - rewrite Ha.
    destruct (or_else_text (or_else (VStr a) (address_value s))
                (VStr "Address not available")) as [z ->]; [|eauto|exact I].
    rewrite or_else_string. destruct (negb (String.eqb a "")); [left; eauto|].
    unfold address_value.
    destruct (currentAddress s) as [x|]; [left; exists x; reflexivity | right; left; reflexivity].
  - destruct (coordinate_number parse (get (form s) "latitude")) as [q Hq];
      [exact (wf_latitude s Hwf)|].
    rewrite (location_field_foreign s "lat" Hwf) by discriminate.
    rewrite Hq. exact I.
  - destruct (coordinate_number parse (get (form s) "longitude")) as [q Hq];
      [exact (wf_longitude s Hwf)|].
    rewrite (location_field_foreign s "lng" Hwf) by discriminate.
    rewrite Hq. exact I.
Qed.

Lemma onSubmit_done parse u env s table c :
  well_formed s -> watch "category" s = VStr c -> c ∈ AI_CLASSES -> fault env = None ->
  onSubmit parse (Some u) env (form s) s table =
  (table ++ [new_row (new_id env) (now env)
               (complaintData parse (get u "id") (imageUrl (Some u) env s) (form s) s)],
   Done (new_row (new_id env) (now env)
           (complaintData parse (get u "id") (imageUrl (Some u) env s) (form s) s))).
Proof.
  intros Hwf Hc Hin Hf. unfold onSubmit, user_id, submitComplaint, insert.
  rewrite Hf. rewrite insert_accepts; [reflexivity|].
  intros k Hk. eapply complaintData_storable; eauto.
Qed.

Lemma onSubmit_Done_inv parse user env data s table table' created :
  onSubmit parse user env data s table = (table', Done created) ->
  exists u,
    user = Some u /\
    created = new_row (new_id env) (now env)
                (complaintData parse (get u "id") (imageUrl user env s) data s) /\
    violates_not_null created = None /\
    table' = table ++ [created].
Proof.
  unfold onSubmit, user_id, submitComplaint, insert.
  destruct user as [u|]; [|discriminate].
  destruct (fault env) as [[m|]|]; try discriminate.
  destruct (violates_not_null _) as [column|] eqn:Hv; [discriminate|].
  intros H. inversion H; subst. exists u. repeat split. exact Hv.
Qed.

Lemma accepted_not_null r column :
  violates_not_null r = None -> column ∈ not_null_columns -> is_null (get r column) = false.
Proof.
  intros Hv Hc. unfold violates_not_null in Hv.
  apply (find_none _ _ Hv). apply list_elem_of_In, Hc.
Qed.

Lemma new_row_keeps id now data column :
  column ∈ columns ->
  column_default id now column = VNull ->
  is_null (get (new_row id now data) column) = false ->
  get (new_row id now data) column = get data column.
Proof.
  intros Hc Hd. rewrite new_row_get by exact Hc. rewrite Hd.
  unfold sent, get. destruct (data !! column) as [[]|]; simpl; congruence.
Qed.

Lemma imageUrl_failed user env s :
  upload_fails env \/ capturedImage s = None -> imageUrl user env s = VNull.
Proof.
  unfold imageUrl, upload_fails. intros [H|H].
  - destruct (capturedImage s); [|reflexivity].
    destruct (image env) as [[m|url]|e]; simpl; try reflexivity; [|destruct H].
    destruct (user_id user); simpl; [|reflexivity].
    unfold uploadImage. destruct (_ || _); reflexivity.
  - rewrite H. reflexivity.
Qed.

(** C5. A valid completion of the wizard (a reachable state whose
    category is one of the classes, a signed-in user, a store that takes
    the write) creates exactly one record: the table grows by the created
    row, whose status is pending and whose resolved_at is null.  The
    outcome of the image upload plays no part in this: when it fails, or
    there is no image, the row is created all the same with a null
    image_url. *)
Theorem submission_creates_one_pending parse u env s table c :
  reachable s ->
  watch "category" s = VStr c ->
  c ∈ AI_CLASSES ->
  fault env = None ->
  exists created,
    onSubmit parse (Some u) env (form s) s table = (table ++ [created], Done created) /\
    get created "status" = VStr "pending" /\
    get created "resolved_at" = VNull /\
    (upload_fails env \/ capturedImage s = None -> get created "image_url" = VNull).
Proof.
  intros Hr Hc Hin Hf.
  eexists. split; [apply (onSubmit_done parse u env s table c); auto|].
  { apply reachable_well_formed, Hr. }
  split; [|split].
  - rewrite new_row_get by column. reflexivity.
  - rewrite new_row_get by column. reflexivity.
  - intros Hup. rewrite new_row_get by column.
    unfold sent.
    replace (complaintData parse (get u "id") (imageUrl (Some u) env s) (form s) s
               !! "image_url") with (Some (imageUrl (Some u) env s)) by reflexivity.
    rewrite (imageUrl_failed _ _ _ Hup). reflexivity.
Qed.

Lemma submission_creates_one_pending_witness :
  exists s created,
    run [ModelFailed; ImageAcquired Scenario.photo (Predicted []); NextStep;
         SelectCategory "Pothole"; EditDescription "pothole near gate"; NextStep]
        initial = Some s /\
    onSubmit Scenario.no_numeral (Some Scenario.citizen)
      (Scenario.store_up (Throw (ThrownError "Failed to fetch"))) (form s) s []
    = ([created], Done created) /\
    get created "status" = VStr "pending" /\
    get created "resolved_at" = VNull /\
    get created "image_url" = VNull.
Proof.
  eexists.
  destruct (submission_creates_one_pending Scenario.no_numeral Scenario.citizen
              (Scenario.store_up (Throw (ThrownError "Failed to fetch")))
              (setStep 3 (setValue "description" (VStr "pothole near gate")
                 (setValue "category" (VStr "Pothole")
                    (setStep 2 (setCapturedImage (Some Scenario.photo)
                       (setModel false initial))))))
              [] "Pothole") as [created [H1 [H2 [H3 H4]]]].
  - apply (run_reachable
             [ModelFailed; ImageAcquired Scenario.photo (Predicted []); NextStep;
              SelectCategory "Pothole"; EditDescription "pothole near gate"; NextStep]
             initial); [apply reachable_initial | reflexivity].
  - reflexivity.
  - apply (bool_decide_unpack _). vm_compute. exact I.
  - reflexivity.
  - exists created. split; [reflexivity|]. split; [exact H1|].
    split; [exact H2|]. split; [exact H3|]. apply H4. left. exact I.
Defined.



(** ** Department and category *)

Lemma or_else_same (v : value) : or_else v v = v.
Proof. unfold or_else. destruct (truthy v); reflexivity. Qed.

Lemma complaintData_department parse uid image_url s :
  consistent_form s ->
  get (complaintData parse uid image_url (form s) s) "department" =
  table_get DEPARTMENT_MAPPING (get (complaintData parse uid image_url (form s) s) "category").
Proof.
  intros H.
  change (or_else (get (form s) "department")
            (table_get DEPARTMENT_MAPPING (get (form s) "category")) =
          table_get DEPARTMENT_MAPPING (get (form s) "category")).
  destruct H as [H|H]; unfold watch in H; rewrite H; [reflexivity | apply or_else_same].
Qed.

Lemma consistent_form_ext s s' :
  watch "department" s' = watch "department" s ->
  watch "category" s' = watch "category" s ->
  consistent_form s -> consistent_form s'.
Proof. unfold consistent_form. intros -> ->. exact id. Qed.

Lemma consistent_form_autofill ai s : consistent_form (autofill ai s).
Proof.
  unfold autofill, consistent_form. right.
  destruct (DESCRIPTION_TEMPLATES !! className ai); [destruct (template_address _)|];
    state_simpl; form_values; reflexivity.
Qed.

Lemma consistent_form_handleMapLocationSelect fetch location s :
  consistent_form s -> consistent_form (handleMapLocationSelect fetch location s).
Proof.
  unfold handleMapLocationSelect.
  destruct (reverseGeocode _ _ _); apply consistent_form_ext;
    state_simpl; form_values; reflexivity.
Qed.

Lemma consistent_form_handle e s s' :
  consistent_form s ->
  handle e s = Some s' ->
  is_select_category e = false \/ watch "department" s = VStr "" ->
  consistent_form s'.
Proof.
  intros H He Hsel. destruct e; simpl in He, Hsel;
    try (destruct (modelLoading s); inversion He; subst; exact H).
  - destruct (_ && _); inversion He; subst.
    unfold processImageWithAI.
    destruct (negb _); [exact H|]. destruct c; [exact H|].
    destruct (Qlt_le_dec _ _); [apply consistent_form_autofill | exact H].
  - destruct (_ && _); inversion He; subst. exact H.
  - destruct (step s =? 1)%Z.
    + destruct (non_null _); inversion He; subst. exact H.
    + destruct (step s =? 2)%Z; inversion He; subst. exact H.
  - destruct (_ || _); inversion He; subst. exact H.
  - destruct (_ && _); inversion He; subst.
    destruct Hsel as [Hsel|Hsel]; [discriminate|].
    left. unfold watch in *. state_simpl. form_values. exact Hsel.
  - destruct (_ && _); inversion He; subst.
    revert H. apply consistent_form_ext; state_simpl; form_values; reflexivity.
  - destruct (_ =? _)%Z; inversion He; subst.
    revert H. apply consistent_form_ext; state_simpl; form_values; reflexivity.
  - inversion He; subst.
    revert H. apply consistent_form_ext; state_simpl; form_values; reflexivity.
  - destruct (_ =? _)%Z; inversion He; subst.
    revert H. apply consistent_form_ext; state_simpl; form_values; reflexivity.
  - inversion He; subst. destruct position as [[latitude longitude]|]; [|exact H].
    rewrite getCurrentLocation_as_selection.
    apply consistent_form_handleMapLocationSelect, H.
  - destruct (_ =? _)%Z; inversion He; subst.
    apply consistent_form_handleMapLocationSelect, H.
Qed.

Lemma created_department parse user env s table table' created :
  consistent_form s ->
  onSubmit parse user env (form s) s table = (table', Done created) ->
  get created "department" = table_get DEPARTMENT_MAPPING (get created "category").
Proof.
  intros Hc Hdone. apply onSubmit_Done_inv in Hdone as [u [-> [-> [Hv _]]]].
  rewrite (new_row_keeps _ _ _ "department"); [| column | reflexivity |].
  - rewrite (new_row_keeps _ _ _ "category"); [| column | reflexivity |].
    + apply complaintData_department, Hc.
    + apply accepted_not_null; [exact Hv | column].
  - apply accepted_not_null; [exact Hv | column].
Qed.

Lemma updated_row_untouched now updates r column :
  column ∈ columns -> column <> "updated_at" -> column <> "resolved_at" ->
  sent updates column = None ->
  get (updated_row now updates r) column = get r column.
Proof.
  intros Hc H1 H2 Hs. unfold updated_row. rewrite patched_get by exact Hc.
  replace (sent (updateData now updates) column) with (sent updates column);
    [rewrite Hs; reflexivity|].
  unfold updateData, sent. destruct (is_str _ _).
  - rewrite !lookup_insert_ne by congruence. reflexivity.
  - rewrite lookup_insert_ne by congruence. reflexivity.
Qed.

(** C1, as amended.  The department stored by a submission is the
    table's entry for the stored category whenever the form is
    consistent at submit time: its department is still empty or is the
    entry for its current category.  The form starts consistent and every
    handler keeps it so, a choice of category in the Details step
    included as long as no autofill has filled the department before.
    An admin update writes the fields it is given and nothing else: one
    that names neither category nor department leaves both as they were. *)
Theorem department_follows_category :
  consistent_form initial /\
  (forall e s s',
      consistent_form s -> handle e s = Some s' ->
      is_select_category e = false \/ watch "department" s = VStr "" ->
      consistent_form s') /\
  (forall parse user env s table table' created,
      consistent_form s ->
      onSubmit parse user env (form s) s table = (table', Done created) ->
      get created "department" = table_get DEPARTMENT_MAPPING (get created "category")) /\
  (forall now updates r,
      sent updates "category" = None -> sent updates "department" = None ->
      get (updated_row now updates r) "category" = get r "category" /\
      get (updated_row now updates r) "department" = get r "department").
Proof.
  split; [left; reflexivity|].
  split; [exact consistent_form_handle|].
  split; [exact created_department|].
  intros now updates r Hc Hd. split.
  - apply updated_row_untouched; [column | discriminate | discriminate | exact Hc].
  - apply updated_row_untouched; [column | discriminate | discriminate | exact Hd].
Qed.

Lemma department_follows_category_witness :
  exists created,
    run [ModelLoaded; ImageAcquired Scenario.photo (Predicted Scenario.confident_pothole);
         NextStep; NextStep] initial = Some (nextStep (nextStep Scenario.autofilled)) /\
    onSubmit Scenario.no_numeral (Some Scenario.citizen)
      (Scenario.store_up (Throw ThrownNullish))
      (form (nextStep (nextStep Scenario.autofilled)))
      (nextStep (nextStep Scenario.autofilled)) [] = ([created], Done created) /\
    get created "department" = table_get DEPARTMENT_MAPPING (get created "category") /\
    get created "department" = VStr "Road Authority".
Proof.
  eexists. split; [reflexivity|]. split; [reflexivity|]. split; [|reflexivity].
  apply (proj1 (proj2 (proj2 department_follows_category))
           Scenario.no_numeral (Some Scenario.citizen)
           (Scenario.store_up (Throw ThrownNullish))
           (nextStep (nextStep Scenario.autofilled)) []
           [new_row "c-1" 100
              (complaintData Scenario.no_numeral (VStr "u-1") VNull
                 (form (nextStep (nextStep Scenario.autofilled)))
                 (nextStep (nextStep Scenario.autofilled)))]).
  - right. reflexivity.
  - reflexivity.
Defined.

(** C1 as stated fails for an admin update that changes the category:
    the department is not recomputed. *)
Lemma admin_update_keeps_department :
  Scenario.table_fields ["category"; "department"]
    (history [Submit None "c-1" 100 Scenario.pothole_report;
              UpdateStatus None 200 "c-1" {[ "category" := VStr "Garbage" ]}]) =
    [[VStr "Garbage"; VStr "Road Authority"]] /\
  table_get DEPARTMENT_MAPPING (VStr "Garbage") = VStr "Sanitation Department" /\
  forallb department_of_category
    (history [Submit None "c-1" 100 Scenario.pothole_report;
              UpdateStatus None 200 "c-1" {[ "category" := VStr "Garbage" ]}]) = false.
Proof. repeat split; vm_compute; reflexivity. Qed.

(** After an autofill, a category chosen by hand is submitted with the
    department of the autofilled class. *)
Example department_after_manual_change :
  Scenario.submitted_fields ["category"; "department"]
    [ModelLoaded; ImageAcquired Scenario.photo (Predicted Scenario.confident_pothole);
     NextStep; SelectCategory "Garbage"; NextStep] =
  Some [VStr "Garbage"; VStr "Road Authority"].
Proof. vm_compute. reflexivity. Qed.

(** ** Classification *)

Lemma template_of_class c :
  c ∈ AI_CLASSES -> exists template, DESCRIPTION_TEMPLATES !! c = Some template.
Proof.
  intros H. unfold AI_CLASSES in H.
  repeat (apply elem_of_cons in H as [->|H]; [eexists; reflexivity|]).
  apply elem_of_nil in H. destruct H.
Qed.

Lemma template_address_total s :
  well_formed s -> exists address, template_address s = Normal address.
Proof.
  intros Hwf. unfold template_address.
  destruct (present (currentAddress s)); [eexists; reflexivity|].
  destruct (wf_location s Hwf) as [->|[a [b ->]]]; [eexists; reflexivity|].
  rewrite get_location_latitude, get_location_longitude. eexists; reflexivity.
Qed.

Lemma autofill_category ai s :
  watch "category" (autofill ai s) = VStr (className ai) /\
  watch "department" (autofill ai s) = table_get DEPARTMENT_MAPPING (VStr (className ai)).
Proof.
  unfold autofill.
  destruct (DESCRIPTION_TEMPLATES !! className ai); [destruct (template_address _)|];
    split; state_simpl; form_values; reflexivity.
Qed.

Lemma autofill_description ai s template address :
  DESCRIPTION_TEMPLATES !! className ai = Some template ->
  template_address s = Normal address ->
  watch "description" (autofill ai s) = VStr (replace template "[ADDRESS]" address).
Proof.
  intros Ht Ha. unfold autofill. rewrite Ht.
  replace (template_address _) with (template_address s) by reflexivity.
  rewrite Ha. state_simpl. form_values. reflexivity.
Qed.

(** C3. Once the model is loaded, a classification result fills the
    form exactly when its confidence (the highest probability) is
    strictly above 0.6: then category is set to the class and department
    to the table's entry for it, and, the class being one of the five,
    description is set to the class template with the address put in the
    place of [ADDRESS]; at 0.6 or below the form is left as it was. *)
Theorem autofill_above_threshold s predictions :
  model s = true ->
  ((CONFIDENCE_THRESHOLD < probability (top_prediction predictions))%Q ->
     watch "category" (processImageWithAI (Predicted predictions) s) =
       VStr (className (top_prediction predictions)) /\
     watch "department" (processImageWithAI (Predicted predictions) s) =
       table_get DEPARTMENT_MAPPING (VStr (className (top_prediction predictions))) /\
     (className (top_prediction predictions) ∈ AI_CLASSES ->
      reachable s ->
      exists template address,
        DESCRIPTION_TEMPLATES !! className (top_prediction predictions) = Some template /\
        template_address s = Normal address /\
        watch "description" (processImageWithAI (Predicted predictions) s) =
          VStr (replace template "[ADDRESS]" address))) /\
  ((probability (top_prediction predictions) <= CONFIDENCE_THRESHOLD)%Q ->
     form (processImageWithAI (Predicted predictions) s) = form s).
Proof.
  intros Hm. unfold processImageWithAI. rewrite Hm. simpl negb. cbv iota.
  destruct (Qlt_le_dec _ _) as [Hlt|Hle]; split.
  - intros _.
    destruct (autofill_category (top_prediction predictions)
                (setAiPrediction (Some (top_prediction predictions)) s)) as [Hc Hd].
    split; [exact Hc|]. split; [exact Hd|].
    intros Hin Hr.
    destruct (template_of_class _ Hin) as [template Ht].
    destruct (template_address_total s (reachable_well_formed s Hr)) as [address Ha].
    exists template, address. split; [exact Ht|]. split; [exact Ha|].
    apply autofill_description; [exact Ht | exact Ha].
  - intros Hle. exfalso. apply (Qlt_not_le _ _ Hlt Hle).
  - intros Hlt. exfalso. apply (Qlt_not_le _ _ Hlt Hle).
  - intros _. reflexivity.
Qed.

Lemma autofill_above_threshold_witness :
  watch "category"
    (processImageWithAI (Predicted Scenario.confident_pothole)
       (setCapturedImage (Some Scenario.photo) (setModel true initial))) = VStr "Pothole" /\
  form (processImageWithAI (Predicted Scenario.borderline_pothole)
          (setCapturedImage (Some Scenario.photo) (setModel true initial))) =
  form (setCapturedImage (Some Scenario.photo) (setModel true initial)).
Proof.
  split.
  - apply (autofill_above_threshold
             (setCapturedImage (Some Scenario.photo) (setModel true initial))
             Scenario.confident_pothole).
    + reflexivity.
    + unfold Qlt. simpl. lia.
  - apply (autofill_above_threshold
             (setCapturedImage (Some Scenario.photo) (setModel true initial))
             Scenario.borderline_pothole).
    + reflexivity.
    + unfold Qle. simpl. lia.
Defined.

(** At a confidence of exactly 0.6 nothing is filled in; just above, the
    three fields are. *)
Example autofill_at_the_threshold :
  Scenario.fields ["category"; "department"; "description"]
    (form (processImageWithAI (Predicted Scenario.borderline_pothole)
             (setCapturedImage (Some Scenario.photo) (setModel true initial)))) =
    [VStr ""; VStr ""; VStr ""] /\
  Scenario.fields ["category"; "department"; "description"]
    (form (processImageWithAI (Predicted Scenario.confident_pothole)
             (setCapturedImage (Some Scenario.photo) (setModel true initial)))) =
    [VStr "Pothole"; VStr "Road Authority";
     VStr "I have noticed a pothole at [ADDRESS]. It is creating difficulty for pedestrians and vehicles."].
Proof. split; vm_compute; reflexivity. Qed.

(** ** Geocoding and the wizard *)

Lemma handleMapLocationSelect_address fetch lat lng s address :
  reverseGeocode fetch (VNum lat) (VNum lng) = Normal address ->
  handleMapLocationSelect fetch (location_object (VNum lat) (VNum lng)) s =
  setValue "address" (VStr address)
    (setCurrentAddress (Some address)
       (setValue "longitude" (VNum lng)
          (setValue "latitude" (VNum lat)
             (setCurrentLocation (Some (location_object (VNum lat) (VNum lng))) s)))).
Proof.
  intros H. unfold handleMapLocationSelect.
  rewrite get_location_latitude, get_location_longitude, H. reflexivity.
Qed.

(** C4. When every configured provider fails, [reverseGeocode] answers
    with the text GPS Location: lat, lon, both numbers printed with six
    decimals; the handler of a map selection stores that text as the
    form's address, and a wizard run that ends with such a selection is
    submitted successfully with that text as the address of the created
    record. *)
Theorem geocoding_failure_falls_back fetch lat lng :
  (forall ty, ty ∈ services -> failed ty (fetch ty)) ->
  reverseGeocode fetch (VNum lat) (VNum lng) =
    Normal ("GPS Location: " +:+ toFixed lat 6 +:+ ", " +:+ toFixed lng 6) /\
  (forall s,
      watch "address"
        (handleMapLocationSelect fetch (location_object (VNum lat) (VNum lng)) s) =
      VStr ("GPS Location: " +:+ toFixed lat 6 +:+ ", " +:+ toFixed lng 6)) /\
  (forall parse u env table imageData text,
      fault env = None ->
      exists s created,
        run [ModelFailed; ImageAcquired imageData (Predicted []); NextStep;
             SelectCategory "Pothole"; EditDescription text; NextStep;
             MapSelect lat lng fetch] initial = Some s /\
        step s = 3%Z /\
        onSubmit parse (Some u) env (form s) s table = (table ++ [created], Done created) /\
        get created "address" =
          VStr ("GPS Location: " +:+ toFixed lat 6 +:+ ", " +:+ toFixed lng 6)).
Proof.
  intros Hfail.
  pose proof (reverseGeocode_failed fetch lat lng Hfail) as Hrev.
  split; [exact Hrev|]. split.
  - intros s. rewrite (handleMapLocationSelect_address _ _ _ _ _ Hrev).
    rewrite watch_setValue. reflexivity.
  - intros parse u env table imageData text Hf.
    set (before :=
           nextStep (setValue "description" (VStr text)
             (setValue "category" (VStr "Pothole")
                (nextStep (setCapturedImage (Some imageData) (setModel false initial)))))).
    set (s := handleMapLocationSelect fetch (location_object (VNum lat) (VNum lng)) before).
    assert (run [ModelFailed; ImageAcquired imageData (Predicted []); NextStep;
                 SelectCategory "Pothole"; EditDescription text; NextStep;
                 MapSelect lat lng fetch] initial = Some s) as Hrun by reflexivity.
    assert (well_formed s) as Hwf.
    { apply reachable_well_formed.
      apply (run_reachable _ initial s reachable_initial Hrun). }
    exists s. eexists. split; [exact Hrun|].
    assert (watch "address" s =
            VStr ("GPS Location: " +:+ toFixed lat 6 +:+ ", " +:+ toFixed lng 6)) as Haddr.
    { unfold s. rewrite (handleMapLocationSelect_address _ _ _ _ _ Hrev).
      rewrite watch_setValue. reflexivity. }
    split; [|split].
    + unfold s. rewrite (handleMapLocationSelect_address _ _ _ _ _ Hrev). reflexivity.
    + apply (onSubmit_done parse u env s table "Pothole"); auto.
      * unfold s. rewrite (handleMapLocationSelect_address _ _ _ _ _ Hrev).
        unfold before. state_eval. form_values. reflexivity.
      * apply (bool_decide_unpack _). vm_compute. exact I.
    + rewrite new_row_get by column. unfold sent.
      replace (complaintData parse (get u "id") (imageUrl (Some u) env s) (form s) s
                 !! "address")
        with (Some (or_else (or_else (get (form s) "address") (address_value s))
                      (VStr "Address not available"))) by reflexivity.
      unfold watch in Haddr. rewrite Haddr. reflexivity.
Qed.

Lemma geocoding_failure_falls_back_witness :
  reverseGeocode Scenario.offline (VNum (268467 # 10000)) (VNum (809462 # 10000)) =
  Normal "GPS Location: 26.846700, 80.946200".
Proof.
  apply (geocoding_failure_falls_back Scenario.offline (268467 # 10000) (809462 # 10000)).
  intros ty _. right. exists "Failed to fetch". reflexivity.
Defined.

(** C9. For numeric coordinates [reverseGeocode] always completes
    normally with a non-empty text, whatever the providers do; when an
    error escapes the loop over the services, the outer handler answers
    with the bare coordinates lat, lon (six decimals), which is not the
    GPS Location text of the case where all providers failed. *)
Theorem reverseGeocode_total fetch (lat lng : Q) :
  (exists address,
      reverseGeocode fetch (VNum lat) (VNum lng) = Normal address /\ address <> "") /\
  (forall e,
      try_services fetch services = Throw e ->
      reverseGeocode fetch (VNum lat) (VNum lng) =
      Normal (toFixed lat 6 +:+ ", " +:+ toFixed lng 6)) /\
  toFixed lat 6 +:+ ", " +:+ toFixed lng 6 <>
  "GPS Location: " +:+ toFixed lat 6 +:+ ", " +:+ toFixed lng 6.
Proof.
  split; [|split].
  - destruct (reverseGeocode_cases fetch lat lng) as [[addr [Ht Hr]]|[[Ht Hr]|[e [Ht Hr]]]].
    + exists addr. split; [exact Hr|]. eapply try_services_nonempty; eauto.
    + eexists. split; [exact Hr|]. discriminate.
    + eexists. split; [exact Hr|]. apply app_nonempty_r. discriminate.
  - intros e He. unfold reverseGeocode. rewrite He. reflexivity.
  - apply bare_differs_from_fallback.
Qed.

Lemma reverseGeocode_total_witness :
  reverseGeocode Scenario.rejects_with_undefined
    (VNum (268467 # 10000)) (VNum (809462 # 10000)) =
  Normal "26.846700, 80.946200".
Proof.
  apply (proj1 (proj2 (reverseGeocode_total Scenario.rejects_with_undefined
                         (268467 # 10000) (809462 # 10000)))
           (ThrownError "Cannot read properties of undefined")).
  reflexivity.
Defined.

(** ** Steps of the wizard *)

(** C8 fails on the code.  Category and description are registered as
    required and the Details step shows their error messages, and the
    advance out of Capture is guarded (at step 1 Next is refused while
    no image is captured); the advance out of Details is not.  After
    the model failed to load, a photo was taken and Next was pressed
    twice, the wizard is at step 3 with category and description both
    empty. *)
Theorem review_reached_with_empty_details :
  handle NextStep initial = None /\
  exists s,
    run [ModelFailed; ImageAcquired Scenario.photo (Predicted []); NextStep; NextStep]
      initial = Some s /\
    reachable s /\ step s = 3%Z /\
    watch "category" s = VStr "" /\ watch "description" s = VStr "".
Proof.
  split; [reflexivity|].
  exists (nextStep (nextStep (setCapturedImage (Some Scenario.photo)
                                (setModel false initial)))).
  split; [reflexivity|]. split; [|repeat split].
  apply (run_reachable
           [ModelFailed; ImageAcquired Scenario.photo (Predicted []); NextStep; NextStep]
           initial); [apply reachable_initial | reflexivity].
Qed.

(** ** Status and timestamps *)

(** C2, as amended.  A successful [updateComplaintStatus] returns the
    updated row; it always sets updated_at to the current time; with
    status resolved it sets resolved_at to the current time; with any
    other status, or none, it leaves resolved_at as it was (unless the
    update itself carries resolved_at).  Hence, over every sequence of
    submissions and such updates, a complaint whose status is resolved
    has a non-null resolved_at.  The converse is not kept. *)
Theorem updateStatus_timestamps :
  (forall now id updates table r,
      find (has_id id) table = Some r ->
      violates_not_null (updated_row now updates r) = None ->
      (updateComplaintStatus None now id updates table).2 =
      Normal (updated_row now updates r)) /\
  (forall now updates r,
      get (updated_row now updates r) "updated_at" = VTime now /\
      (is_str (get updates "status") "resolved" = true ->
       get (updated_row now updates r) "resolved_at" = VTime now) /\
      (is_str (get updates "status") "resolved" = false ->
       sent updates "resolved_at" = None ->
       get (updated_row now updates r) "resolved_at" = get r "resolved_at")) /\
  (forall ops, Forall plain_operation ops -> Forall resolved_has_time (history ops)).
Proof.
  split; [exact updateComplaintStatus_row|]. split.
  - intros now updates r. split; [apply updated_row_updated_at|].
    split; [apply updated_row_resolved | apply updated_row_other].
  - intros ops Hops. apply history_invariant_from; [exact Hops | constructor].
Qed.

Lemma updateStatus_timestamps_witness :
  Forall resolved_has_time
    (history [Submit None "c-1" 100 Scenario.pothole_report;
              UpdateStatus None 200 "c-1" {[ "status" := VStr "resolved" ]};
              UpdateStatus None 300 "c-1" {[ "admin_notes" := VStr "crew sent" ]}]).
Proof.
  apply (proj2 (proj2 updateStatus_timestamps)).
  repeat constructor; vm_compute; reflexivity.
Defined.

(** C2 as stated fails: after resolved comes in_progress, and
    resolved_at stays set on a complaint that is not resolved. *)
Lemma resolved_at_outlives_resolved :
  Scenario.table_fields ["status"; "resolved_at"]
    (history [Submit None "c-1" 100 Scenario.pothole_report;
              UpdateStatus None 200 "c-1" {[ "status" := VStr "resolved" ]};
              UpdateStatus None 300 "c-1" {[ "status" := VStr "in_progress" ]}]) =
  [[VStr "in_progress"; VTime 200]] /\
  forallb resolved_iff_time
    (history [Submit None "c-1" 100 Scenario.pothole_report;
              UpdateStatus None 200 "c-1" {[ "status" := VStr "resolved" ]};
              UpdateStatus None 300 "c-1" {[ "status" := VStr "in_progress" ]}]) = false.
Proof. split; vm_compute; reflexivity. Qed.

(** ** Listing *)

(** C6, as amended.  [getUserComplaints] returns the complaints of the
    given reporter, each once, newest first.  [getAllComplaints] returns
    the complaints its filters select, newest first; when the search text
    has none of the characters that a pattern or a filter gives a meaning
    to, a complaint passes the search exactly when its description or its
    address contains the text, letter case aside. *)
Theorem listings_newest_first :
  (forall userId table,
      exists rows,
        getUserComplaints None userId table = Normal rows /\
        rows ≡ₚ List.filter (fun r => is_str (get r "user_id") userId) table /\
        StronglySorted not_older rows) /\
  (forall filters table,
      (forall q, given filters "search" = Some q -> plain q = true) ->
      exists rows,
        getAllComplaints None filters table = Normal rows /\
        rows ≡ₚ List.filter (selected filters) table /\
        StronglySorted not_older rows).
Proof.
  split.
  - intros userId table. unfold getUserComplaints.
    destruct (select_sorted [Eq "user_id" userId] table) as [rows [H1 [H2 H3]]].
    exists rows. split; [exact H1|]. split; [|exact H3].
    rewrite H2. erewrite filter_ext_string; [reflexivity|].
    intros r. simpl. apply andb_true_r.
  - intros filters table Hplain. unfold getAllComplaints.
    destruct (select_sorted (query_filters filters) table) as [rows [H1 [H2 H3]]].
    exists rows. split; [exact H1|]. split; [|exact H3].
    rewrite H2. erewrite filter_ext_string; [reflexivity|].
    intros r. apply holds_query_filters, Hplain.
Qed.

Lemma listings_newest_first_witness :
  exists rows,
    getAllComplaints None {[ "search" := "GATE" ]} [Scenario.pothole_row] = Normal rows /\
    rows ≡ₚ List.filter (selected {[ "search" := "GATE" ]}) [Scenario.pothole_row] /\
    StronglySorted not_older rows.
Proof.
  apply (proj2 listings_newest_first {[ "search" := "GATE" ]} [Scenario.pothole_row]).
  intros q Hq. vm_compute in Hq. inversion Hq. reflexivity.
Defined.

(** C6 as stated fails: the search text [_] returns a complaint whose
    description and address do not contain it. *)
Lemma underscore_matches_everything :
  Scenario.listed_fields ["id"; "description"; "address"]
    (getAllComplaints None {[ "search" := "_" ]} [Scenario.pothole_row]) =
    Some [[VStr "c-1"; VStr "pothole near gate"; VStr "12 Main Road, Lucknow"]] /\
  matches_search Scenario.pothole_row "_" = false.
Proof. split; vm_compute; reflexivity. Qed.

(** ** Failures of a submission *)

(** C7, as amended.  [submitComplaint] checks nothing itself: it fails
    exactly when the store answers the insert with an error, with that
    error, and leaves the table as it was.  The store refuses a row that
    lacks category, description, department, address, latitude or
    longitude, which are declared NOT NULL without a default; otherwise
    the row is appended and returned. *)
Theorem submitComplaint_fails_as_the_store id now data table :
  (forall e, submitComplaint (Some e) id now data table = (table, Throw e)) /\
  (forall column,
      violates_not_null (new_row id now data) = Some column ->
      submitComplaint None id now data table = (table, Throw (not_null_violation column))) /\
  (violates_not_null (new_row id now data) = None ->
   submitComplaint None id now data table =
   (table ++ [new_row id now data], Normal (new_row id now data))) /\
  (forall column,
      column ∈ ["category"; "description"; "department"; "address"; "latitude"; "longitude"] ->
      sent data column = None ->
      exists refused,
        submitComplaint None id now data table = (table, Throw (not_null_violation refused))).
Proof.
  unfold submitComplaint, insert. split; [reflexivity|].
  split; [intros column ->; reflexivity|].
  split; [intros ->; reflexivity|].
  intros column Hc Hs.
  destruct (violates_not_null (new_row id now data)) as [refused|] eqn:Hv;
    [exists refused; reflexivity|].
  exfalso.
  assert (is_null (get (new_row id now data) column) = true) as Hnull.
  { repeat (apply elem_of_cons in Hc as [->|Hc]);
      [ | | | | | | apply elem_of_nil in Hc; destruct Hc];
      rewrite new_row_get by column; rewrite Hs; reflexivity. }
  rewrite accepted_not_null in Hnull; [discriminate | exact Hv |].
  repeat (apply elem_of_cons in Hc as [->|Hc]);
    [ | | | | | | apply elem_of_nil in Hc; destruct Hc]; column.
Qed.

Lemma submitComplaint_fails_as_the_store_witness :
  exists refused,
    submitComplaint None "c-2" 100 (delete "address" Scenario.pothole_report) [] =
    ([], Throw (not_null_violation refused)).
Proof.
  apply (proj2 (proj2 (proj2 (submitComplaint_fails_as_the_store
                                "c-2" 100 (delete "address" Scenario.pothole_report) [])))
           "address").
  - apply (bool_decide_unpack _). vm_compute. exact I.
  - vm_compute. reflexivity.
Defined.

(** C7 as stated fails: a report without the reporter's id is stored. *)
Lemma report_without_reporter_is_stored :
  Scenario.anonymous_report !! "user_id" = None /\
  Scenario.answer_fields ["user_id"; "status"]
    (submitComplaint None "c-1" 100 Scenario.anonymous_report []) =
  (1%nat, Some [VNull; VStr "pending"]).
Proof. split; vm_compute; reflexivity. Qed.

(** * More of the program *)

(** The properties below are read off the code alone: the rest of
    complaintService.js and of the wizard, the session provider, the
    route guard, the registration and profile pages and the admin
    dashboard. *)

Import JsString Stats Upload Auth Routes Pages.

(** ** The definitions at work *)

Example text_examples :
  split_head "," "12 Main Road, Lucknow" = "12 Main Road" /\
  split_head "@" "asha" = "asha" /\
  split_last "." "photo.final.PNG" = "PNG" /\
  fileExt "README" = "README" /\
  fileExt "photo." = "jpg" /\
  toLowerCase "MG Road 12" = "mg road 12" /\
  fileName Samples.no_print (VStr "u-1") 1700000000000 "complaint-image.jpg" =
    "u-1/1700000000000.jpg".
Proof. repeat split; vm_compute; reflexivity. Qed.

Example generateUUID_examples :
  to_int32 (31 # 2) = 15%Z /\
  to_int32 (- (3 # 2)) = (-1)%Z /\
  toString16 255 = "ff" /\
  generateUUID Samples.sixteenths = "01234567-89ab-4cde-b012-3456789abcde" /\
  generateUUID (fun _ => 0%Q) = "00000000-0000-4000-8000-000000000000".
Proof. repeat split; vm_compute; reflexivity. Qed.

Example getComplaintStats_examples :
  match getComplaintStats Samples.no_print Samples.v8_members (Normal Samples.three_rows) with
  | Normal st =>
      (total st, pending st, inProgress st, resolved st,
       byCategory st !! "Pothole", byCategory st !! "Garbage", byCategory st !! "Sewage")
      = (3, 1, 0, 1, Some (Count 2), Some (Count 1), None)%nat
  | Throw _ => False
  end /\
  match getComplaintStats Samples.no_print Samples.v8_members
          (Normal [Samples.counted_row "pending" "constructor";
                   Samples.counted_row "pending" "constructor"]) with
  | Normal st =>
      byCategory st !! "constructor" =
      Some (Text "function constructor() { [native code] }11")
  | Throw _ => False
  end.
Proof. split; vm_compute; reflexivity. Qed.

(** ** Text *)

Lemma append_associative (a b c : string) : a +:+ (b +:+ c) = (a +:+ b) +:+ c.
Proof. induction a as [|x a IH]; [reflexivity|]. rewrite !append_cons, IH. reflexivity. Qed.

Lemma is_str_eq (v : value) (lit : string) : is_str v lit = true -> v = VStr lit.
Proof.
  unfold is_str. destruct v; try discriminate. intros H. apply String.eqb_eq in H. congruence.
Qed.

(** ** Listing what was submitted *)

Lemma select_elem filters table rows r :
  select None filters table = Normal rows ->
  r ∈ rows <-> r ∈ table /\ forallb (holds r) filters = true.
Proof.
  unfold select. intros H. inversion H; subst; clear H.
  rewrite merge_sort_Permutation.
  rewrite !list_elem_of_In, filter_In. reflexivity.
Qed.

Lemma insert_success fault id now data table table' created :
  insert fault id now data table = (table', Normal created) ->
  created = new_row id now data /\ table' = table ++ [created].
Proof.
  unfold insert. destruct fault; [discriminate|].
  destruct (violates_not_null _); [discriminate|].
  intros H. inversion H; subst. split; reflexivity.
Qed.

Lemma submitComplaint_accepted id now data table :
  violates_not_null (new_row id now data) = None ->
  submitComplaint None id now data table =
  (table ++ [new_row id now data], Normal (new_row id now data)).
Proof. intros H. unfold submitComplaint, insert. rewrite H. reflexivity. Qed.

(** X3. What is submitted is listed: after a successful
    [submitComplaint] of a report whose user_id is [u],
    [getUserComplaints(u)] answers with the created complaint among
    exactly the complaints of the table that carry this user_id, and
    the listing of any other reporter does not contain it. *)
Theorem submitted_complaint_is_listed fault id now data table table' created u :
  submitComplaint fault id now data table = (table', Normal created) ->
  get data "user_id" = VStr u ->
  exists rows,
    getUserComplaints None u table' = Normal rows /\
    created ∈ rows /\
    (forall r, r ∈ rows <-> r ∈ table' /\ get r "user_id" = VStr u) /\
    (forall u' rows',
        u' <> u -> getUserComplaints None u' table' = Normal rows' -> created ∉ rows').
Proof.
  unfold submitComplaint. intros H Hu.
  apply insert_success in H as [-> ->].
  assert (get (new_row id now data) "user_id" = VStr u) as Hc.
  { rewrite new_row_get by column.
    rewrite (sent_is_str data "user_id" u); [reflexivity|].
    rewrite Hu. simpl. apply String.eqb_refl. }
  assert (forall v (r : gmap string value),
             forallb (holds r) [Eq "user_id" v] = true <-> get r "user_id" = VStr v) as Hh.
  { intros v r. simpl. rewrite andb_true_r. unfold is_str.
    destruct (get r "user_id") as [| |s| | | |]; try (split; [discriminate|congruence]).
    rewrite String.eqb_eq. split; [intros ->; reflexivity | congruence]. }
  eexists. split; [reflexivity|].
  split; [|split].
  - apply (select_elem [Eq "user_id" u] _ _ _ eq_refl). split.
    + apply elem_of_app. right. apply list_elem_of_singleton. reflexivity.
    + apply Hh, Hc.
  - intros r. rewrite (select_elem [Eq "user_id" u] _ _ _ eq_refl). rewrite Hh. reflexivity.
  - intros u' rows' Hne Hl Hin.
    apply (select_elem [Eq "user_id" u'] _ _ _ Hl) in Hin as [_ Hin].
    apply Hh in Hin. congruence.
Qed.

Lemma submitted_complaint_is_listed_witness :
  exists rows,
    getUserComplaints None "u-1" [Scenario.pothole_row] = Normal rows /\
    Scenario.pothole_row ∈ rows.
Proof.
  destruct (submitted_complaint_is_listed None "c-1" 100 Scenario.pothole_report []
              [Scenario.pothole_row] Scenario.pothole_row "u-1") as [rows [H1 [H2 _]]].
  - apply (submitComplaint_accepted "c-1" 100 Scenario.pothole_report []).
    vm_compute. reflexivity.
  - vm_compute. reflexivity.
  - exists rows. split; [exact H1 | exact H2].
Defined.

(** X4. Without an effective filter the listing is the whole table:
    when the status filter is absent, empty or ['all'] and category,
    department and search text are absent or empty, [getAllComplaints]
    answers with every complaint of the table, each once. *)
Theorem unfiltered_listing_is_whole_table filters table :
  filters !! "status" = None \/ filters !! "status" = Some "" \/
    filters !! "status" = Some "all" ->
  given filters "category" = None ->
  given filters "department" = None ->
  given filters "search" = None ->
  exists rows, getAllComplaints None filters table = Normal rows /\ rows ≡ₚ table.
Proof.
  intros Hs Hc Hd Hq. eexists. split; [reflexivity|].
  rewrite merge_sort_Permutation.
  assert (query_filters filters = []) as ->.
  { unfold query_filters. rewrite Hc, Hd, Hq.
    unfold given. destruct Hs as [->|[->| ->]]; reflexivity. }
  simpl. induction table as [|r table IH]; simpl; [reflexivity|]. rewrite IH. reflexivity.
Qed.

Lemma unfiltered_listing_is_whole_table_witness :
  exists rows,
    getAllComplaints None (<["status" := "all"]> {[ "search" := "" ]})
      [Scenario.pothole_row] = Normal rows /\
    rows ≡ₚ [Scenario.pothole_row].
Proof.
  apply (unfiltered_listing_is_whole_table (<["status" := "all"]> {[ "search" := "" ]})
           [Scenario.pothole_row]).
  - right. right. vm_compute. reflexivity.
  - vm_compute. reflexivity.
  - vm_compute. reflexivity.
  - vm_compute. reflexivity.
Defined.

(** ** The classifier's answer *)

Lemma top_prediction_snoc predictions p :
  top_prediction (predictions ++ [p]) =
  if Qlt_le_dec (probability (top_prediction predictions)) (probability p)
  then p else top_prediction predictions.
Proof. unfold top_prediction. rewrite fold_left_app. reflexivity. Qed.

(** X5. The loop over the classifier's answer keeps the first entry
    of highest probability: no entry has a higher probability than the
    one kept, and either no entry has a probability above 0 and the
    result is the empty class with probability 0, or the result is an
    entry of the answer, of probability above 0, and every entry before
    it has a strictly lower probability. *)
Theorem top_prediction_is_first_maximum predictions :
  (forall p, p ∈ predictions ->
             (probability p <= probability (top_prediction predictions))%Q) /\
  ((top_prediction predictions = {| className := ""; probability := 0 |} /\
    forall p, p ∈ predictions -> (probability p <= 0)%Q) \/
   ((0 < probability (top_prediction predictions))%Q /\
    exists i,
      predictions !! i = Some (top_prediction predictions) /\
      forall j p, (j < i)%nat -> predictions !! j = Some p ->
                  (probability p < probability (top_prediction predictions))%Q)).
Proof.
  induction predictions as [|p predictions [IH1 IH2]] using rev_ind.
  - split; [intros p Hp; apply elem_of_nil in Hp; destruct Hp|].
    left. split; [reflexivity|]. intros p Hp. apply elem_of_nil in Hp. destruct Hp.
  - rewrite top_prediction_snoc.
    destruct (Qlt_le_dec _ _) as [Hlt|Hle].
    + split.
      * intros x Hx. apply elem_of_app in Hx as [Hx|Hx].
        -- apply Qlt_le_weak. eapply Qle_lt_trans; [apply IH1, Hx | exact Hlt].
        -- apply list_elem_of_singleton in Hx. subst. apply Qle_refl.
      * right. split.
        -- destruct IH2 as [[E _]|[H0 _]]; [rewrite E in Hlt; exact Hlt|].
           eapply Qlt_trans; [exact H0 | exact Hlt].
        -- exists (length predictions). split.
           ++ rewrite lookup_app_r by lia. rewrite Nat.sub_diag. reflexivity.
           ++ intros j x Hj Hx. rewrite lookup_app_l in Hx by exact Hj.
              eapply Qle_lt_trans; [|exact Hlt].
              apply IH1. eapply list_elem_of_lookup_2, Hx.
    + split.
      * intros x Hx. apply elem_of_app in Hx as [Hx|Hx]; [apply IH1, Hx|].
        apply list_elem_of_singleton in Hx. subst. exact Hle.
      * destruct IH2 as [[E Hall]|[H0 [i [Hi Hbefore]]]].
        -- left. split; [exact E|]. intros x Hx.
           apply elem_of_app in Hx as [Hx|Hx]; [apply Hall, Hx|].
           apply list_elem_of_singleton in Hx. subst. rewrite E in Hle. exact Hle.
        -- right. split; [exact H0|]. exists i. split.
           ++ apply lookup_app_l_Some, Hi.
           ++ intros j x Hj Hx. apply (Hbefore j x Hj).
              rewrite lookup_app_l in Hx; [exact Hx|].
              apply lookup_lt_Some in Hi. lia.
Qed.

Lemma top_prediction_is_first_maximum_witness :
  (1 # 10 <= probability (top_prediction Scenario.confident_pothole))%Q.
Proof.
  apply (proj1 (top_prediction_is_first_maximum Scenario.confident_pothole)
           {| className := "Garbage"; probability := 1 # 10 |}).
  unfold Scenario.confident_pothole.
  apply elem_of_cons. right. apply elem_of_cons. left. reflexivity.
Defined.

(** ** Moving through the wizard *)

Lemma well_formed_photo s :
  well_formed s -> (2 <= step s)%Z -> exists imageData, capturedImage s = Some imageData.
Proof.
  intros Hwf H. pose proof (wf_image s Hwf H) as Hi.
  destruct (capturedImage s) as [i|]; [exists i; reflexivity | congruence].
Qed.

(** X6. In every state the wizard can reach the step is 1, 2 or 3,
    and from step 2 on a photo is held: neither Details nor Review is
    ever shown without one. *)
Theorem wizard_steps_and_photo s :
  reachable s ->
  (step s = 1 \/ step s = 2 \/ step s = 3)%Z /\
  ((2 <= step s)%Z -> exists imageData, capturedImage s = Some imageData).
Proof.
  intros Hr. apply reachable_well_formed in Hr.
  split; [pose proof (wf_step s Hr); lia | apply well_formed_photo, Hr].
Qed.

Lemma wizard_steps_and_photo_witness :
  exists imageData,
    capturedImage (nextStep (setCapturedImage (Some Scenario.photo) (setModel false initial)))
    = Some imageData.
Proof.
  apply (proj2 (wizard_steps_and_photo
                  (nextStep (setCapturedImage (Some Scenario.photo)
                               (setModel false initial)))
                  (run_reachable
                     [ModelFailed; ImageAcquired Scenario.photo (Predicted []); NextStep]
                     initial _ reachable_initial eq_refl))).
  vm_compute. discriminate.
Defined.

(** X7. Next and Back are inverse to each other and lose nothing:
    wherever Next is possible, Back afterwards returns the wizard to
    exactly the state it was in, the form included; and in every
    reachable state where Back is possible, Next afterwards does. *)
Theorem next_and_back_are_inverse s :
  (forall s1, handle NextStep s = Some s1 -> handle PrevStep s1 = Some s) /\
  (reachable s -> forall s0, handle PrevStep s = Some s0 -> handle NextStep s0 = Some s).
Proof.
  split.
  - intros s1 H. simpl in H.
    assert (s1 = nextStep s /\ (step s = 1 \/ step s = 2)%Z) as [-> Hs].
    { destruct (Z.eqb_spec (step s) 1).
      - destruct (non_null (capturedImage s)); inversion H. split; [reflexivity|lia].
      - destruct (Z.eqb_spec (step s) 2); inversion H. split; [reflexivity|lia]. }
    simpl. unfold prevStep, nextStep. cbn [step setStep].
    replace ((step s + 1 =? 2)%Z || (step s + 1 =? 3)%Z) with true
      by (symmetry; apply orb_true_iff; rewrite !Z.eqb_eq; lia).
    f_equal. replace (step s + 1 - 1)%Z with (step s) by lia.
    destruct s; reflexivity.
  - intros Hr s0 H. simpl in H.
    assert (s0 = prevStep s /\ (step s = 2 \/ step s = 3)%Z) as [-> Hs].
    { destruct (Z.eqb_spec (step s) 2); [inversion H; split; [reflexivity|lia]|].
      destruct (Z.eqb_spec (step s) 3); inversion H. split; [reflexivity|lia]. }
    destruct (well_formed_photo s (reachable_well_formed s Hr)) as [i Hi]; [lia|].
    simpl. unfold prevStep, nextStep. cbn [step setStep capturedImage]. rewrite Hi.
    cbn [non_null].
    assert (setStep (step s - 1 + 1) (setStep (step s - 1) s) = s) as ->.
    { replace (step s - 1 + 1)%Z with (step s) by lia. destruct s; reflexivity. }
    destruct Hs as [E|E]; rewrite E; reflexivity.
Qed.

Lemma next_and_back_are_inverse_witness :
  handle PrevStep (nextStep (setCapturedImage (Some Scenario.photo) (setModel false initial)))
  = Some (setCapturedImage (Some Scenario.photo) (setModel false initial)).
Proof.
  apply (proj1 (next_and_back_are_inverse
                  (setCapturedImage (Some Scenario.photo) (setModel false initial)))).
  reflexivity.
Defined.

(** ** What a submission stores *)

Lemma created_column parse user env data s table table' created column v :
  onSubmit parse user env data s table = (table', Done created) ->
  column ∈ columns ->
  (forall uid image_url, complaintData parse uid image_url data s !! column = Some v) ->
  storable v ->
  get created column = v.
Proof.
  intros H Hc Hv Hs. apply onSubmit_Done_inv in H as [u [-> [-> _]]].
  rewrite new_row_get by exact Hc.
  destruct (sent_storable _ column v
              (Hv (get u "id") (imageUrl (Some u) env s)) Hs) as [-> _]. reflexivity.
Qed.

Lemma or_else_nonempty (x : string) (b : value) : x <> "" -> or_else (VStr x) b = VStr x.
Proof.
  intros H. rewrite or_else_string. destruct (String.eqb_spec x ""); [congruence|reflexivity].
Qed.

Lemma address_sent s :
  well_formed s ->
  exists a,
    or_else (or_else (get (form s) "address") (address_value s))
      (VStr "Address not available") = VStr a /\ a <> "" /\
    (get (form s) "address" = VStr "" ->
     currentAddress s = None \/ currentAddress s = Some "" ->
     a = "Address not available").
Proof.
  intros Hwf. destruct (wf_address s Hwf) as [a0 Ha0]. unfold watch in Ha0. rewrite Ha0.
  destruct (String.eqb_spec a0 "") as [->|Hne].
  - unfold address_value. destruct (currentAddress s) as [c|].
    + destruct (String.eqb_spec c "") as [->|Hc].
      * eexists. split; [reflexivity|]. split; [discriminate|]. reflexivity.
      * exists c. split; [|split; [exact Hc|intros _ [E|E]; congruence]].
        change (or_else (VStr "") (VStr c)) with (VStr c).
        apply or_else_nonempty, Hc.
    + eexists. split; [reflexivity|]. split; [discriminate|]. reflexivity.
  - exists a0. rewrite !or_else_nonempty by exact Hne.
    split; [reflexivity|]. split; [exact Hne|]. congruence.
Qed.

Lemma reviewed_reachable : reachable Samples.reviewed.
Proof.
  apply (run_reachable
           [ModelFailed; ImageAcquired Scenario.photo (Predicted []); NextStep;
            SelectCategory "Pothole"; NextStep] initial);
    [apply reachable_initial | reflexivity].
Qed.

Lemma located_reachable : reachable Samples.located.
Proof.
  apply (reachable_step Samples.reviewed
           (MapSelect (268467 # 10000) (809462 # 10000) Scenario.offline));
    [apply reviewed_reachable | reflexivity].
Qed.

Lemma sample_submission s :
  reachable s -> watch "category" s = VStr "Pothole" ->
  onSubmit Scenario.no_numeral (Some Scenario.citizen)
    (Scenario.store_up (Throw (ThrownError "Failed to fetch"))) (form s) s [] =
  ([Samples.reported s], Done (Samples.reported s)).
Proof.
  intros Hr Hc.
  rewrite (onSubmit_done Scenario.no_numeral Scenario.citizen _ s [] "Pothole");
    [| apply reachable_well_formed, Hr | exact Hc
     | apply (bool_decide_unpack _); vm_compute; exact I | reflexivity].
  unfold Samples.reported.
  rewrite (imageUrl_failed (Some Scenario.citizen) _ s) by (left; exact I).
  reflexivity.
Qed.

(** X8. A submitted complaint never has an empty address: the stored
    address is non-empty text, and when the address field is blank and
    no address was resolved it is the text 'Address not available'. *)
Theorem submitted_address_is_never_empty parse user env s table table' created :
  reachable s ->
  onSubmit parse user env (form s) s table = (table', Done created) ->
  exists a,
    get created "address" = VStr a /\ a <> "" /\
    (watch "address" s = VStr "" ->
     currentAddress s = None \/ currentAddress s = Some "" ->
     a = "Address not available").
Proof.
  intros Hr H.
  destruct (address_sent s (reachable_well_formed s Hr)) as [a [Ha [Hne Hfb]]].
  exists a. split; [|split; [exact Hne|exact Hfb]].
  apply (created_column _ _ _ _ _ _ _ _ "address" (VStr a) H); [column| |exact I].
  intros uid image_url. rewrite <- Ha. reflexivity.
Qed.

Lemma submitted_address_is_never_empty_witness :
  exists a,
    get (Samples.reported Samples.reviewed) "address" = VStr a /\
    a = "Address not available".
Proof.
  destruct (submitted_address_is_never_empty Scenario.no_numeral (Some Scenario.citizen)
              (Scenario.store_up (Throw (ThrownError "Failed to fetch")))
              Samples.reviewed [] [Samples.reported Samples.reviewed]
              (Samples.reported Samples.reviewed))
    as [a [H1 [_ H3]]].
  - apply reviewed_reachable.
  - apply sample_submission; [apply reviewed_reachable | reflexivity].
  - exists a. split; [exact H1|]. apply H3; [reflexivity | left; reflexivity].
Defined.

Lemma coordinate_kept parse (q : Q) (other : value) :
  other = VUndefined ->
  exists q', parseFloat parse (or_else (or_else (VNum q) other) (VNum 0)) = VNum q' /\
             (q' == q)%Q.
Proof.
  intros ->. rewrite or_else_number.
  destruct (Qeq_bool q 0) eqn:E; simpl.
  - exists 0%Q. split; [reflexivity|]. apply Qeq_bool_eq in E. symmetry. exact E.
  - exists q. rewrite or_else_number, E. split; reflexivity.
Qed.

(** X9. Coordinates that the form holds are the coordinates sent:
    when latitude and longitude of the form are numbers (as after a
    place is picked on the map or the device is located), the record
    that [onSubmit] builds and hands to [submitComplaint] carries these
    numbers; the fallbacks to [currentLocation?.lat] and to 0 cannot
    change them, a coordinate that is 0 being sent as 0.  (What the
    store makes of the numbers is not part of this.) *)
Theorem chosen_coordinates_are_submitted parse uid image_url s lat lng :
  reachable s ->
  watch "latitude" s = VNum lat ->
  watch "longitude" s = VNum lng ->
  exists la lo,
    complaintData parse uid image_url (form s) s !! "latitude" = Some (VNum la) /\
    complaintData parse uid image_url (form s) s !! "longitude" = Some (VNum lo) /\
    (la == lat)%Q /\ (lo == lng)%Q.
Proof.
  intros Hr Hlat Hlng. apply reachable_well_formed in Hr. unfold watch in *.
  destruct (coordinate_kept parse lat (location_field s "lat")) as [la [Hla Ela]];
    [apply location_field_foreign; [exact Hr|discriminate|discriminate]|].
  destruct (coordinate_kept parse lng (location_field s "lng")) as [lo [Hlo Elo]];
    [apply location_field_foreign; [exact Hr|discriminate|discriminate]|].
  exists la, lo. split; [|split; [|split; assumption]].
  - rewrite <- Hla, <- Hlat. reflexivity.
  - rewrite <- Hlo, <- Hlng. reflexivity.
Qed.

Lemma chosen_coordinates_are_submitted_witness :
  exists la lo,
    complaintData Scenario.no_numeral (VStr "u-1") VNull (form Samples.located)
      Samples.located !! "latitude" = Some (VNum la) /\
    complaintData Scenario.no_numeral (VStr "u-1") VNull (form Samples.located)
      Samples.located !! "longitude" = Some (VNum lo) /\
    (la == 268467 # 10000)%Q /\ (lo == 809462 # 10000)%Q.
Proof.
  apply (chosen_coordinates_are_submitted Scenario.no_numeral (VStr "u-1") VNull
           Samples.located (268467 # 10000) (809462 # 10000)).
  - apply located_reachable.
  - vm_compute. reflexivity.
  - vm_compute. reflexivity.
Defined.

(** ** The order of the providers *)

Lemma try_services_first fetch before ty after a :
  (forall ty', ty' ∈ before -> failed ty' (fetch ty')) ->
  attempt ty (fetch ty) = Normal (Some a) ->
  try_services fetch (before ++ ty :: after) = Normal (Some a).
Proof.
  intros Hb Ha. induction before as [|x before IH]; simpl.
  - rewrite Ha. reflexivity.
  - assert (try_services fetch (before ++ ty :: after) = Normal (Some a)) as IH'.
    { apply IH. intros ty' Hin. apply Hb. apply elem_of_cons. right. exact Hin. }
    destruct (Hb x) as [E|[m E]]; [apply elem_of_cons; left; reflexivity| |];
      rewrite E; [exact IH'|]. simpl. exact IH'.
Qed.

(** X10. The first provider with a usable answer decides: when the
    providers asked before it fail and it yields an address,
    [reverseGeocode] returns that address, whatever the providers after
    it would answer and whatever the coordinates are (they are not
    printed, so even coordinates that are no numbers do no harm). *)
Theorem first_usable_provider_wins fetch (latitude longitude : value) before ty after a :
  services = before ++ ty :: after ->
  (forall ty', ty' ∈ before -> failed ty' (fetch ty')) ->
  attempt ty (fetch ty) = Normal (Some a) ->
  reverseGeocode fetch latitude longitude = Normal a.
Proof.
  intros Hs Hb Ha. unfold reverseGeocode. rewrite Hs.
  rewrite (try_services_first fetch before ty after a Hb Ha). reflexivity.
Qed.

Lemma first_usable_provider_wins_witness :
  reverseGeocode Scenario.small_town VUndefined VNull =
  Normal "Malihabad, Uttar Pradesh, India".
Proof.
  apply (first_usable_provider_wins Scenario.small_town VUndefined VNull
           [nominatim] bigdatacloud [nominatim_alt]).
  - reflexivity.
  - intros ty' H. apply list_elem_of_singleton in H. subst. left. vm_compute. reflexivity.
  - vm_compute. reflexivity.
Defined.

(** ** Statistics *)

Lemma filter_length_split {A} (f g h o : A -> bool) (l : list A) :
  (forall x, (if f x then 1 else 0) + (if g x then 1 else 0) + (if h x then 1 else 0)
             + (if o x then 1 else 0) = 1)%nat ->
  (length (List.filter f l) + length (List.filter g l) + length (List.filter h l)
   + length (List.filter o l) = length l)%nat.
Proof.
  intros H. induction l as [|x l IH]; simpl; [reflexivity|].
  specialize (H x). destruct (f x), (g x), (h x), (o x); simpl in *; lia.
Qed.

Lemma is_str_exclusive (v : value) (a b : string) :
  a <> b -> is_str v a = true -> is_str v b = false.
Proof.
  unfold is_str. destruct v; try discriminate. intros Hab Ha.
  apply String.eqb_eq in Ha. subst. apply String.eqb_neq. exact Hab.
Qed.

(** X11. The statistics split the rows by status: total is the
    number of rows, and pending, inProgress and resolved together with
    the rows of any other status (which no count shows) add up to it;
    no row is counted twice. *)
Theorem stats_split_by_status print inherited data st :
  getComplaintStats print inherited (Normal data) = Normal st ->
  (pending st + inProgress st + resolved st + length (List.filter other_status data)
   = total st)%nat /\
  total st = length data.
Proof.
  intros H. inversion H; subst; clear H. cbn [total pending inProgress resolved].
  split; [|reflexivity]. unfold with_status. apply filter_length_split.
  intros c. unfold other_status.
  destruct (is_str (get c "status") "pending") eqn:E1.
  - rewrite (is_str_exclusive _ "pending" "in_progress"), (is_str_exclusive _ "pending" "resolved")
      by (assumption || discriminate). reflexivity.
  - destruct (is_str (get c "status") "in_progress") eqn:E2.
    + rewrite (is_str_exclusive _ "in_progress" "resolved") by (assumption || discriminate).
      reflexivity.
    + destruct (is_str (get c "status") "resolved"); reflexivity.
Qed.

Lemma stats_split_by_status_witness :
  exists st,
    getComplaintStats Samples.no_print Samples.v8_members (Normal Samples.three_rows)
    = Normal st /\
    (pending st + inProgress st + resolved st + 1 = total st)%nat.
Proof.
  eexists. split; [reflexivity|].
  apply (proj1 (stats_split_by_status Samples.no_print Samples.v8_members
                  Samples.three_rows _ eq_refl)).
Defined.

Lemma in_category_snoc print k data c :
  in_category print k (data ++ [c]) =
  (in_category print k data +
   if String.eqb (to_string print (get c "category")) k then 1 else 0)%nat.
Proof.
  unfold in_category. rewrite List.filter_app, List.length_app. simpl.
  destruct (String.eqb _ k); reflexivity.
Qed.

Lemma assign_lookup k e (m : gmap string entry) k' :
  assign k e m !! k' =
  if String.eqb k "__proto__" then m !! k'
  else if String.eqb k k' then Some e else m !! k'.
Proof.
  unfold assign. destruct (String.eqb k "__proto__"); [reflexivity|].
  destruct (String.eqb_spec k k') as [->|Hne].
  - apply lookup_insert_eq.
  - apply lookup_insert_ne, Hne.
Qed.

Lemma increment_after inherited (m : gmap string entry) k n :
  k <> "__proto__" ->
  m !! k = entry_after inherited k n ->
  Some (increment (read inherited m k)) = entry_after inherited k (S n).
Proof.
  intros Hk Hm. unfold read, entry_after in *.
  destruct (String.eqb_spec k "__proto__") as [|_]; [contradiction|].
  rewrite Hm. destruct n as [|n].
  - destruct (inherited k) as [text|]; reflexivity.
  - destruct (inherited k) as [text|]; cbn [increment].
    + destruct (String.eqb_spec (text +:+ ones (S n)) "") as [E|_].
      * exfalso. revert E. apply app_nonempty_r. simpl. apply app_nonempty_r. discriminate.
      * simpl. do 2 f_equal. symmetry. apply append_associative.
    + rewrite Nat.add_1_r. reflexivity.
Qed.

Lemma byCategory_entry print inherited data k :
  fold_left (count_category print inherited) data ∅ !! k =
  entry_after inherited k (in_category print k data).
Proof.
  induction data as [|c data IH] using rev_ind.
  - simpl. rewrite lookup_empty. unfold entry_after. destruct (String.eqb k "__proto__"); reflexivity.
  - rewrite fold_left_app, in_category_snoc. cbn [fold_left].
    set (m := fold_left (count_category print inherited) data ∅) in *.
    unfold count_category. rewrite assign_lookup.
    destruct (String.eqb_spec (to_string print (get c "category")) "__proto__") as [E|Hp].
    + rewrite IH. destruct (String.eqb_spec (to_string print (get c "category")) k) as [<-|_].
      * rewrite E. reflexivity.
      * rewrite Nat.add_0_r. reflexivity.
    + destruct (String.eqb_spec (to_string print (get c "category")) k) as [Ek|_].
      * rewrite Ek in *. rewrite Nat.add_1_r. apply increment_after; assumption.
      * rewrite Nat.add_0_r. exact IH.
Qed.

(** X12. [byCategory] counts each category: under a category name
    that no object inherits, [byCategory] holds the number of rows of
    that category, and holds nothing when there is no such row; under a
    name that objects do inherit ([constructor], [toString], ...) it
    never holds a number. *)
Theorem byCategory_counts_each_category print inherited data st k :
  getComplaintStats print inherited (Normal data) = Normal st ->
  k <> "__proto__" ->
  (inherited k = None ->
   byCategory st !! k =
   if (in_category print k data =? 0)%nat then None
   else Some (Count (in_category print k data))) /\
  (inherited k <> None -> forall n, byCategory st !! k <> Some (Count n)).
Proof.
  intros H Hp. inversion H; subst; clear H. cbn [byCategory].
  rewrite byCategory_entry. unfold entry_after.
  destruct (String.eqb_spec k "__proto__") as [|_]; [contradiction|].
  split.
  - intros Hi. rewrite Hi. destruct (in_category print k data); reflexivity.
  - intros Hi m. destruct (inherited k); [|congruence].
    destruct (in_category print k data); discriminate.
Qed.

Lemma byCategory_counts_each_category_witness :
  exists st,
    getComplaintStats Samples.no_print Samples.v8_members (Normal Samples.three_rows)
    = Normal st /\
    byCategory st !! "Pothole" = Some (Count 2).
Proof.
  eexists. split; [reflexivity|].
  apply (proj1 (byCategory_counts_each_category Samples.no_print Samples.v8_members
                  Samples.three_rows _ "Pothole" eq_refl ltac:(discriminate))).
  vm_compute. reflexivity.
Defined.

(** X13. The statistics do not depend on the order of the rows: the
    query asks for no order, and two answers with the same rows in
    another order give the same totals and the same [byCategory]. *)
Theorem stats_ignore_the_order_of_rows print inherited data data' :
  data ≡ₚ data' ->
  getComplaintStats print inherited (Normal data) =
  getComplaintStats print inherited (Normal data').
Proof.
  intros Hp. simpl.
  assert (forall f : gmap string value -> bool,
             length (List.filter f data) = length (List.filter f data')) as Hf.
  { intros f. induction Hp as [|x l l' _ IH|x y l|l l' l'' _ IH1 _ IH2]; simpl.
    - reflexivity.
    - destruct (f x); simpl; rewrite IH; reflexivity.
    - destruct (f x), (f y); reflexivity.
    - rewrite IH1. exact IH2. }
  f_equal. f_equal.
  - apply Permutation_length, Hp.
  - apply Hf.
  - apply Hf.
  - apply Hf.
  - apply map_eq. intros k. rewrite !byCategory_entry. unfold in_category. rewrite Hf. reflexivity.
Qed.

Lemma stats_ignore_the_order_of_rows_witness :
  getComplaintStats Samples.no_print Samples.v8_members
    (Normal [Samples.counted_row "pending" "Pothole";
             Samples.counted_row "resolved" "Garbage"]) =
  getComplaintStats Samples.no_print Samples.v8_members
    (Normal [Samples.counted_row "resolved" "Garbage";
             Samples.counted_row "pending" "Pothole"]).
Proof.
  apply stats_ignore_the_order_of_rows. apply perm_swap.
Defined.

Lemma counted_insert_new (m : gmap string entry) k e :
  m !! k = None -> counted (<[k := e]> m) = (entry_count e + counted m)%nat.
Proof.
  intros H. unfold counted.
  apply (map_fold_insert_L (fun _ e acc => entry_count e + acc)%nat); [|exact H].
  intros; lia.
Qed.

Lemma counted_insert_old (m : gmap string entry) k e e' :
  m !! k = Some e' ->
  (counted (<[k := e]> m) + entry_count e' = entry_count e + counted m)%nat.
Proof.
  intros H. rewrite <- insert_delete_eq.
  rewrite counted_insert_new by apply lookup_delete_eq.
  unfold counted at 2.
  rewrite (map_fold_delete_L (fun _ e acc => entry_count e + acc)%nat 0%nat k e' m);
    [|intros; lia|exact H].
  fold (counted (delete k m)). lia.
Qed.

Lemma counted_step print inherited (m : gmap string entry) c :
  ordinary print inherited c ->
  (forall k t, m !! k <> Some (Text t)) ->
  counted (count_category print inherited m c) = S (counted m) /\
  (forall k t, count_category print inherited m c !! k <> Some (Text t)).
Proof.
  intros [Hi Hp] Hm. unfold count_category, assign, read.
  destruct (String.eqb_spec (to_string print (get c "category")) "__proto__") as [|_];
    [contradiction|].
  rewrite Hi.
  destruct (m !! to_string print (get c "category")) as [[n|t]|] eqn:E.
  - cbn [increment]. split.
    + pose proof (counted_insert_old m _ (Count (n + 1)) _ E) as H. simpl in H. lia.
    + intros k t. destruct (String.eqb_spec (to_string print (get c "category")) k) as [<-|Hne].
      * rewrite lookup_insert_eq. discriminate.
      * rewrite lookup_insert_ne by exact Hne. apply Hm.
  - exfalso. exact (Hm _ _ E).
  - cbn [increment]. split.
    + rewrite counted_insert_new by exact E. reflexivity.
    + intros k t. destruct (String.eqb_spec (to_string print (get c "category")) k) as [<-|Hne].
      * rewrite lookup_insert_eq. discriminate.
      * rewrite lookup_insert_ne by exact Hne. apply Hm.
Qed.

Lemma counted_fold print inherited data :
  Forall (ordinary print inherited) data ->
  counted (fold_left (count_category print inherited) data ∅) = length data /\
  (forall k t, fold_left (count_category print inherited) data ∅ !! k <> Some (Text t)).
Proof.
  induction data as [|c data IH] using rev_ind; intros H.
  - split; [reflexivity|]. intros k t. simpl. rewrite lookup_empty. discriminate.
  - apply Forall_app in H as [Hd Hc]. apply Forall_inv in Hc.
    destruct (IH Hd) as [IH1 IH2].
    rewrite fold_left_app. simpl.
    destruct (counted_step print inherited _ c Hc IH2) as [H1 H2].
    split; [|exact H2]. rewrite H1, IH1, List.length_app. simpl. lia.
Qed.

(** X14. The counts by category add up to the total: when no row's
    category is the name of an inherited member, every entry of
    [byCategory] is a number above 0 and the sum of the entries is
    [total]. *)
Theorem byCategory_adds_up_to_total print inherited data st :
  Forall (ordinary print inherited) data ->
  getComplaintStats print inherited (Normal data) = Normal st ->
  counted (byCategory st) = total st /\
  (forall k e, byCategory st !! k = Some e -> exists n, e = Count n /\ (0 < n)%nat).
Proof.
  intros Ho H. inversion H; subst; clear H. cbn [byCategory total].
  destruct (counted_fold print inherited data Ho) as [H1 H2].
  split; [exact H1|].
  intros k [n|t] He; [|exfalso; exact (H2 k t He)].
  exists n. split; [reflexivity|].
  rewrite byCategory_entry in He. unfold entry_after in He.
  destruct (String.eqb k "__proto__"); [discriminate|].
  destruct (in_category print k data) as [|m]; [discriminate|].
  destruct (inherited k); inversion He. lia.
Qed.

Lemma byCategory_adds_up_to_total_witness :
  exists st,
    getComplaintStats Samples.no_print Samples.v8_members (Normal Samples.three_rows)
    = Normal st /\
    counted (byCategory st) = total st.
Proof.
  eexists. split; [reflexivity|].
  apply (proj1 (byCategory_adds_up_to_total Samples.no_print Samples.v8_members
                  Samples.three_rows _
                  ltac:(repeat constructor; vm_compute; (reflexivity || discriminate))
                  eq_refl)).
Defined.

(** ** Identifiers *)

Lemma random_digit (x : Q) :
  (0 <= x)%Q -> (x < 1)%Q -> (0 <= Z.lor (to_int32 (x * 16)) 0 < 16)%Z.
Proof.
  intros H0 H1. rewrite Z.lor_0_r. unfold to_int32, truncate.
  destruct (Qlt_le_dec (x * 16) 0) as [Hneg|_]; [exfalso; lra|].
  assert (0 <= Qfloor (x * 16) < 16)%Z as Hf.
  { split.
    - apply (Qfloor_resp_le 0 (x * 16)). lra.
    - apply Z.lt_nge. intros Hge.
      assert (inject_Z 16 <= x * 16)%Q as Hc.
      { eapply Qle_trans; [|apply Qfloor_le].
        rewrite <- Zle_Qle. exact Hge. }
      assert (inject_Z 16 == 16)%Q as E by reflexivity. lra. }
  rewrite Z.mod_small by lia.
  destruct (Z.ltb_spec (Qfloor (x * 16)) (2 ^ 31)); lia.
Qed.

Lemma small_cases (v : Z) (P : Z -> Prop) :
  (0 <= v < 16)%Z ->
  P 0%Z -> P 1%Z -> P 2%Z -> P 3%Z -> P 4%Z -> P 5%Z -> P 6%Z -> P 7%Z ->
  P 8%Z -> P 9%Z -> P 10%Z -> P 11%Z -> P 12%Z -> P 13%Z -> P 14%Z -> P 15%Z ->
  P v.
Proof.
  intros H. intros.
  assert (v = 0 \/ v = 1 \/ v = 2 \/ v = 3 \/ v = 4 \/ v = 5 \/ v = 6 \/ v = 7 \/
          v = 8 \/ v = 9 \/ v = 10 \/ v = 11 \/ v = 12 \/ v = 13 \/ v = 14 \/ v = 15)%Z
    as Hv by lia.
  repeat (destruct Hv as [->|Hv]; [assumption|]). subst. assumption.
Qed.

Lemma replacement_x (x : Q) :
  (0 <= x)%Q -> (x < 1)%Q ->
  exists c, replacement "x" x = String c "" /\ is_hex c = true.
Proof.
  intros H0 H1. unfold replacement. cbn [Ascii.eqb Bool.eqb].
  apply (small_cases _ (fun v => exists c, toString16 v = String c "" /\ is_hex c = true)
           (random_digit x H0 H1)); eexists; split; reflexivity.
Qed.

Lemma replacement_y (x : Q) :
  (0 <= x)%Q -> (x < 1)%Q ->
  exists c, replacement "y" x = String c "" /\ is_variant c = true.
Proof.
  intros H0 H1. unfold replacement. cbn [Ascii.eqb Bool.eqb].
  apply (small_cases _ (fun v => exists c, toString16 (Z.lor (Z.land v 3) 8) = String c "" /\
                                           is_variant c = true)
           (random_digit x H0 H1)); eexists; split; reflexivity.
Qed.

Lemma replace_xy_shape (template : string) (random : nat -> Q) (i : nat) :
  unit_interval random -> has_shape template (replace_xy template random i) = true.
Proof.
  intros Hr. revert i. induction template as [|p template IH]; intros i; [reflexivity|].
  cbn [replace_xy].
  destruct (Ascii.eqb_spec p "x") as [->|Hx].
  - destruct (replacement_x (random i)) as [c [-> Hc]]; [apply Hr | apply Hr|].
    rewrite append_cons, append_nil. cbn [has_shape orb Ascii.eqb Bool.eqb].
    rewrite Hc, IH. reflexivity.
  - destruct (Ascii.eqb_spec p "y") as [->|Hy].
    + destruct (replacement_y (random i)) as [c [-> Hc]]; [apply Hr | apply Hr|].
      rewrite append_cons, append_nil. cbn [has_shape orb Ascii.eqb Bool.eqb].
      rewrite Hc, IH. reflexivity.
    + cbn [orb has_shape].
      destruct (Ascii.eqb_spec p "x"); [contradiction|].
      destruct (Ascii.eqb_spec p "y"); [contradiction|].
      rewrite Ascii.eqb_refl, IH. reflexivity.
Qed.

Lemma has_shape_length (shape s : string) :
  has_shape shape s = true -> String.length s = String.length shape.
Proof.
  revert s. induction shape as [|p shape IH]; intros [|c s] Hs; simpl in Hs; try discriminate.
  - reflexivity.
  - apply andb_true_iff in Hs as [_ Hs]. simpl. f_equal. apply IH, Hs.
Qed.

Lemma is_uuid_v4_unfold (s : string) :
  is_uuid_v4 s = has_shape "xxxxxxxx-xxxx-4xxx-yxxx-xxxxxxxxxxxx" s.
Proof. reflexivity. Qed.

Lemma generateUUID_unfold (random : nat -> Q) :
  generateUUID random = replace_xy "xxxxxxxx-xxxx-4xxx-yxxx-xxxxxxxxxxxx" random 0.
Proof. reflexivity. Qed.

(** X15. Every generated id is a well-formed version-4 identifier:
    whatever numbers [Math.random] returns, [generateUUID] gives 36
    characters in the groups 8-4-4-4-12 of small hexadecimal digits
    separated by dashes, with 4 at the head of the third group and 8, 9,
    a or b at the head of the fourth. *)
Theorem generated_ids_are_version_4 random :
  unit_interval random ->
  is_uuid_v4 (generateUUID random) = true /\ String.length (generateUUID random) = 36%nat.
Proof.
  intros Hr. rewrite is_uuid_v4_unfold, generateUUID_unfold.
  pose proof (replace_xy_shape "xxxxxxxx-xxxx-4xxx-yxxx-xxxxxxxxxxxx" random 0 Hr) as H.
  split; [exact H|].
  rewrite (has_shape_length _ _ H). reflexivity.
Qed.

Lemma generated_ids_are_version_4_witness :
  is_uuid_v4 (generateUUID Samples.sixteenths) = true /\
  String.length (generateUUID Samples.sixteenths) = 36%nat.
Proof.
  apply (generated_ids_are_version_4 Samples.sixteenths).
  intros i. unfold Samples.sixteenths, Qle, Qlt. simpl.
  pose proof (Nat.mod_upper_bound i 16). lia.
Defined.

(** ** The saved session *)

Lemma includes_append_r (a b needle : string) :
  includes b needle = true -> includes (a +:+ b) needle = true.
Proof.
  rewrite !includes_spec. intros [before [after ->]].
  exists (a +:+ before), after. rewrite <- !append_associative. reflexivity.
Qed.

Lemma replace_xy_keeps_dash (template : string) (random : nat -> Q) (i : nat) :
  includes template "-" = true -> includes (replace_xy template random i) "-" = true.
Proof.
  revert i. induction template as [|p template IH]; intros i H; [discriminate|].
  cbn [replace_xy].
  destruct (Ascii.eqb_spec p "-") as [->|Hd].
  - reflexivity.
  - assert (includes template "-" = true) as Ht.
    { cbn [includes starts_with] in H.
      destruct (Ascii.eqb_spec "-" p) as [E|_]; [congruence|]. exact H. }
    destruct (Ascii.eqb p "x" || Ascii.eqb p "y").
    + apply includes_append_r, IH, Ht.
    + cbn [includes starts_with].
      destruct (Ascii.eqb_spec "-" p) as [E|_]; [congruence|]. apply IH, Ht.
Qed.

Lemma generateUUID_dash (random : nat -> Q) : includes (generateUUID random) "-" = true.
Proof.
  rewrite generateUUID_unfold. apply replace_xy_keeps_dash. reflexivity.
Qed.

Lemma old_id_dash (s : string) : includes s "-" = true -> old_id (VStr s) = Normal false.
Proof. intros H. unfold old_id. rewrite H. destruct (truthy (VStr s)); reflexivity. Qed.

Lemma json_lookup (o : gmap string value) (k : string) :
  json o !! k = o !! k ≫= json_value.
Proof. unfold json. apply lookup_omap. Qed.

Lemma json_idempotent (o : gmap string value) : json (json o) = json o.
Proof.
  apply map_eq. intros k. rewrite !json_lookup.
  destruct (o !! k) as [[]|]; reflexivity.
Qed.

Lemma json_get_kept (o : gmap string value) (k : string) (v : value) :
  o !! k = Some v -> json_value v = Some v -> get (json o) k = v.
Proof. intros H Hv. unfold get. rewrite json_lookup, H. simpl. rewrite Hv. reflexivity. Qed.

Lemma in_step_restore random slot : in_step (restore random (mounted slot)).
Proof.
  unfold restore, mounted. cbn [saved user].
  destruct slot as [[o|]|]; try reflexivity.
  destruct (old_id (get (json o) "id")) as [[|]|e] eqn:E; unfold in_step; cbn [user saved].
  - split; [eexists; split; reflexivity|].
    rewrite (json_get_kept _ "id" (VStr (generateUUID random)));
      [|apply lookup_insert_eq|reflexivity].
    apply old_id_dash, generateUUID_dash.
  - split; [exists o; split; [reflexivity|symmetry; apply json_idempotent]|].
    rewrite json_idempotent. exact E.
  - reflexivity.
Qed.

Lemma in_step_same_id (u u' : gmap string value) :
  u' !! "id" = u !! "id" ->
  old_id (get (json u) "id") = Normal false ->
  old_id (get (json u') "id") = Normal false.
Proof. intros H. unfold get. rewrite !json_lookup, H. tauto. Qed.

Lemma mockUser_id id email name userType now :
  mockUser id email name userType now !! "id" = Some (VStr id).
Proof. reflexivity. Qed.

Lemma in_step_serve print r a : keeps_id r -> in_step a -> in_step (serve print r a).
Proof.
  intros Hr Ha. destruct r as [random now email password userType|random now userData| |updates];
    cbn [serve].
  - unfold login. destruct (local_part print email) as [name|e]; cbn [fst]; [|exact Ha].
    unfold in_step. cbn [user saved]. split; [eexists; split; reflexivity|].
    rewrite (json_get_kept _ "id" (VStr (generateUUID random)));
      [|apply mockUser_id|reflexivity].
    apply old_id_dash, generateUUID_dash.
  - unfold register. cbn [fst]. unfold in_step. cbn [user saved].
    split; [eexists; split; reflexivity|].
    rewrite (json_get_kept _ "id" (VStr (generateUUID random))); [| |reflexivity].
    + apply old_id_dash, generateUUID_dash.
    + rewrite !lookup_insert_ne by discriminate.
      rewrite lookup_union_r by exact Hr. apply lookup_singleton_eq.
  - reflexivity.
  - unfold updateProfile. destruct (user a) as [u|] eqn:Eu; [|exact Ha].
    unfold in_step in *. rewrite Eu in Ha. cbn [user saved]. destruct Ha as [_ Ha].
    split; [eexists; split; reflexivity|].
    apply (in_step_same_id u); [|exact Ha].
    apply lookup_union_r, Hr.
Qed.

Lemma in_step_session print random slot requests :
  Forall keeps_id requests -> in_step (session print random slot requests).
Proof.
  unfold session. intros H.
  generalize (in_step_restore random slot).
  generalize (restore random (mounted slot)).
  induction H as [|r requests Hr _ IH]; intros a Ha; simpl; [exact Ha|].
  apply IH, in_step_serve; assumption.
Qed.

(** X16. Reopening the page restores the session: whatever localStorage
    held when the page was opened, after any sequence of login,
    register, profile update and logout requests that carry no id of
    their own, a provider mounted afresh over the localStorage left
    behind finds exactly the signed-in user, as JSON keeps it, and no
    user after a logout; the id is never migrated a second time and the
    saved session is left as it is. *)
Theorem reload_restores_the_session print random random' slot requests :
  Forall keeps_id requests ->
  restore random' (mounted (saved (session print random slot requests))) =
  {| user := json <$> user (session print random slot requests);
     loading := false;
     saved := saved (session print random slot requests) |}.
Proof.
  intros H. apply (in_step_session print random slot) in H.
  unfold in_step in H. unfold restore, mounted. cbn [saved user].
  destruct (user (session print random slot requests)) as [u|].
  - destruct H as [[o [-> Ho]] Hid]. rewrite Ho, Hid. reflexivity.
  - rewrite H. reflexivity.
Qed.

Lemma reload_restores_the_session_witness :
  user (restore (fun _ => 0%Q)
          (mounted (saved (session Samples.no_print Samples.sixteenths None
                             [Login Samples.sixteenths 100 (VStr "asha@example.org")
                                (VStr "secret") (VStr "citizen");
                              UpdateProfile {[ "phone" := VStr "0522" ]}])))) =
  json <$> user (session Samples.no_print Samples.sixteenths None
                   [Login Samples.sixteenths 100 (VStr "asha@example.org")
                      (VStr "secret") (VStr "citizen");
                    UpdateProfile {[ "phone" := VStr "0522" ]}]).
Proof.
  apply (f_equal user
           (reload_restores_the_session Samples.no_print Samples.sixteenths (fun _ => 0%Q) None
              [Login Samples.sixteenths 100 (VStr "asha@example.org")
                 (VStr "secret") (VStr "citizen");
               UpdateProfile {[ "phone" := VStr "0522" ]}]
              ltac:(repeat constructor))).
Defined.

(** X17. What the first load does to a session of the old kind.  A
    saved user whose id is non-empty text without a dash is given a
    fresh generated id, every other property is kept, and the new
    object is saved.  A saved user whose id is a number other than 0
    (a timestamp) is not migrated: reading [includes] of the number
    throws, the saved session is removed and nobody is signed in. *)
Theorem old_sessions_are_migrated_or_dropped random o :
  (forall s,
      get (json o) "id" = VStr s -> s <> "" -> includes s "-" = false ->
      exists u,
        restore random (mounted (Some (Json o))) =
          {| user := Some u; loading := false; saved := Some (Json u) |} /\
        get u "id" = VStr (generateUUID random) /\
        forall k, k <> "id" -> u !! k = json o !! k) /\
  (forall q,
      get (json o) "id" = VNum q -> ~ (q == 0)%Q ->
      restore random (mounted (Some (Json o))) =
        {| user := None; loading := false; saved := None |}).
Proof.
  split.
  - intros s Hid Hs Hd. unfold restore, mounted. cbn [saved user].
    rewrite Hid. unfold old_id. cbn [truthy].
    destruct (String.eqb_spec s "") as [|_]; [contradiction|]. cbn [negb].
    rewrite Hd. cbn [negb]. eexists. split; [reflexivity|]. split.
    + unfold get. rewrite lookup_insert_eq. reflexivity.
    + intros k Hk. apply lookup_insert_ne. congruence.
  - intros q Hid Hq. unfold restore, mounted. cbn [saved user].
    rewrite Hid. unfold old_id. cbn [truthy].
    destruct (Qeq_bool q 0) eqn:E; [apply Qeq_bool_eq in E; contradiction|]. reflexivity.
Qed.

Lemma old_sessions_are_migrated_or_dropped_witness :
  restore Samples.sixteenths
    (mounted (Some (Json {[ "id" := VNum (1700000000000 # 1) ]}))) =
  {| user := None; loading := false; saved := None |}.
Proof.
  apply (proj2 (old_sessions_are_migrated_or_dropped Samples.sixteenths
                  {[ "id" := VNum (1700000000000 # 1) ]}) (1700000000000 # 1)).
  - vm_compute. reflexivity.
  - vm_compute. discriminate.
Defined.

(** ** Who sees which page *)

Lemma ProtectedRoute_page a userType children p :
  ProtectedRoute a userType children = Page p ->
  p = children /\ loading a = false /\
  exists u, user a = Some u /\
            forall t, userType = Some t -> t <> "" -> get u "userType" = VStr t.
Proof.
  unfold ProtectedRoute. destruct (loading a); [discriminate|].
  destruct (user a) as [u|]; [|discriminate].
  destruct userType as [t|].
  - destruct (String.eqb_spec t "") as [->|Ht]; cbn [negb andb].
    + intros H. inversion H. split; [reflexivity|]. split; [reflexivity|].
      exists u. split; [reflexivity|]. intros t [= <-]. congruence.
    + destruct (is_str (get u "userType") t) eqn:E; cbn [negb]; [|discriminate].
      intros H. inversion H. split; [reflexivity|]. split; [reflexivity|].
      exists u. split; [reflexivity|]. intros t' [= <-] _. apply is_str_eq, E.
  - intros H. inversion H. split; [reflexivity|]. split; [reflexivity|].
    exists u. split; [reflexivity|]. discriminate.
Qed.

(** X18. Pages are reserved: a route renders its own page or none,
    and a page of the citizen area (dashboard, report, tracking) or the
    admin dashboard is rendered only once loading is over, for a
    signed-in user whose userType is exactly 'citizen', respectively
    'admin'. *)
Theorem pages_are_reserved a r p :
  element a r = Page p ->
  p = r /\
  forall t, reserved_for r = Some t ->
            loading a = false /\ exists u, user a = Some u /\ get u "userType" = VStr t.
Proof.
  destruct r; cbn [element reserved_for]; intros H;
    try (inversion H; split; [reflexivity|discriminate]);
    apply ProtectedRoute_page in H as [-> [Hl [u [Hu Ht]]]];
    (split; [reflexivity|]); intros t [= <-];
    (split; [exact Hl|]); exists u; (split; [exact Hu|]); apply Ht;
    (reflexivity || discriminate).
Qed.

Lemma pages_are_reserved_witness :
  AdminDashboard = AdminDashboard /\
  forall t, reserved_for AdminDashboard = Some t ->
            loading (Samples.signed_in {[ "userType" := VStr "admin" ]}) = false /\
            exists u, user (Samples.signed_in {[ "userType" := VStr "admin" ]}) = Some u /\
                      get u "userType" = VStr t.
Proof.
  apply (pages_are_reserved (Samples.signed_in {[ "userType" := VStr "admin" ]})
           AdminDashboard AdminDashboard).
  vm_compute. reflexivity.
Defined.

Lemma element_signed_in a u r :
  loading a = false -> user a = Some u ->
  element a r =
  match reserved_for r with
  | Some t =>
      if is_str (get u "userType") t then Page r
      else Navigate (if is_str (get u "userType") "admin"
                     then AdminDashboard else CitizenDashboard)
  | None => Page r
  end.
Proof.
  intros Hl Hu.
  destruct r; cbn [element reserved_for]; unfold ProtectedRoute; rewrite ?Hl, ?Hu;
    cbn [String.eqb Ascii.eqb Bool.eqb negb andb]; try reflexivity;
    destruct (is_str (get u "userType") _); reflexivity.
Qed.

Lemma element_signed_out a r :
  loading a = false -> user a = None ->
  element a r = if public r then Page r else Navigate LoginPage.
Proof.
  intros Hl Hu. destruct r; cbn [element public]; unfold ProtectedRoute;
    rewrite ?Hl, ?Hu; reflexivity.
Qed.

(** X19. Where a visitor ends up once loading is over.  Signed out,
    every guarded route leads to the login page and every other route
    shows its page.  Signed in as citizen or admin, every route shows,
    after at most one navigation, a page that is open to all or reserved
    to the user's own kind.  Signed in with any other userType, no
    reserved page is ever shown, however many navigations are followed:
    the guard of /citizen navigates to /citizen. *)
Theorem navigation_settles a :
  loading a = false ->
  (user a = None ->
   forall r, settle 1 a r = Some (Page (if public r then r else LoginPage))) /\
  (forall u t,
      user a = Some u -> get u "userType" = VStr t -> t = "citizen" \/ t = "admin" ->
      forall r, exists p,
        settle 1 a r = Some (Page p) /\
        (reserved_for p = None \/ reserved_for p = Some t)) /\
  (forall u,
      user a = Some u ->
      is_str (get u "userType") "citizen" = false ->
      is_str (get u "userType") "admin" = false ->
      forall r t fuel, reserved_for r = Some t -> settle fuel a r = None).
Proof.
  intros Hl. split; [|split].
  - intros Hu r. cbn [settle]. rewrite !(element_signed_out a _ Hl Hu).
    destruct r; reflexivity.
  - intros u t Hu Ht Hc r.
    destruct Hc as [-> | ->]; destruct r;
      repeat (cbn [settle]; rewrite (element_signed_in a u _ Hl Hu); cbn [reserved_for];
              rewrite ?Ht; cbn [is_str String.eqb Ascii.eqb Bool.eqb]);
      eexists; (split; [reflexivity|]); cbn [reserved_for]; auto.
  - intros u Hu Hc Ha r t fuel Hr.
    assert (forall n, settle n a CitizenDashboard = None) as Hloop.
    { induction n as [|n IH]; cbn [settle]; rewrite (element_signed_in a u _ Hl Hu);
        cbn [reserved_for]; rewrite Hc, ?Ha; [reflexivity|exact IH]. }
    destruct fuel as [|fuel]; cbn [settle]; rewrite (element_signed_in a u _ Hl Hu), Hr.
    + destruct r; try discriminate; inversion Hr; subst; rewrite ?Hc, ?Ha; reflexivity.
    + destruct r; try discriminate; inversion Hr; subst; rewrite ?Hc, ?Ha; apply Hloop.
Qed.

Lemma navigation_settles_witness :
  exists p,
    settle 1 (Samples.signed_in Samples.asha) AdminDashboard = Some (Page p) /\
    (reserved_for p = None \/ reserved_for p = Some "citizen").
Proof.
  apply (proj1 (proj2 (navigation_settles (Samples.signed_in Samples.asha) eq_refl))
           Samples.asha "citizen" eq_refl).
  - vm_compute. reflexivity.
  - left. reflexivity.
Defined.

(** ** Uploaded files *)

Lemma includes_char_cons (c sep : ascii) (s : string) :
  includes (String c s) (String sep "") = Ascii.eqb sep c || includes s (String sep "").
Proof.
  cbn [includes starts_with]. destruct (Ascii.eqb sep c); [|reflexivity].
  destruct s; reflexivity.
Qed.

Lemma split_last_free (sep : ascii) (s : string) :
  includes (split_last sep s) (String sep "") = false.
Proof.
  induction s as [|c s IH]; [reflexivity|]. cbn [split_last].
  destruct (includes s (String sep "")) eqn:E; [exact IH|].
  destruct (Ascii.eqb_spec c sep) as [->|Hne]; [exact E|].
  rewrite includes_char_cons, E.
  destruct (Ascii.eqb_spec sep c); [congruence|reflexivity].
Qed.

Lemma prefix_before_separator (sep : ascii) (a1 a2 r1 r2 : string) :
  includes a1 (String sep "") = false ->
  includes a2 (String sep "") = false ->
  a1 +:+ String sep r1 = a2 +:+ String sep r2 ->
  a1 = a2.
Proof.
  revert a2. induction a1 as [|c a1 IH]; intros [|d a2] H1 H2 H.
  - reflexivity.
  - rewrite append_nil, append_cons in H. inversion H; subst.
    rewrite includes_char_cons, Ascii.eqb_refl in H2. discriminate.
  - rewrite append_nil, append_cons in H. inversion H; subst.
    rewrite includes_char_cons, Ascii.eqb_refl in H1. discriminate.
  - rewrite !append_cons in H. inversion H; subst.
    rewrite includes_char_cons in H1, H2.
    apply orb_false_iff in H1 as [_ H1]. apply orb_false_iff in H2 as [_ H2].
    f_equal. apply IH; assumption.
Qed.

(** X20. The name a file is uploaded under: its extension is never
    empty and contains no dot ('jpg' stands in when the file's name ends
    with a dot, the whole name when it has no dot), and the names of two
    users whose ids are text without a slash never coincide, so that no
    upload can be refused because of another user's file. *)
Theorem uploaded_file_names print :
  (forall name, fileExt name <> "" /\ includes (fileExt name) "." = false) /\
  (forall u1 u2 now1 now2 name1 name2,
      includes u1 "/" = false -> includes u2 "/" = false ->
      fileName print (VStr u1) now1 name1 = fileName print (VStr u2) now2 name2 ->
      u1 = u2).
Proof.
  split.
  - intros name. unfold fileExt.
    destruct (String.eqb_spec (split_last "." name) "") as [_|Hne].
    + split; [discriminate|reflexivity].
    + split; [exact Hne|apply split_last_free].
  - intros u1 u2 now1 now2 name1 name2 H1 H2 H. unfold fileName in H. cbn [to_string] in H.
    eapply (prefix_before_separator "/"); [exact H1|exact H2|].
    rewrite !append_cons, !append_nil in H. exact H.
Qed.

Lemma uploaded_file_names_witness :
  fileExt "complaint-image.jpg" <> "" /\ includes (fileExt "complaint-image.jpg") "." = false.
Proof.
  apply (proj1 (uploaded_file_names Samples.no_print) "complaint-image.jpg").
Defined.

(** ** Registration and the profile page *)

(** X21. Registration signs the new user in on their own dashboard:
    for either kind of account, [onSubmit] of RegisterPage leaves a
    signed-in, saved user of the chosen userType and navigates to the
    dashboard reserved to that kind, whose guard lets the user in.  The
    user object, and with it the saved session, keeps the form's
    password as it was typed; only confirmPassword is left out. *)
Theorem registration_signs_in print random now data userType a :
  userType = "citizen" \/ userType = "admin" ->
  exists u target,
    register_onSubmit print random now data userType a =
      ({| user := Some u; loading := false; saved := Some (Json u) |}, Some target) /\
    element {| user := Some u; loading := false; saved := Some (Json u) |} target
      = Page target /\
    reserved_for target = Some userType /\
    get u "userType" = VStr userType /\
    u !! "password" = data !! "password" /\
    u !! "confirmPassword" = None.
Proof.
  intros Ht. unfold register_onSubmit, register. eexists. eexists.
  split; [reflexivity|].
  assert (forall (m : gmap string value) a1 a2,
             get (<["createdAt" := a1]> (<["avatar" := a2]>
                    (<["userType" := VStr userType]> m ∪ {[ "id" := VStr (generateUUID random) ]})))
               "userType" = VStr userType) as Hty.
  { intros m a1 a2. unfold get. rewrite !lookup_insert_ne by discriminate.
    erewrite lookup_union_Some_l; [reflexivity|]. apply lookup_insert_eq. }
  split; [|split; [|split; [apply Hty|split]]].
  - destruct Ht as [-> | ->]; cbn [String.eqb Ascii.eqb Bool.eqb element];
      unfold ProtectedRoute; cbn [loading user]; rewrite Hty; reflexivity.
  - destruct Ht as [-> | ->]; reflexivity.
  - rewrite !lookup_insert_ne by discriminate.
    destruct (data !! "password") as [v|] eqn:E.
    + erewrite lookup_union_Some_l; [reflexivity|].
      rewrite lookup_insert_ne by discriminate. rewrite lookup_delete_ne by discriminate. exact E.
    + rewrite lookup_union_r.
      * apply lookup_singleton_ne. discriminate.
      * rewrite lookup_insert_ne by discriminate. rewrite lookup_delete_ne by discriminate. exact E.
  - rewrite !lookup_insert_ne by discriminate.
    rewrite lookup_union_r.
    + apply lookup_singleton_ne. discriminate.
    + rewrite lookup_insert_ne by discriminate. apply lookup_delete_eq.
Qed.

Lemma registration_signs_in_witness :
  exists u target,
    register_onSubmit Samples.no_print Samples.sixteenths 100
      (list_to_map [("name", VStr "Asha"); ("password", VStr "secret");
                    ("confirmPassword", VStr "secret")])
      "citizen" (mounted None) =
      ({| user := Some u; loading := false; saved := Some (Json u) |}, Some target) /\
    element {| user := Some u; loading := false; saved := Some (Json u) |} target
      = Page target /\
    reserved_for target = Some "citizen" /\
    get u "userType" = VStr "citizen" /\
    u !! "password" =
      (list_to_map [("name", VStr "Asha"); ("password", VStr "secret");
                    ("confirmPassword", VStr "secret")] : gmap string value) !! "password" /\
    u !! "confirmPassword" = None.
Proof.
  apply (registration_signs_in Samples.no_print Samples.sixteenths 100
           (list_to_map [("name", VStr "Asha"); ("password", VStr "secret");
                         ("confirmPassword", VStr "secret")])
           "citizen" (mounted None)).
  left. reflexivity.
Defined.

Lemma form_of_keys user k : k ∉ inputs -> form_of user !! k = None.
Proof.
  intros Hk. unfold form_of. cbn [list_to_map foldr fst snd].
  rewrite !lookup_insert_ne; [apply lookup_empty| | | |];
    intros <-; apply Hk; unfold inputs; set_solver.
Qed.

Lemma acts_keep_the_account xs a p st u :
  user a = Some u ->
  (forall k, k ∉ inputs -> formData p !! k = None) ->
  acts xs (a, p) = Some st ->
  exists u',
    user st.1 = Some u' /\
    (forall k, k ∉ inputs -> u' !! k = u !! k) /\
    (st.1 = a \/ saved st.1 = Some (Json u')).
Proof.
  revert a p u. induction xs as [|x xs IH]; intros a p u Hu Hp H; cbn [acts] in H.
  - inversion H; subst. exists u. cbn [fst]. split; [exact Hu|]. split; [reflexivity|]. left. reflexivity.
  - destruct (act x (a, p)) as [[a1 p1]|] eqn:Hx; [|discriminate].
    assert (exists u1, user a1 = Some u1 /\
                       (forall k, k ∉ inputs -> u1 !! k = u !! k) /\
                       (a1 = a \/ saved a1 = Some (Json u1)) /\
                       (forall k, k ∉ inputs -> formData p1 !! k = None))
      as [u1 [Hu1 [Hk1 [Hs1 Hp1]]]].
    { destruct x as [|name value| |]; cbn [act] in Hx.
      - destruct (isEditing p); inversion Hx; subst.
        exists u. repeat split; auto.
      - destruct (isEditing p && bool_decide (name ∈ inputs)) eqn:E; inversion Hx; subst.
        apply andb_true_iff in E as [_ E]. apply bool_decide_eq_true in E.
        exists u. split; [exact Hu|]. split; [reflexivity|]. split; [left; reflexivity|].
        cbn [formData]. intros k Hk. rewrite lookup_insert_ne; [apply Hp, Hk|].
        intros <-. contradiction.
      - destruct (isEditing p); inversion Hx; subst.
        unfold updateProfile. rewrite Hu. cbn [user saved formData].
        eexists. split; [reflexivity|]. split; [|split; [right; reflexivity|exact Hp]].
        intros k Hk. apply lookup_union_r, Hp, Hk.
      - destruct (isEditing p); inversion Hx; subst.
        exists u. split; [exact Hu|]. split; [reflexivity|]. split; [left; reflexivity|].
        cbn [formData]. intros k Hk. apply form_of_keys, Hk. }
    destruct (IH a1 p1 u1 Hu1 Hp1 H) as [u' [Hu' [Hk' Hs']]].
    exists u'. split; [exact Hu'|]. split.
    + intros k Hk. rewrite (Hk' k Hk). apply Hk1, Hk.
    + destruct Hs' as [E' | Hs']; [|right; exact Hs'].
      destruct Hs1 as [E1 | Hs1]; [left; congruence|].
      right. rewrite E' in *. assert (u' = u1) as -> by congruence. exact Hs1.
Qed.

(** X22. Whatever is done on the profile page (edit, change any of
    the four inputs, save, cancel, any number of times) the signed-in
    user stays signed in and keeps every property other than name,
    email, phone and address, the id and the userType among them; and
    either nothing was saved or the saved session is the user as it now
    is. *)
Theorem profile_edits_keep_the_account xs a u st :
  user a = Some u ->
  acts xs (a, opened a) = Some st ->
  exists u',
    user st.1 = Some u' /\
    (forall k, k ∉ inputs -> u' !! k = u !! k) /\
    (st.1 = a \/ saved st.1 = Some (Json u')).
Proof.
  intros Hu H. apply (acts_keep_the_account xs a (opened a) st u Hu); [|exact H].
  intros k Hk. apply form_of_keys, Hk.
Qed.

Lemma profile_edits_keep_the_account_witness :
  exists st u',
    acts [Edit; Change "name" "Asha K"; Save]
      (Samples.signed_in Samples.asha, opened (Samples.signed_in Samples.asha)) = Some st /\
    user st.1 = Some u' /\
    u' !! "id" = Some (VStr "3f2a").
Proof.
  assert (exists st,
             acts [Edit; Change "name" "Asha K"; Save]
               (Samples.signed_in Samples.asha, opened (Samples.signed_in Samples.asha))
             = Some st) as [st Hst] by (eexists; reflexivity).
  destruct (profile_edits_keep_the_account [Edit; Change "name" "Asha K"; Save]
              (Samples.signed_in Samples.asha) Samples.asha st eq_refl Hst)
    as [u' [H1 [H2 _]]].
  exists st, u'. split; [exact Hst|]. split; [exact H1|].
  rewrite H2; [reflexivity|]. apply (bool_decide_unpack _). vm_compute. exact I.
Defined.

(** ** The admin dashboard *)

Lemma address_head_text print a :
  exists head, Admin.address_head print (VStr a) = Normal head.
Proof. unfold Admin.address_head. cbn [text]. eexists. reflexivity. Qed.

(** X23. A complaint sent without coordinates is shown where it is
    not: when the form's latitude and longitude are empty at submit
    time the complaint is stored with latitude 0 and longitude 0, the
    dashboard reads it without failing, and the map pins it at the
    default position 26.8467, 80.9462, since [||] takes the stored 0 for
    a missing value. *)
Theorem unlocated_complaints_are_pinned_at_the_default
    parse print parse_date user env s table table' created :
  reachable s ->
  watch "latitude" s = VStr "" ->
  watch "longitude" s = VStr "" ->
  onSubmit parse user env (form s) s table = (table', Done created) ->
  exists c,
    Admin.transform print parse_date created = Normal c /\
    Admin.latitude c = VNum 0 /\ Admin.longitude c = VNum 0 /\
    Admin.position (Admin.mapPin c) = (VNum (268467 # 10000), VNum (809462 # 10000)).
Proof.
  intros Hr Hlat Hlng H.
  assert (well_formed s) as Hwf by (apply reachable_well_formed, Hr).
  destruct (address_sent s Hwf) as [a [Hsent _]].
  assert (get created "address" = VStr a) as Ha.
  { apply (created_column _ _ _ _ _ _ _ _ "address" (VStr a) H); [column| |exact I].
    intros uid image_url. rewrite <- Hsent. reflexivity. }
  unfold watch in Hlat, Hlng.
  assert (get created "latitude" = VNum 0) as Hla.
  { apply (created_column _ _ _ _ _ _ _ _ "latitude" (VNum 0) H); [column| |exact I].
    intros uid image_url.
    change (Some (parseFloat parse
              (or_else (or_else (get (form s) "latitude") (location_field s "lat"))
                 (VNum 0))) = Some (VNum 0)).
    rewrite Hlat, (location_field_foreign s "lat" Hwf) by discriminate. reflexivity. }
  assert (get created "longitude" = VNum 0) as Hlo.
  { apply (created_column _ _ _ _ _ _ _ _ "longitude" (VNum 0) H); [column| |exact I].
    intros uid image_url.
    change (Some (parseFloat parse
              (or_else (or_else (get (form s) "longitude") (location_field s "lng"))
                 (VNum 0))) = Some (VNum 0)).
    rewrite Hlng, (location_field_foreign s "lng" Hwf) by discriminate. reflexivity. }
  unfold Admin.transform. rewrite Ha.
  destruct (address_head_text print a) as [head ->]. cbn [bind].
  eexists. split; [reflexivity|].
  cbn [Admin.latitude Admin.longitude Admin.mapPin Admin.position].
  rewrite Hla, Hlo. repeat split.
Qed.

Lemma unlocated_complaints_are_pinned_at_the_default_witness :
  exists c,
    Admin.transform Samples.no_print Samples.no_date (Samples.reported Samples.reviewed)
    = Normal c /\
    Admin.latitude c = VNum 0 /\ Admin.longitude c = VNum 0 /\
    Admin.position (Admin.mapPin c) = (VNum (268467 # 10000), VNum (809462 # 10000)).
Proof.
  apply (unlocated_complaints_are_pinned_at_the_default Scenario.no_numeral
           Samples.no_print Samples.no_date (Some Scenario.citizen)
           (Scenario.store_up (Throw (ThrownError "Failed to fetch")))
           Samples.reviewed [] [Samples.reported Samples.reviewed]).
  - apply reviewed_reachable.
  - reflexivity.
  - reflexivity.
  - apply sample_submission; [apply reviewed_reachable | reflexivity].
Defined.

Lemma loadData_reporter print parse_date day_of fault table now s :
  Forall (fun c => Admin.reporter c = "User") (Admin.complaints s) ->
  Forall (fun c => Admin.reporter c = "User")
    (Admin.complaints (Admin.loadData print parse_date day_of fault table now s)).
Proof.
  intros Hs. unfold Admin.loadData.
  destruct (getAllComplaints fault (Admin.filters_of s) table) as [rows|e]; [|exact Hs].
  cbn [bind].
  destruct (Admin.map_throwing (Admin.transform print parse_date) rows) as [cs|e] eqn:E;
    [|exact Hs].
  cbn [Admin.complaints]. clear Hs. revert cs E.
  induction rows as [|r rows IH]; intros cs E; cbn [Admin.map_throwing] in E.
  - inversion E. constructor.
  - destruct (Admin.transform print parse_date r) as [c|] eqn:Ec; [|discriminate].
    cbn [bind] in E.
    destruct (Admin.map_throwing (Admin.transform print parse_date) rows) as [cs'|];
      [|discriminate].
    inversion E; subst. constructor; [|apply IH; reflexivity].
    unfold Admin.transform in Ec.
    destruct (Admin.address_head print (get r "address")); [|discriminate].
    inversion Ec. reflexivity.
Qed.

Lemma run_reporter print parse_date day_of events :
  Forall (fun c => Admin.reporter c = "User")
    (Admin.complaints (Admin.run print parse_date day_of events)).
Proof.
  unfold Admin.run.
  assert (Forall (fun c => Admin.reporter c = "User") (Admin.complaints Admin.initial)) as H
    by constructor.
  revert H. generalize Admin.initial.
  induction events as [|e events IH]; intros s Hs; [exact Hs|].
  cbn [fold_left]. apply IH.
  destruct e; cbn [Admin.handle Admin.complaints]; try exact Hs.
  apply loadData_reporter, Hs.
Qed.

(** X24. On the admin dashboard a search text that occurs in the
    word 'user', letter case aside (the empty text, 'u', 'SE', 'User',
    ...), narrows nothing: every complaint is listed with the reporter
    'User', which the text is matched against, so the list shown is the
    list loaded, filtered by status alone, and rendering it does not
    fail whatever the complaints' addresses are. *)
Theorem searching_for_user_narrows_nothing print parse_date day_of events :
  includes "user"
    (toLowerCase (Admin.searchQuery (Admin.run print parse_date day_of events))) = true ->
  Admin.filteredComplaints print (Admin.run print parse_date day_of events) =
  Normal (List.filter (Admin.matchesFilter (Admin.run print parse_date day_of events))
            (Admin.complaints (Admin.run print parse_date day_of events))).
Proof.
  intros Hq. pose proof (run_reporter print parse_date day_of events) as Hr.
  set (s := Admin.run print parse_date day_of events) in *.
  unfold Admin.filteredComplaints.
  induction (Admin.complaints s) as [|c cs IH]; [reflexivity|].
  apply Forall_cons in Hr as [Hc Hcs].
  cbn [Admin.filter_throwing List.filter]. rewrite (IH Hcs).
  assert (Admin.matchesSearch print s c = Normal true) as ->.
  { unfold Admin.matchesSearch. rewrite Hc.
    destruct (includes (toLowerCase (Admin.title c)) _); [reflexivity|].
    change (toLowerCase "User") with "user". rewrite Hq. reflexivity. }
  cbn [bind]. rewrite andb_true_r. reflexivity.
Qed.

Lemma searching_for_user_narrows_nothing_witness :
  Admin.filteredComplaints Samples.no_print
    (Admin.run Samples.no_print Samples.no_date Samples.utc_day
       [Admin.Loaded None [Scenario.pothole_row] 500; Admin.TypeSearch "USE"]) =
  Normal (List.filter
            (Admin.matchesFilter
               (Admin.run Samples.no_print Samples.no_date Samples.utc_day
                  [Admin.Loaded None [Scenario.pothole_row] 500; Admin.TypeSearch "USE"]))
            (Admin.complaints
               (Admin.run Samples.no_print Samples.no_date Samples.utc_day
                  [Admin.Loaded None [Scenario.pothole_row] 500; Admin.TypeSearch "USE"]))).
Proof.
  apply (searching_for_user_narrows_nothing Samples.no_print Samples.no_date Samples.utc_day
           [Admin.Loaded None [Scenario.pothole_row] 500; Admin.TypeSearch "USE"]).
  vm_compute. reflexivity.
Defined.

(** ** The citizen dashboard *)








